(** * capa-enlace: a data link layer protocol engine

    Shallow embedding of the JavaScript sources
      - [src/constants.js]                  (Module [Constants], [Utils])
      - [src/framing/bitStuffing.js]        (Module [BitStuffing])
      - [src/errorControl/crc.js]           (Module [CRC])
      - [src/framing/frameBuilder.js]       (Module [FrameBuilder])
      - [src/flowControl/windowManager.js]  (Module [WindowManager])
      - [src/errorControl/acknowledgments.js] (Module [AcknowledgmentManager])
      - [src/connection/connectionManager.js] (Module [ConnectionManager])
      - [src/dataLinkLayer.js]              (Modules [DataLinkLayer], [ReceivePath])

    The modules [BitStuffingTools], [AckReplies] and [ReceivePath] hold the
    remaining functions of [bitStuffing.js], the receiving side of
    [acknowledgments.js] and the coordinator's receive path for DATA frames;
    [CRCRun], [WindowRun], [WindowInv] and [AckInv] hold the vocabulary of
    the properties.

    JavaScript numbers are modelled as [Z] (every value that occurs is a small
    integer, so neither the 32-bit wrap of the bit operators nor floating
    point is ever reached), the remainder operator [%] as [Z.rem], a [Buffer]
    as [list byte], a [Map] keyed by sequence number as [gmap Z _]. *)

From Stdlib Require Import ZArith List Lia Bool.
From Stdlib Require Import Init.Byte Strings.Byte.
From stdpp Require Import base option list gmap.

Local Open Scope Z_scope.

(** ** Results of fallible code *)

Inductive Result (E A : Type) : Type :=
| Ok (a : A)
| Err (e : E).
Arguments Ok {E A} a.
Arguments Err {E A} e.

Definition rmap {E A B} (f : A -> B) (r : Result E A) : Result E B :=
  match r with
  | Ok a => Ok (f a)
  | Err e => Err e
  end.

(** ** Buffers

    Reading [buf[i]] yields a number in [0..255]; storing a number keeps its
    low eight bits. *)

Module Buffer.

Definition get (b : byte) : Z := Z.of_N (Byte.to_N b).

Definition put (z : Z) : byte :=
  default x00 (Byte.of_N (Z.to_N (Z.land z 255))).

(** [Buffer.from(array)] *)
Definition from (a : list Z) : list byte := map put a.

(** [buf[i]]: [None] stands for [undefined]. *)
Definition at_ (buf : list byte) (i : Z) : option Z :=
  if (0 <=? i) then get <$> (buf !! Z.to_nat i) else None.

(** [buf.slice(1, -1)] *)
Definition slice_1_m1 (buf : list byte) : list byte :=
  take (length buf - 2)%nat (drop 1 buf).

End Buffer.

(** ** constants.js *)

Module Constants.

Definition FLAG : Z := 0x7e.
Definition ESC : Z := 0x7d.

Module FrameType.
Definition DATA : Z := 0x01.
Definition ACK : Z := 0x02.
Definition NAK : Z := 0x03.
Definition CONN : Z := 0x04.
Definition CONN_ACK : Z := 0x05.
Definition DISC : Z := 0x06.
Definition DISC_ACK : Z := 0x07.
Definition HEARTBEAT : Z := 0x08.
(** [Object.values(FrameType)] *)
Definition values : list Z :=
  [DATA; ACK; NAK; CONN; CONN_ACK; DISC; DISC_ACK; HEARTBEAT].
(** [Object.values(FrameType).includes(t)] *)
Definition includes (t : Z) : bool := existsb (Z.eqb t) values.
End FrameType.

Definition WINDOW_SIZE : Z := 8.
Definition MAX_SEQ_NUM : Z := 15.
Definition SEQ_NUM_BITS : Z := 4.

Definition ACK_TIMEOUT : Z := 2000.
Definition MAX_RETRIES : Z := 3.
Definition HEARTBEAT_INTERVAL : Z := 5000.

Module FieldSize.
Definition MAX_DATA : Z := 1024.
End FieldSize.

Inductive ConnectionState :=
| DISCONNECTED | CONNECTING | CONNECTED | DISCONNECTING.

Definition CRC_POLYNOMIAL : Z := 0x1021.

Module Utils.
Definition nextSeqNum (seqNum : Z) : Z :=
  Z.rem (seqNum + 1) (MAX_SEQ_NUM + 1).

Definition seqNumDiff (a b : Z) : Z :=
  let diff := Z.rem (a - b + MAX_SEQ_NUM + 1) (MAX_SEQ_NUM + 1) in
  if diff >? (MAX_SEQ_NUM + 1) / 2 then diff - (MAX_SEQ_NUM + 1) else diff.

Definition inWindow (seqNum base windowSize : Z) : bool :=
  let diff := seqNumDiff seqNum base in
  (0 <=? diff) && (diff <? windowSize).
End Utils.

End Constants.

(** ** framing/bitStuffing.js *)

Module BitStuffing.
Import Constants.

Inductive StuffingError :=
| EscapeIncomplete            (* 'Escape incompleto al final de los datos' *)
| InvalidEscape (nextByte : Z) (* 'Secuencia de escape inválida' *)
| UnescapedFlag.              (* 'FLAG encontrada sin escape en los datos' *)

(** The [for] loop of [bitStuff]: the numbers pushed on [result], in order. *)
Fixpoint stuffLoop (data : list byte) : list Z :=
  match data with
  | [] => []
  | b :: rest =>
      let byte := Buffer.get b in
      if byte =? FLAG then ESC :: 0x5e :: stuffLoop rest
      else if byte =? ESC then ESC :: 0x5d :: stuffLoop rest
      else byte :: stuffLoop rest
  end.

Definition bitStuff (data : list byte) : list byte :=
  match data with
  | [] => []                                (* data.length === 0 *)
  | _ => Buffer.from (stuffLoop data)
  end.

(** The [while] loop of [bitUnstuff]; [i += 2] is the recursion on the tail
    of the tail, [i++] the recursion on the tail. *)
Fixpoint unstuffLoop (stuffedData : list byte) : Result StuffingError (list Z) :=
  match stuffedData with
  | [] => Ok []
  | b :: rest =>
      let byte := Buffer.get b in
      if byte =? ESC then
        match rest with
        | [] => Err EscapeIncomplete
        | n :: rest' =>
            let nextByte := Buffer.get n in
            if nextByte =? 0x5e then rmap (cons FLAG) (unstuffLoop rest')
            else if nextByte =? 0x5d then rmap (cons ESC) (unstuffLoop rest')
            else Err (InvalidEscape nextByte)
        end
      else if byte =? FLAG then Err UnescapedFlag
      else rmap (cons byte) (unstuffLoop rest)
  end.

Definition bitUnstuff (stuffedData : list byte) : Result StuffingError (list byte) :=
  match stuffedData with
  | [] => Ok []
  | _ => rmap Buffer.from (unstuffLoop stuffedData)
  end.

End BitStuffing.

(** ** errorControl/crc.js *)

Module CRC.
Import Constants.

(** Body of the outer loop of [generateCrcTable] for one index [i]. *)
Definition tableEntry (i : Z) : Z :=
  let step (crc : Z) :=
    if Z.land crc 0x8000 =? 0 then Z.shiftl crc 1
    else Z.lxor (Z.shiftl crc 1) CRC_POLYNOMIAL in
  Z.land (Nat.iter 8 step (Z.shiftl i 8)) 0xffff.

Definition generateCrcTable : list Z :=
  map (fun i => tableEntry (Z.of_nat i)) (seq 0 256).

(** [this.crcTable], computed once by the constructor. *)
Definition crcTable : list Z := Eval vm_compute in generateCrcTable.

(** [this.crcTable[tableIndex]]; the index is masked with [0xff], so the
    lookup never leaves the table. *)
Definition tableAt (tableIndex : Z) : Z :=
  default 0 (crcTable !! Z.to_nat tableIndex).

Definition calculateFrom (data : list byte) (initialValue : Z) : Z :=
  let crc :=
    fold_left
      (fun crc b =>
         let tableIndex := Z.land (Z.lxor (Z.shiftr crc 8) (Buffer.get b)) 0xff in
         Z.land (Z.lxor (Z.shiftl crc 8) (tableAt tableIndex)) 0xffff)
      data initialValue in
  Z.lxor crc 0xffff.

Definition calculate (data : list byte) : Z := calculateFrom data 0xffff.

Definition validate (data : list byte) (receivedCrc : Z) : bool :=
  calculate data =? receivedCrc.

Definition addCrc (data : list byte) : list byte :=
  let crc := calculate data in
  data ++ [Buffer.put (Z.land (Z.shiftr crc 8) 0xff); Buffer.put (Z.land crc 0xff)].

Record Extracted := {
  valid : bool;
  data : list byte;
  crc : Z;
  calculatedCrc : option Z   (* absent on the short-input branch *)
}.

Definition extractAndValidate (dataWithCrc : list byte) : Extracted :=
  if (length dataWithCrc <? 2)%nat then
    {| valid := false; data := []; crc := 0; calculatedCrc := None |}
  else
    let dataLength := (length dataWithCrc - 2)%nat in
    let data := take dataLength dataWithCrc in
    let hi := default 0 (Buffer.at_ dataWithCrc (Z.of_nat dataLength)) in
    let lo := default 0 (Buffer.at_ dataWithCrc (Z.of_nat dataLength + 1)) in
    let receivedCrc := Z.lor (Z.shiftl hi 8) lo in
    {| valid := validate data receivedCrc;
       data := data;
       crc := receivedCrc;
       calculatedCrc := Some (calculate data) |}.

End CRC.

(** ** framing/frameBuilder.js *)

Module FrameBuilder.
Import Constants.

Inductive BuildError :=
| InvalidFrameType (type : Z)     (* 'Tipo de trama inválido' *)
| InvalidSeqNum (seqNum : Z)      (* 'Número de secuencia inválido' *)
| DataTooLarge (len : nat).       (* 'Datos demasiado grandes' *)

Definition buildFrame (type seqNum : Z) (data : list byte)
  : Result BuildError (list byte) :=
  if negb (FrameType.includes type) then Err (InvalidFrameType type)
  else if (seqNum <? 0) || (seqNum >? 15) then Err (InvalidSeqNum seqNum)
  else if Z.of_nat (length data) >? FieldSize.MAX_DATA then Err (DataTooLarge (length data))
  else
    let controlField := type in
    let seqField := Z.land seqNum 0x0f in
    let payload := Buffer.put controlField :: Buffer.put seqField :: data in
    let payloadWithCrc := CRC.addCrc payload in
    let stuffedPayload := BitStuffing.bitStuff payloadWithCrc in
    Ok (Buffer.put FLAG :: stuffedPayload ++ [Buffer.put FLAG]).

Record Frame := {
  type : Z;
  seqNum : Z;
  data : list byte;
  rawLength : nat;
  payloadLength : nat;
  crc : Z
}.

Inductive ParseError :=
| FrameTooSmall                       (* 'Trama demasiado pequeña' *)
| BadFlags                            (* 'FLAGS de inicio/fin incorrectas' *)
| UnstuffError (e : BitStuffing.StuffingError)
| PayloadTooSmall                     (* 'Payload demasiado pequeño' *)
| CrcError (calculated received : Z)  (* crcError: true *)
| ValidPayloadTooSmall                (* 'Payload validado demasiado pequeño' *)
| UnknownFrameType (controlField : Z).

Definition parseFrame (rawFrame : list byte) : Result ParseError Frame :=
  if (length rawFrame <? 4)%nat then Err FrameTooSmall
  else if negb (bool_decide (Buffer.at_ rawFrame 0 = Some FLAG))
          || negb (bool_decide
                     (Buffer.at_ rawFrame (Z.of_nat (length rawFrame) - 1) = Some FLAG))
  then Err BadFlags
  else
    let stuffedPayload := Buffer.slice_1_m1 rawFrame in
    match BitStuffing.bitUnstuff stuffedPayload with
    | Err e => Err (UnstuffError e)
    | Ok payload =>
        if (length payload <? 4)%nat then Err PayloadTooSmall
        else
          let crcResult := CRC.extractAndValidate payload in
          if negb (CRC.valid crcResult) then
            Err (CrcError (default 0 (CRC.calculatedCrc crcResult)) (CRC.crc crcResult))
          else
            match CRC.data crcResult with
            | c :: s :: rest =>
                let controlField := Buffer.get c in
                let seqField := Z.land (Buffer.get s) 0x0f in
                if negb (FrameType.includes controlField)
                then Err (UnknownFrameType controlField)
                else Ok {| type := controlField;
                           seqNum := seqField;
                           data := rest;
                           rawLength := length rawFrame;
                           payloadLength := length rest;
                           crc := CRC.crc crcResult |}
            | _ => Err ValidPayloadTooSmall   (* validPayload.length < 2 *)
            end
    end.

Definition createDataFrame (seqNum : Z) (data : list byte) :=
  buildFrame FrameType.DATA seqNum data.

Definition createAckFrame (seqNum : Z) :=
  buildFrame FrameType.ACK seqNum [].

Definition createNakFrame (seqNum : Z) :=
  buildFrame FrameType.NAK seqNum [].

End FrameBuilder.

(** ** Completions of JavaScript calls *)

Inductive JsException :=
| TypeError                          (* property read on [undefined] *)
| BuildFailed (e : FrameBuilder.BuildError)
| PhysicalLayerNotConfigured.        (* 'Capa física no configurada' *)

Inductive Completion (A : Type) : Type :=
| Normal (a : A)
| Throw (e : JsException)
| LoopBudget.                  (* iteration budget of a [while] loop used up *)
Arguments Normal {A} a.
Arguments Throw {A} e.
Arguments LoopBudget {A}.

(** ** flowControl/windowManager.js *)

Module WindowManager.
Import Constants.

(** An entry of [receiveBuffer]: [{ data, timestamp }]. *)
Record FrameData := {
  fd_data : list byte;
  fd_timestamp : Z
}.

Record Stats := {
  framesSent : Z;
  framesReceived : Z;
  framesBuffered : Z;
  windowFullEvents : Z;
  outOfOrderFrames : Z;
  windowSlides : Z
}.

(** An element of the [delivered] array. *)
Record DeliveredFrame := {
  df_seqNum : Z;
  df_data : list byte;
  df_timestamp : Z
}.

(** Events passed to [this.emit]; the listeners are the subscriber's code and
    not part of the class, so an emission is recorded in [emitted]. *)
Inductive Event :=
| window_full (sendBase nextSeqNum windowSize : Z)
| frame_queued (seqNum sendBase outstanding windowSize : Z)
| window_slide (oldBase newBase ackSeqNum slidDistance : Z) (canSendNow : bool)
| frame_buffered (seqNum expectedSeqNum bufferSize : Z)
| frames_delivered (count : Z) (firstSeqNum lastSeqNum : option Z) (newExpectedSeqNum : Z)
| window_reset.

Record t := {
  sendBase : Z;
  nextSeqNum : Z;
  windowSize : Z;
  expectedSeqNum : Z;
  receiveBuffer : list (option FrameData);   (* [None] is [null] *)
  receivedMask : Z;
  stats : Stats;
  congestionLevel : Z;
  emitted : list Event
}.

(** [new Array(16).fill(null)] *)
Definition emptyBuffer : list (option FrameData) := replicate 16 None.

Definition new : t := {|
  sendBase := 0;
  nextSeqNum := 0;
  windowSize := WINDOW_SIZE;
  expectedSeqNum := 0;
  receiveBuffer := emptyBuffer;
  receivedMask := 0;
  stats := {| framesSent := 0; framesReceived := 0; framesBuffered := 0;
              windowFullEvents := 0; outOfOrderFrames := 0; windowSlides := 0 |};
  congestionLevel := 0;
  emitted := []
|}.

Definition emit (e : Event) (w : t) : t :=
  {| sendBase := sendBase w; nextSeqNum := nextSeqNum w; windowSize := windowSize w;
     expectedSeqNum := expectedSeqNum w; receiveBuffer := receiveBuffer w;
     receivedMask := receivedMask w; stats := stats w;
     congestionLevel := congestionLevel w; emitted := emitted w ++ [e] |}.

Definition set_stats (s : Stats) (w : t) : t :=
  {| sendBase := sendBase w; nextSeqNum := nextSeqNum w; windowSize := windowSize w;
     expectedSeqNum := expectedSeqNum w; receiveBuffer := receiveBuffer w;
     receivedMask := receivedMask w; stats := s;
     congestionLevel := congestionLevel w; emitted := emitted w |}.

Definition set_sendBase (b : Z) (w : t) : t :=
  {| sendBase := b; nextSeqNum := nextSeqNum w; windowSize := windowSize w;
     expectedSeqNum := expectedSeqNum w; receiveBuffer := receiveBuffer w;
     receivedMask := receivedMask w; stats := stats w;
     congestionLevel := congestionLevel w; emitted := emitted w |}.

Definition set_nextSeqNum (n : Z) (w : t) : t :=
  {| sendBase := sendBase w; nextSeqNum := n; windowSize := windowSize w;
     expectedSeqNum := expectedSeqNum w; receiveBuffer := receiveBuffer w;
     receivedMask := receivedMask w; stats := stats w;
     congestionLevel := congestionLevel w; emitted := emitted w |}.

(** Update of the receiver fields. *)
Definition set_receiver (e : Z) (buf : list (option FrameData)) (mask : Z) (w : t) : t :=
  {| sendBase := sendBase w; nextSeqNum := nextSeqNum w; windowSize := windowSize w;
     expectedSeqNum := e; receiveBuffer := buf;
     receivedMask := mask; stats := stats w;
     congestionLevel := congestionLevel w; emitted := emitted w |}.

(** [this.receiveBuffer[i]] read as a JavaScript value. *)
Inductive Cell :=
| Undefined
| Null
| Obj (frameData : FrameData).

Definition bufferAt (buf : list (option FrameData)) (i : Z) : Cell :=
  if 0 <=? i then
    match buf !! Z.to_nat i with
    | Some (Some fd) => Obj fd
    | Some None => Null
    | None => Undefined
    end
  else Undefined.

(** [this.receiveBuffer[i] = v] for an index inside the array.  An index
    outside [0 .. length-1] would make JavaScript grow the array or add a
    property; sequence numbers come from [parseFrame] ([& 0x0f]) and from
    [nextSeqNum] ([% 16]), so that case is not represented and the list is
    left as it is. *)
Definition bufferSet (buf : list (option FrameData)) (i : Z) (v : option FrameData)
  : list (option FrameData) :=
  if (0 <=? i) && (i <? Z.of_nat (length buf)) then <[Z.to_nat i := v]> buf else buf.

Definition canSend (w : t) : bool :=
  let outstanding := Utils.seqNumDiff (nextSeqNum w) (sendBase w) in
  outstanding <? windowSize w.

(** [getNextSeqNum]: [None] is [null] (window full). *)
Definition getNextSeqNum (w : t) : option Z * t :=
  if negb (canSend w) then
    let s := stats w in
    let w := set_stats {| framesSent := framesSent s; framesReceived := framesReceived s;
                          framesBuffered := framesBuffered s;
                          windowFullEvents := windowFullEvents s + 1;
                          outOfOrderFrames := outOfOrderFrames s;
                          windowSlides := windowSlides s |} w in
    (None, emit (window_full (sendBase w) (nextSeqNum w) (windowSize w)) w)
  else
    let seqNum := nextSeqNum w in
    let w := set_nextSeqNum (Utils.nextSeqNum (nextSeqNum w)) w in
    let s := stats w in
    let w := set_stats {| framesSent := framesSent s + 1; framesReceived := framesReceived s;
                          framesBuffered := framesBuffered s;
                          windowFullEvents := windowFullEvents s;
                          outOfOrderFrames := outOfOrderFrames s;
                          windowSlides := windowSlides s |} w in
    (Some seqNum,
     emit (frame_queued seqNum (sendBase w)
             (Utils.seqNumDiff (nextSeqNum w) (sendBase w)) (windowSize w)) w).

Inductive AckResult :=
| ack_duplicate (seqNum sendBase : Z)
| ack_out_of_window (seqNum sendBase : Z)
| ack_accepted (seqNum oldBase newBase slidDistance : Z).

Definition windowSlid (r : AckResult) : bool :=
  match r with
  | ack_accepted _ _ _ _ => true
  | _ => false
  end.

Definition processAck (ackSeqNum : Z) (w : t) : AckResult * t :=
  let diff := Utils.seqNumDiff ackSeqNum (sendBase w) in
  if diff <? 0 then (ack_duplicate ackSeqNum (sendBase w), w)
  else if diff >=? windowSize w then (ack_out_of_window ackSeqNum (sendBase w), w)
  else
    let oldBase := sendBase w in
    let w := set_sendBase (Utils.nextSeqNum ackSeqNum) w in
    let slidDistance := Utils.seqNumDiff (sendBase w) oldBase in
    let s := stats w in
    let w := set_stats {| framesSent := framesSent s; framesReceived := framesReceived s;
                          framesBuffered := framesBuffered s;
                          windowFullEvents := windowFullEvents s;
                          outOfOrderFrames := outOfOrderFrames s;
                          windowSlides := windowSlides s + 1 |} w in
    let w := emit (window_slide oldBase (sendBase w) ackSeqNum slidDistance (canSend w)) w in
    (ack_accepted ackSeqNum oldBase (sendBase w) slidDistance, w).

Inductive ReceiveResult :=
| recv_duplicate (seqNum expectedSeqNum : Z)
| recv_out_of_window (seqNum expectedSeqNum : Z)
| recv_delivered (frames : list DeliveredFrame) (expectedSeqNum : Z)
| recv_buffered (seqNum expectedSeqNum : Z).

Definition shouldAck (r : ReceiveResult) : bool :=
  match r with
  | recv_duplicate _ _ => true
  | recv_out_of_window _ _ => false
  | recv_delivered _ _ => true
  | recv_buffered _ _ => false
  end.

(** [getBufferSize]: the indices [0..15] whose slot is not [null]. *)
Definition getBufferSize (w : t) : Z :=
  Z.of_nat (length (List.filter
                      (fun i => match bufferAt (receiveBuffer w) (Z.of_nat i) with
                                | Null => false
                                | _ => true
                                end) (seq 0 16))).

(** The [while] loop of [deliverFramesInOrder]; one unit of [budget] per
    evaluation of the loop condition. *)
Fixpoint deliverLoop (budget : nat) (w : t) (delivered : list DeliveredFrame)
  : Completion (t * list DeliveredFrame) :=
  match budget with
  | O => LoopBudget
  | S budget' =>
      match bufferAt (receiveBuffer w) (expectedSeqNum w) with
      | Null => Normal (w, delivered)
      | Undefined => Throw TypeError        (* [frameData.data] on [undefined] *)
      | Obj frameData =>
          let delivered := delivered ++
            [{| df_seqNum := expectedSeqNum w;
                df_data := fd_data frameData;
                df_timestamp := fd_timestamp frameData |}] in
          let w := set_receiver
                     (Utils.nextSeqNum (expectedSeqNum w))
                     (bufferSet (receiveBuffer w) (expectedSeqNum w) None)
                     (Z.shiftr (receivedMask w) 1) w in
          deliverLoop budget' w delivered
      end
  end.

Definition deliverFramesInOrder (w : t) : Completion (ReceiveResult * t) :=
  match deliverLoop (S (length (receiveBuffer w))) w [] with
  | Normal (w, delivered) =>
      let w := emit (frames_delivered (Z.of_nat (length delivered))
                       (df_seqNum <$> head delivered)
                       (df_seqNum <$> last delivered)
                       (expectedSeqNum w)) w in
      Normal (recv_delivered delivered (expectedSeqNum w), w)
  | Throw e => Throw e
  | LoopBudget => LoopBudget
  end.

Definition receiveFrame (seqNum : Z) (data : list byte) (now : Z) (w : t)
  : Completion (ReceiveResult * t) :=
  let s := stats w in
  let w := set_stats {| framesSent := framesSent s; framesReceived := framesReceived s + 1;
                        framesBuffered := framesBuffered s;
                        windowFullEvents := windowFullEvents s;
                        outOfOrderFrames := outOfOrderFrames s;
                        windowSlides := windowSlides s |} w in
  let diff := Utils.seqNumDiff seqNum (expectedSeqNum w) in
  if diff <? 0 then Normal (recv_duplicate seqNum (expectedSeqNum w), w)
  else if diff >=? windowSize w then Normal (recv_out_of_window seqNum (expectedSeqNum w), w)
  else
    let bitPos := Utils.seqNumDiff seqNum (expectedSeqNum w) in
    let w := set_receiver (expectedSeqNum w)
               (bufferSet (receiveBuffer w) seqNum
                  (Some {| fd_data := data; fd_timestamp := now |}))
               (Z.lor (receivedMask w) (Z.shiftl 1 bitPos)) w in
    if seqNum =? expectedSeqNum w then deliverFramesInOrder w
    else
      let s := stats w in
      let w := set_stats {| framesSent := framesSent s; framesReceived := framesReceived s;
                            framesBuffered := framesBuffered s + 1;
                            windowFullEvents := windowFullEvents s;
                            outOfOrderFrames := outOfOrderFrames s + 1;
                            windowSlides := windowSlides s |} w in
      let w := emit (frame_buffered seqNum (expectedSeqNum w) (getBufferSize w)) w in
      Normal (recv_buffered seqNum (expectedSeqNum w), w).

(** [reset] *)
Definition reset (w : t) : t :=
  emit window_reset
    {| sendBase := 0; nextSeqNum := 0; windowSize := WINDOW_SIZE;
       expectedSeqNum := 0; receiveBuffer := emptyBuffer; receivedMask := 0;
       stats := stats w; congestionLevel := 0; emitted := emitted w |}.

End WindowManager.

(** ** Vocabulary for the window manager's properties *)

Module WindowRun.
Import Constants WindowManager.

(** Shape of the receiver state kept by the constructor, [reset] and every
    method: sixteen slots and an expected sequence number in [0..15]. *)
Definition wf_receiver (w : t) : Prop :=
  length (receiveBuffer w) = 16%nat /\ 0 <= expectedSeqNum w < 16.

(** A slot of the list read as a JavaScript value. *)
Definition cellOf (v : option FrameData) : Cell :=
  match v with
  | Some fd => Obj fd
  | None => Null
  end.

(** Number of slots holding a frame. *)
Fixpoint countObj (buf : list (option FrameData)) : nat :=
  match buf with
  | [] => O
  | Some _ :: rest => S (countObj rest)
  | None :: rest => countObj rest
  end.

(** A run of the receiver: [receiveFrame] on each input in turn. *)
Fixpoint receiveAll (inputs : list (Z * list byte * Z)) (w : t)
  : Completion (list ReceiveResult * t) :=
  match inputs with
  | [] => Normal ([], w)
  | (seqNum, data, now) :: rest =>
      match receiveFrame seqNum data now w with
      | Normal (r, w') =>
          match receiveAll rest w' with
          | Normal (rs, w'') => Normal (r :: rs, w'')
          | Throw e => Throw e
          | LoopBudget => LoopBudget
          end
      | Throw e => Throw e
      | LoopBudget => LoopBudget
      end
  end.

(** Sequence numbers handed over by one result, and by the results of a run. *)
Definition deliveredOf (r : ReceiveResult) : list Z :=
  match r with
  | recv_delivered frames _ => map df_seqNum frames
  | _ => []
  end.

Definition deliveredSeqs (rs : list ReceiveResult) : list Z :=
  concat (map deliveredOf rs).

(** [l] is [e, e+1, e+2, ...] modulo 16. *)
Definition consecutive_from (e : Z) (l : list Z) : Prop :=
  forall (i : nat) (x : Z), l !! i = Some x -> x = (e + Z.of_nat i) mod 16.

(** A run of ACKs through [processAck]; the list of send bases after each. *)
Fixpoint processAcks (acks : list Z) (w : t) : list Z * t :=
  match acks with
  | [] => ([], w)
  | a :: rest =>
      let '(_, w') := processAck a w in
      let '(bases, w'') := processAcks rest w' in
      (sendBase w' :: bases, w'')
  end.

End WindowRun.

(** ** errorControl/acknowledgments.js *)

Module AcknowledgmentManager.
Import Constants.

(** A value of the [pendingAcks] map.  [timeout] is the handle returned by
    [setTimeout] (handles are objects, so the guards [if (pending.timeout)]
    always pass); [retransmitCallback] records whether a function was
    supplied, its invocation is the action [call_retransmit]. *)
Record PendingAck := {
  frame : list byte;
  timestamp : Z;
  retries : Z;
  timeout : nat;
  retransmitCallback : bool
}.

Record Stats := {
  acksSent : Z;
  naksSent : Z;
  acksReceived : Z;
  naksReceived : Z;
  timeouts : Z;
  retransmissions : Z;
  duplicatesDetected : Z
}.

Inductive Event :=
| ack_registered (seqNum frameSize timeout : Z)
| ack_unexpected (seqNum : Z)
| ack_received (seqNum rtt retries : Z)
| nak_unexpected (seqNum : Z)
| nak_received (seqNum retries : Z)
| ack_timeout (seqNum retries maxRetries : Z)
| frame_failed (seqNum retries : Z)          (* reason: 'Max retries exceeded' *)
| frame_retransmitting (seqNum attempt : Z)
| acks_cleared.

(** What a method does to the outside, in order: events passed to
    [this.emit] and invocations of a stored [retransmitCallback]. *)
Inductive Action :=
| Emit (e : Event)
| call_retransmit (frame : list byte) (seqNum : Z).

(** The engine's state.  [timers] holds the live [setTimeout] timers: handle
    to the sequence number whose [handleAckTimeout] it will run. *)
Record t := {
  pendingAcks : gmap Z PendingAck;
  receivedFrames : gset Z;
  expectedSeqNum : Z;
  stats : Stats;
  timers : gmap nat Z;
  nextTimer : nat
}.

Definition new : t := {|
  pendingAcks := ∅;
  receivedFrames := ∅;
  expectedSeqNum := 0;
  stats := {| acksSent := 0; naksSent := 0; acksReceived := 0; naksReceived := 0;
              timeouts := 0; retransmissions := 0; duplicatesDetected := 0 |};
  timers := ∅;
  nextTimer := 0
|}.

(** Methods run in a state-and-writer monad over the engine state. *)
Definition M (A : Type) : Type := t -> A * t * list Action.

Definition ret {A} (x : A) : M A := fun a => (x, a, []).

Definition bind {A B} (m : M A) (k : A -> M B) : M B :=
  fun a =>
    let '(x, a1, out1) := m a in
    let '(y, a2, out2) := k x a1 in
    (y, a2, out1 ++ out2).

Notation "'let*' x := m 'in' k" := (bind m (fun x => k))
  (at level 10, x name, m at level 100, k at level 200).
Notation "m ;;; k" := (bind m (fun _ => k))
  (at level 90, right associativity).

Definition emit (e : Event) : M unit := fun a => (tt, a, [Emit e]).
Definition call (frame : list byte) (seqNum : Z) : M unit :=
  fun a => (tt, a, [call_retransmit frame seqNum]).
Definition gets {A} (f : t -> A) : M A := fun a => (f a, a, []).
Definition modify (f : t -> t) : M unit := fun a => (tt, f a, []).

Definition set_pendingAcks (p : gmap Z PendingAck) (a : t) : t :=
  {| pendingAcks := p; receivedFrames := receivedFrames a;
     expectedSeqNum := expectedSeqNum a; stats := stats a;
     timers := timers a; nextTimer := nextTimer a |}.

Definition set_stats (s : Stats) (a : t) : t :=
  {| pendingAcks := pendingAcks a; receivedFrames := receivedFrames a;
     expectedSeqNum := expectedSeqNum a; stats := s;
     timers := timers a; nextTimer := nextTimer a |}.

(** [setTimeout(() => this.handleAckTimeout(seqNum, cb), ACK_TIMEOUT)] *)
Definition setTimeout (seqNum : Z) : M nat :=
  fun a =>
    let h := nextTimer a in
    (h,
     {| pendingAcks := pendingAcks a; receivedFrames := receivedFrames a;
        expectedSeqNum := expectedSeqNum a; stats := stats a;
        timers := <[h := seqNum]> (timers a); nextTimer := S h |},
     []).

Definition clearTimeout (h : nat) : M unit :=
  modify (fun a =>
    {| pendingAcks := pendingAcks a; receivedFrames := receivedFrames a;
       expectedSeqNum := expectedSeqNum a; stats := stats a;
       timers := delete h (timers a); nextTimer := nextTimer a |}).

Definition registerPendingAck (seqNum : Z) (frame : list byte)
    (retransmitCallback : bool) (now : Z) : M unit :=
  let* existing := gets (fun a => pendingAcks a !! seqNum) in
  match existing with
  | Some existing => clearTimeout (timeout existing)
  | None => ret tt
  end ;;;
  let* timeout := setTimeout seqNum in
  modify (fun a =>
    set_pendingAcks
      (<[seqNum := {| frame := frame; timestamp := now; retries := 0;
                      timeout := timeout;
                      retransmitCallback := retransmitCallback |}]> (pendingAcks a)) a) ;;;
  emit (ack_registered seqNum (Z.of_nat (length frame)) ACK_TIMEOUT).

Definition handleReceivedAck (seqNum : Z) (now : Z) : M bool :=
  modify (fun a =>
    let s := stats a in
    set_stats {| acksSent := acksSent s; naksSent := naksSent s;
                 acksReceived := acksReceived s + 1; naksReceived := naksReceived s;
                 timeouts := timeouts s; retransmissions := retransmissions s;
                 duplicatesDetected := duplicatesDetected s |} a) ;;;
  let* entry := gets (fun a => pendingAcks a !! seqNum) in
  match entry with
  | None => emit (ack_unexpected seqNum) ;;; ret false
  | Some pending =>
      let rtt := now - timestamp pending in
      clearTimeout (timeout pending) ;;;
      modify (fun a => set_pendingAcks (delete seqNum (pendingAcks a)) a) ;;;
      emit (ack_received seqNum rtt (retries pending)) ;;;
      ret true
  end.

Definition retransmitFrame (seqNum : Z) (now : Z) : M unit :=
  let* entry := gets (fun a => pendingAcks a !! seqNum) in
  match entry with
  | None => ret tt
  | Some pending =>
      modify (fun a =>
        let s := stats a in
        set_stats {| acksSent := acksSent s; naksSent := naksSent s;
                     acksReceived := acksReceived s; naksReceived := naksReceived s;
                     timeouts := timeouts s; retransmissions := retransmissions s + 1;
                     duplicatesDetected := duplicatesDetected s |} a) ;;;
      clearTimeout (timeout pending) ;;;
      let* timeout := setTimeout seqNum in
      modify (fun a =>
        set_pendingAcks
          (<[seqNum := {| frame := frame pending; timestamp := now;
                          retries := retries pending; timeout := timeout;
                          retransmitCallback := retransmitCallback pending |}]>
             (pendingAcks a)) a) ;;;
      emit (frame_retransmitting seqNum (retries pending + 1)) ;;;
      if retransmitCallback pending then call (frame pending) seqNum else ret tt
  end.

Definition handleReceivedNak (seqNum : Z) (now : Z) : M bool :=
  modify (fun a =>
    let s := stats a in
    set_stats {| acksSent := acksSent s; naksSent := naksSent s;
                 acksReceived := acksReceived s; naksReceived := naksReceived s + 1;
                 timeouts := timeouts s; retransmissions := retransmissions s;
                 duplicatesDetected := duplicatesDetected s |} a) ;;;
  let* entry := gets (fun a => pendingAcks a !! seqNum) in
  match entry with
  | None => emit (nak_unexpected seqNum) ;;; ret false
  | Some pending =>
      emit (nak_received seqNum (retries pending)) ;;;
      retransmitFrame seqNum now ;;;
      ret true
  end.

Definition handleAckTimeout (seqNum : Z) (now : Z) : M unit :=
  let* entry := gets (fun a => pendingAcks a !! seqNum) in
  match entry with
  | None => ret tt                                   (* 'Ya fue procesado' *)
  | Some pending =>
      (* pending.retries++ on the object held by the map *)
      let pending := {| frame := frame pending; timestamp := timestamp pending;
                        retries := retries pending + 1; timeout := timeout pending;
                        retransmitCallback := retransmitCallback pending |} in
      modify (fun a => set_pendingAcks (<[seqNum := pending]> (pendingAcks a)) a) ;;;
      modify (fun a =>
        let s := stats a in
        set_stats {| acksSent := acksSent s; naksSent := naksSent s;
                     acksReceived := acksReceived s; naksReceived := naksReceived s;
                     timeouts := timeouts s + 1; retransmissions := retransmissions s;
                     duplicatesDetected := duplicatesDetected s |} a) ;;;
      emit (ack_timeout seqNum (retries pending) MAX_RETRIES) ;;;
      if retries pending >=? MAX_RETRIES then
        modify (fun a => set_pendingAcks (delete seqNum (pendingAcks a)) a) ;;;
        emit (frame_failed seqNum (retries pending))
      else
        retransmitFrame seqNum now
  end.

(** The timer with handle [h] expires: a live timer is consumed and runs its
    [handleAckTimeout]; a cleared one does nothing. *)
Definition fireTimer (h : nat) (now : Z) : M unit :=
  let* scheduled := gets (fun a => timers a !! h) in
  match scheduled with
  | None => ret tt
  | Some seqNum => clearTimeout h ;;; handleAckTimeout seqNum now
  end.

(** [clearPendingAcks] *)
Definition clearPendingAcks : M unit :=
  modify (fun a =>
    {| pendingAcks := ∅; receivedFrames := ∅;
       expectedSeqNum := expectedSeqNum a; stats := stats a;
       timers := foldr (fun p tm => delete (timeout p.2) tm) (timers a)
                   (map_to_list (pendingAcks a));
       nextTimer := nextTimer a |}) ;;;
  emit acks_cleared.

(** Number of invocations of the retransmit callback among some actions. *)
Definition retransmitCalls (out : list Action) : nat :=
  length (List.filter (fun x => match x with
                                | call_retransmit _ _ => true
                                | _ => false
                                end) out).

End AcknowledgmentManager.

(** ** connection/connectionManager.js *)

Module ConnectionManager.
Import Constants.

Record Stats := {
  connectionsEstablished : Z;
  connectionsFailed : Z;
  disconnections : Z;
  heartbeatsSent : Z;
  heartbeatsReceived : Z;
  connectionUptime : Z;
  connectionStartTime : option Z      (* [None] is [null] *)
}.

Inductive Event :=
| disconnection_request (remoteSeqNum : Z)
| disconnected (uptime : Z).

Inductive Action :=
| Emit (e : Event)
| send (frame : list byte).          (* [this.sendCallback(frame)] *)

(** Closures handed to [setTimeout]. *)
Inductive Task :=
| task_handleDisconnection (delay : Z).   (* [() => this.handleDisconnection()] *)

Record t := {
  state : ConnectionState;
  localSeqNum : Z;
  remoteSeqNum : Z;
  sendCallback : bool;                (* whether a send function is stored *)
  connectionTimeout : option nat;
  heartbeatTimer : option nat;
  stats : Stats;
  timers : gmap nat Task;
  nextTimer : nat
}.

(** UTF-8 bytes of the string ['DISC_ACK']. *)
Definition str_DISC_ACK : list byte := [x44; x49; x53; x43; x5f; x41; x43; x4b].

(** [handleDisconnection] *)
Definition handleDisconnection (now : Z) (c : t) : t * list Action :=
  let s := stats c in
  let s :=
    match connectionStartTime s with
    | Some start =>
        {| connectionsEstablished := connectionsEstablished s;
           connectionsFailed := connectionsFailed s;
           disconnections := disconnections s;
           heartbeatsSent := heartbeatsSent s;
           heartbeatsReceived := heartbeatsReceived s;
           connectionUptime := connectionUptime s + (now - start);
           connectionStartTime := None |}
    | None => s
    end in
  let s := {| connectionsEstablished := connectionsEstablished s;
              connectionsFailed := connectionsFailed s;
              disconnections := disconnections s + 1;
              heartbeatsSent := heartbeatsSent s;
              heartbeatsReceived := heartbeatsReceived s;
              connectionUptime := connectionUptime s;
              connectionStartTime := connectionStartTime s |} in
  (* stopHeartbeat, clearTimeouts *)
  let tm := match heartbeatTimer c with
            | Some h => delete h (timers c)
            | None => timers c
            end in
  let tm := match connectionTimeout c with
            | Some h => delete h tm
            | None => tm
            end in
  ({| state := DISCONNECTED;
      localSeqNum := localSeqNum c; remoteSeqNum := remoteSeqNum c;
      sendCallback := sendCallback c;
      connectionTimeout := None; heartbeatTimer := None;
      stats := s; timers := tm; nextTimer := nextTimer c |},
   [Emit (disconnected (connectionUptime s))]).

(** [handleDisconnectionRequest(frame)]; [remote] is [frame.seqNum]. *)
Definition handleDisconnectionRequest (remote : Z) (c : t)
  : Completion (bool * t * list Action) :=
  match state c with
  | CONNECTED =>
      match FrameBuilder.createDataFrame (localSeqNum c) str_DISC_ACK with
      | Err e => Throw (BuildFailed e)
      | Ok discAckFrame =>
          let sent := if sendCallback c then [send discAckFrame] else [] in
          let h := nextTimer c in
          let c := {| state := state c;
                      localSeqNum := localSeqNum c; remoteSeqNum := remoteSeqNum c;
                      sendCallback := sendCallback c;
                      connectionTimeout := connectionTimeout c;
                      heartbeatTimer := heartbeatTimer c;
                      stats := stats c;
                      timers := <[h := task_handleDisconnection 100]> (timers c);
                      nextTimer := S h |} in
          Normal (true, c, sent ++ [Emit (disconnection_request remote)])
      end
  | _ => Normal (true, c, [Emit (disconnection_request remote)])
  end.

(** The timer with handle [h] expires. *)
Definition fireTimer (h : nat) (now : Z) (c : t) : t * list Action :=
  match timers c !! h with
  | None => (c, [])
  | Some (task_handleDisconnection _) =>
      handleDisconnection now
        {| state := state c;
           localSeqNum := localSeqNum c; remoteSeqNum := remoteSeqNum c;
           sendCallback := sendCallback c;
           connectionTimeout := connectionTimeout c;
           heartbeatTimer := heartbeatTimer c;
           stats := stats c;
           timers := delete h (timers c);
           nextTimer := nextTimer c |}
  end.

End ConnectionManager.

(** ** dataLinkLayer.js *)

Module DataLinkLayer.
Import Constants.

Inductive Event :=
| window_advanced (oldBase newBase : Z)
| data_frame_sent (seqNum dataSize frameSize : Z)
| error_recovery_ack_timeout (seqNum retries maxRetries : Z)
| transmission_failed (seqNum retries : Z)
| ack_received (seqNum rtt retries : Z)
| nak_received (seqNum retries : Z).

Record t := {
  windowManager : WindowManager.t;
  ackManager : AcknowledgmentManager.t;
  physicalLayerCallback : bool;        (* whether [setPhysicalLayer] was called *)
  transmitted : list (list byte);      (* frames handed to the physical layer *)
  totalFramesSent : Z;
  totalDataBytesSent : Z;
  totalErrors : Z;
  emitted : list Event
}.

Definition new : t := {|
  windowManager := WindowManager.new;
  ackManager := AcknowledgmentManager.new;
  physicalLayerCallback := false;
  transmitted := [];
  totalFramesSent := 0;
  totalDataBytesSent := 0;
  totalErrors := 0;
  emitted := []
|}.

Definition setPhysicalLayer (d : t) : t :=
  {| windowManager := windowManager d; ackManager := ackManager d;
     physicalLayerCallback := true; transmitted := transmitted d;
     totalFramesSent := totalFramesSent d; totalDataBytesSent := totalDataBytesSent d;
     totalErrors := totalErrors d; emitted := emitted d |}.

Definition set_managers (w : WindowManager.t) (a : AcknowledgmentManager.t) (d : t) : t :=
  {| windowManager := w; ackManager := a;
     physicalLayerCallback := physicalLayerCallback d; transmitted := transmitted d;
     totalFramesSent := totalFramesSent d; totalDataBytesSent := totalDataBytesSent d;
     totalErrors := totalErrors d; emitted := emitted d |}.

Definition emit (e : Event) (d : t) : t :=
  {| windowManager := windowManager d; ackManager := ackManager d;
     physicalLayerCallback := physicalLayerCallback d; transmitted := transmitted d;
     totalFramesSent := totalFramesSent d; totalDataBytesSent := totalDataBytesSent d;
     totalErrors := totalErrors d; emitted := emitted d ++ [e] |}.

Definition sendFrameToPhysical (frame : list byte) (d : t) : Completion t :=
  if negb (physicalLayerCallback d) then Throw PhysicalLayerNotConfigured
  else Normal
    {| windowManager := windowManager d; ackManager := ackManager d;
       physicalLayerCallback := physicalLayerCallback d;
       transmitted := transmitted d ++ [frame];
       totalFramesSent := totalFramesSent d; totalDataBytesSent := totalDataBytesSent d;
       totalErrors := totalErrors d; emitted := emitted d |}.

(** The coordinator's reaction to one action of the ACK engine: the
    listeners installed by [setupEventListeners], and the retransmit
    callback [(retransmitFrame, retransmitSeqNum) =>
    this.sendFrameToPhysical(retransmitFrame)] given to
    [registerPendingAck]. *)
Definition react (x : AcknowledgmentManager.Action) (d : t) : Completion t :=
  match x with
  | AcknowledgmentManager.call_retransmit frame _ => sendFrameToPhysical frame d
  | AcknowledgmentManager.Emit (AcknowledgmentManager.ack_timeout s r m) =>
      Normal (emit (error_recovery_ack_timeout s r m) d)
  | AcknowledgmentManager.Emit (AcknowledgmentManager.frame_failed s r) =>
      Normal (emit (transmission_failed s r)
        {| windowManager := windowManager d; ackManager := ackManager d;
           physicalLayerCallback := physicalLayerCallback d; transmitted := transmitted d;
           totalFramesSent := totalFramesSent d; totalDataBytesSent := totalDataBytesSent d;
           totalErrors := totalErrors d + 1; emitted := emitted d |})
  | AcknowledgmentManager.Emit (AcknowledgmentManager.ack_received s rtt r) =>
      Normal (emit (ack_received s rtt r) d)
  | AcknowledgmentManager.Emit (AcknowledgmentManager.nak_received s r) =>
      Normal (emit (nak_received s r) d)
  | AcknowledgmentManager.Emit _ => Normal d
  end.

Fixpoint reactAll (out : list AcknowledgmentManager.Action) (d : t) : Completion t :=
  match out with
  | [] => Normal d
  | x :: rest =>
      match react x d with
      | Normal d' => reactAll rest d'
      | Throw e => Throw e
      | LoopBudget => LoopBudget
      end
  end.

(** Run a method of [this.ackManager] and the coordinator's reactions. *)
Definition withAckManager {A} (m : AcknowledgmentManager.M A) (d : t)
  : Completion (A * t) :=
  let '(x, a, out) := m (ackManager d) in
  match reactAll out (set_managers (windowManager d) a d) with
  | Normal d' => Normal (x, d')
  | Throw e => Throw e
  | LoopBudget => LoopBudget
  end.

Inductive SendOutcome :=
| sent (seqNum : Z)
| awaiting_window.       (* [await this.waitForWindowSpace()], then retry *)

(** [sendDataFrame(data)] up to its first suspension. *)
Definition sendDataFrame (data : list byte) (now : Z) (d : t)
  : Completion (SendOutcome * t) :=
  let '(seqNum, w) := WindowManager.getNextSeqNum (windowManager d) in
  let d := set_managers w (ackManager d) d in
  match seqNum with
  | None => Normal (awaiting_window, d)
  | Some seqNum =>
      match FrameBuilder.createDataFrame seqNum data with
      | Err e => Throw (BuildFailed e)
      | Ok frame =>
          match withAckManager
                  (AcknowledgmentManager.registerPendingAck seqNum frame true now) d with
          | Normal (_, d) =>
              match sendFrameToPhysical frame d with
              | Normal d =>
                  let d :=
                    {| windowManager := windowManager d; ackManager := ackManager d;
                       physicalLayerCallback := physicalLayerCallback d;
                       transmitted := transmitted d;
                       totalFramesSent := totalFramesSent d + 1;
                       totalDataBytesSent := totalDataBytesSent d + Z.of_nat (length data);
                       totalErrors := totalErrors d; emitted := emitted d |} in
                  Normal (sent seqNum,
                          emit (data_frame_sent seqNum (Z.of_nat (length data))
                                  (Z.of_nat (length frame))) d)
              | Throw e => Throw e
              | LoopBudget => LoopBudget
              end
          | Throw e => Throw e
          | LoopBudget => LoopBudget
          end
      end
  end.

(** Several [sendDataFrame] calls in a row, each finding room in the window
    or stopping the run. *)
Fixpoint sendAll (payloads : list (list byte)) (now : Z) (d : t) : Completion t :=
  match payloads with
  | [] => Normal d
  | data :: rest =>
      match sendDataFrame data now d with
      | Normal (_, d') => sendAll rest now d'
      | Throw e => Throw e
      | LoopBudget => LoopBudget
      end
  end.

(** [processAckFrame(frame)]; [seqNum] is [frame.seqNum].  The boolean of the
    result tells whether the window slid, in which case the send pipeline
    ([processSendQueue]) is resumed; that pipeline only adds entries to the
    pending map. *)
Definition processAckFrame (seqNum : Z) (now : Z) (d : t) : Completion (bool * t) :=
  match withAckManager (AcknowledgmentManager.handleReceivedAck seqNum now) d with
  | Normal (_, d) =>
      let '(windowResult, w) := WindowManager.processAck seqNum (windowManager d) in
      let d := set_managers w (ackManager d) d in
      match windowResult with
      | WindowManager.ack_accepted _ oldBase newBase _ =>
          Normal (true, emit (window_advanced oldBase newBase) d)
      | _ => Normal (false, d)
      end
  | Throw e => Throw e
  | LoopBudget => LoopBudget
  end.

(** [processNakFrame(frame)] *)
Definition processNakFrame (seqNum : Z) (now : Z) (d : t) : Completion (bool * t) :=
  withAckManager (AcknowledgmentManager.handleReceivedNak seqNum now) d.

(** A retransmission timer of the ACK engine expires. *)
Definition ackTimerFired (h : nat) (now : Z) (d : t) : Completion (unit * t) :=
  withAckManager (AcknowledgmentManager.fireTimer h now) d.

End DataLinkLayer.

(** ** framing/bitStuffing.js: size bound, statistics and validation *)

Module BitStuffingTools.
Import Constants.

Definition getMaxStuffedSize (originalSize : Z) : Z := originalSize * 2.

(** The counting loop of [getStuffingStats]: how often [data[i] === v]. *)
Fixpoint countByte (v : Z) (data : list byte) : Z :=
  match data with
  | [] => 0
  | b :: rest => (if Buffer.get b =? v then 1 else 0) + countByte v rest
  end.

(** The integer fields of the object returned by [getStuffingStats]
    ([overheadPercent] is a floating-point quotient and is left out). *)
Record StuffingStats := {
  originalSize : Z;
  stuffedSize : Z;
  overhead : Z;
  flagsEscaped : Z;
  escsEscaped : Z;
  totalEscaped : Z
}.

Definition getStuffingStats (originalData stuffedData : list byte) : StuffingStats :=
  let originalSize := Z.of_nat (length originalData) in
  let stuffedSize := Z.of_nat (length stuffedData) in
  let flagCount := countByte FLAG originalData in
  let escCount := countByte ESC originalData in
  {| originalSize := originalSize;
     stuffedSize := stuffedSize;
     overhead := stuffedSize - originalSize;
     flagsEscaped := flagCount;
     escsEscaped := escCount;
     totalEscaped := flagCount + escCount |}.

Inductive IssueKind :=
| flag_unescaped                    (* 'FLAG sin escape encontrada' *)
| esc_at_end                        (* 'ESC al final sin byte siguiente' *)
| escape_invalid (nextByte : Z).    (* 'Secuencia de escape inválida' *)

Record Issue := {
  position : Z;
  issue : IssueKind;
  byte_ : Z      (* the field [byte] *)
}.

(** The [for] loop of [validateStuffedData] from index [i] on: every
    position is inspected, also the one after an ESC. *)
Fixpoint validateLoop (i : Z) (data : list byte) : list Issue :=
  match data with
  | [] => []
  | b :: rest =>
      (if Buffer.get b =? FLAG
       then [{| position := i; issue := flag_unescaped; byte_ := Buffer.get b |}]
       else [])
      ++
      (if Buffer.get b =? ESC then
         match rest with
         | [] => [{| position := i; issue := esc_at_end; byte_ := Buffer.get b |}]
         | n :: _ =>
             if negb (Buffer.get n =? 0x5e) && negb (Buffer.get n =? 0x5d)
             then [{| position := i; issue := escape_invalid (Buffer.get n);
                      byte_ := Buffer.get b |}]
             else []
         end
       else [])
      ++ validateLoop (i + 1) rest
  end.

Record Validation := {
  valid : bool;
  issues : list Issue
}.

(** [valid] is cleared exactly when an issue is pushed. *)
Definition validateStuffedData (data : list byte) : Validation :=
  let issues := validateLoop 0 data in
  {| valid := match issues with [] => true | _ => false end;
     issues := issues |}.

End BitStuffingTools.

(** ** Vocabulary for the CRC properties *)

Module CRCRun.
Import Constants.

(** The body of the loop of [calculate]: the register after one more byte. *)
Definition step (crc : Z) (b : byte) : Z :=
  let tableIndex := Z.land (Z.lxor (Z.shiftr crc 8) (Buffer.get b)) 0xff in
  Z.land (Z.lxor (Z.shiftl crc 8) (CRC.tableAt tableIndex)) 0xffff.

(** The two bytes [addCrc] appends for a CRC value. *)
Definition trailer (crc : Z) : list byte :=
  [Buffer.put (Z.land (Z.shiftr crc 8) 0xff); Buffer.put (Z.land crc 0xff)].

(** Checks on the 256 table entries, decided by evaluation: every entry is a
    16-bit value ([tableEntriesFit]), and a function of the index takes 256
    distinct values ([distinctOn256], used for the low byte of the entries). *)
Definition tableEntriesFit : bool :=
  forallb (fun t => (0 <=? t) && (t <? 65536)) CRC.crcTable.

Definition distinctOn256 (f : Z -> Z) : bool :=
  forallb (fun i =>
    forallb (fun j => implb (f (Z.of_nat i) =? f (Z.of_nat j)) (Nat.eqb i j))
      (seq 0 256))
    (seq 0 256).

End CRCRun.

(** ** Vocabulary for the window invariants *)

Module WindowInv.
Import Constants WindowManager WindowRun.

(** [outstanding] as [canSend] and [getSendWindow] compute it. *)
Definition outstanding (w : t) : Z :=
  Utils.seqNumDiff (nextSeqNum w) (sendBase w).

(** Sender state between calls: both counters in [0..15], a window size of
    at most eight and no more outstanding frames than the window allows. *)
Definition wf_sender (w : t) : Prop :=
  0 <= sendBase w < 16 /\ 0 <= nextSeqNum w < 16 /\
  windowSize w <= WINDOW_SIZE /\
  0 <= outstanding w <= windowSize w.

(** Whether a slot holds a frame. *)
Definition filled (buf : list (option FrameData)) (j : Z) : bool :=
  match bufferAt buf j with
  | Obj _ => true
  | _ => false
  end.

(** Bit [i] of [receivedMask] is set exactly when the slot [i] places ahead
    of [expectedSeqNum] holds a frame. *)
Definition mask_mirrors (w : t) : Prop :=
  forall i, 0 <= i ->
    Z.testbit (receivedMask w) i
    = (i <? 16) && filled (receiveBuffer w) ((expectedSeqNum w + i) mod 16).

(** Frames wait only in slots less than eight places ahead. *)
Definition within_window (w : t) : Prop :=
  forall j, 0 <= j < 16 -> filled (receiveBuffer w) j = true ->
            (j - expectedSeqNum w) mod 16 < 8.

(** Receiver state between calls. *)
Definition recv_inv (w : t) : Prop :=
  wf_receiver w /\
  bufferAt (receiveBuffer w) (expectedSeqNum w) = Null /\
  mask_mirrors w /\
  within_window w.

End WindowInv.

(** ** Vocabulary for the ACK engine's timers *)

Module AckInv.
Import AcknowledgmentManager.

(** Pending entries and live timers belong to each other: the timer stored
    in an entry is live and will run the timeout of that entry's sequence
    number, every live timer is the one stored in the entry of its sequence
    number, and handles not handed out yet are not live. *)
Definition timers_inv (a : t) : Prop :=
  (forall seqNum p, pendingAcks a !! seqNum = Some p ->
     timers a !! timeout p = Some seqNum) /\
  (forall h seqNum, timers a !! h = Some seqNum ->
     exists p, pendingAcks a !! seqNum = Some p /\ timeout p = h) /\
  (forall h seqNum, timers a !! h = Some seqNum -> (h < nextTimer a)%nat).

(** The retry counter of every pending entry is below [MAX_RETRIES]. *)
Definition retries_bounded (a : t) : Prop :=
  forall seqNum p, pendingAcks a !! seqNum = Some p ->
    0 <= retries p < Constants.MAX_RETRIES.

(** The calls that reach the engine's pending map: from the coordinator's
    send and receive paths, from its own timers and on disconnection. *)
Inductive Op :=
| op_register (seqNum : Z) (frame : list byte) (retransmitCallback : bool)
| op_ack (seqNum : Z)
| op_nak (seqNum : Z)
| op_timer (h : nat)
| op_clear.

Definition runOp (op : Op) (now : Z) (a : t) : t * list Action :=
  match op with
  | op_register seqNum frame cb =>
      let '(_, a', out) := registerPendingAck seqNum frame cb now a in (a', out)
  | op_ack seqNum =>
      let '(_, a', out) := handleReceivedAck seqNum now a in (a', out)
  | op_nak seqNum =>
      let '(_, a', out) := handleReceivedNak seqNum now a in (a', out)
  | op_timer h =>
      let '(_, a', out) := fireTimer h now a in (a', out)
  | op_clear =>
      let '(_, a', out) := clearPendingAcks a in (a', out)
  end.

Fixpoint runOps (ops : list (Op * Z)) (a : t) : t * list Action :=
  match ops with
  | [] => (a, [])
  | (op, now) :: rest =>
      let '(a1, out1) := runOp op now a in
      let '(a2, out2) := runOps rest a1 in
      (a2, out1 ++ out2)
  end.

End AckInv.

(** ** errorControl/acknowledgments.js: the receiving side *)

Module AckReplies.
Import Constants AcknowledgmentManager.

Inductive NakReason :=
| reason_unknown_error          (* 'Unknown error', the default *)
| reason_out_of_order_frame.    (* 'Out of order frame' *)

Inductive Event :=
| ack_sending (seqNum : Z)
| ack_sent (seqNum frameSize : Z)
| nak_sending (seqNum : Z) (reason : NakReason)
| nak_sent (seqNum : Z) (reason : NakReason) (frameSize : Z).

Inductive Action :=
| Emit (e : Event)
| send (frame : list byte).     (* [sendCallback(frame)] *)

(** [sendAck(seqNum, sendCallback)]; [sendCallback] tells whether a function
    was passed.  [createAckFrame] throws before anything is changed. *)
Definition sendAck (seqNum : Z) (sendCallback : bool) (a : t)
  : Result FrameBuilder.BuildError (t * list Action) :=
  match FrameBuilder.createAckFrame seqNum with
  | Err e => Err e
  | Ok ackFrame =>
      let s := stats a in
      let a := set_stats {| acksSent := acksSent s + 1; naksSent := naksSent s;
                            acksReceived := acksReceived s;
                            naksReceived := naksReceived s;
                            timeouts := timeouts s; retransmissions := retransmissions s;
                            duplicatesDetected := duplicatesDetected s |} a in
      Ok (a,
          [Emit (ack_sending seqNum)]
          ++ (if sendCallback then [send ackFrame] else [])
          ++ [Emit (ack_sent seqNum (Z.of_nat (length ackFrame)))])
  end.

(** [sendNak(seqNum, sendCallback, reason)] *)
Definition sendNak (seqNum : Z) (sendCallback : bool) (reason : NakReason) (a : t)
  : Result FrameBuilder.BuildError (t * list Action) :=
  match FrameBuilder.createNakFrame seqNum with
  | Err e => Err e
  | Ok nakFrame =>
      let s := stats a in
      let a := set_stats {| acksSent := acksSent s; naksSent := naksSent s + 1;
                            acksReceived := acksReceived s;
                            naksReceived := naksReceived s;
                            timeouts := timeouts s; retransmissions := retransmissions s;
                            duplicatesDetected := duplicatesDetected s |} a in
      Ok (a,
          [Emit (nak_sending seqNum reason)]
          ++ (if sendCallback then [send nakFrame] else [])
          ++ [Emit (nak_sent seqNum reason (Z.of_nat (length nakFrame)))])
  end.

Inductive DataResult :=
| accept (seqNum nextExpected : Z)
| duplicate (seqNum nextExpected : Z)
| out_of_order (seqNum expectedSeqNum : Z).

(** [processReceivedDataFrame(seqNum, sendCallback)].  An exception of the
    frame constructor leaves the method; the state it leaves behind is not
    kept in the result. *)
Definition processReceivedDataFrame (seqNum : Z) (sendCallback : bool) (a : t)
  : Result FrameBuilder.BuildError (DataResult * t * list Action) :=
  if seqNum =? expectedSeqNum a then
    let a := {| pendingAcks := pendingAcks a;
                receivedFrames := {[ seqNum ]} ∪ receivedFrames a;
                expectedSeqNum := Utils.nextSeqNum (expectedSeqNum a);
                stats := stats a; timers := timers a; nextTimer := nextTimer a |} in
    match sendAck seqNum sendCallback a with
    | Ok (a, out) => Ok (accept seqNum (expectedSeqNum a), a, out)
    | Err e => Err e
    end
  else if bool_decide (seqNum ∈ receivedFrames a) then
    let s := stats a in
    let a := set_stats {| acksSent := acksSent s; naksSent := naksSent s;
                          acksReceived := acksReceived s;
                          naksReceived := naksReceived s;
                          timeouts := timeouts s; retransmissions := retransmissions s;
                          duplicatesDetected := duplicatesDetected s + 1 |} a in
    match sendAck seqNum sendCallback a with
    | Ok (a, out) => Ok (duplicate seqNum (expectedSeqNum a), a, out)
    | Err e => Err e
    end
  else
    match sendNak (expectedSeqNum a) sendCallback reason_out_of_order_frame a with
    | Ok (a, out) => Ok (out_of_order seqNum (expectedSeqNum a), a, out)
    | Err e => Err e
    end.

(** The frames handed to the send callback among some actions. *)
Definition sentFrames (out : list Action) : list (list byte) :=
  omap (fun x => match x with
                 | send frame => Some frame
                 | Emit _ => None
                 end) out.

(** [n] DATA frames arriving in order: each carries the sequence number the
    engine expects at that moment. *)
Fixpoint acceptInOrder (n : nat) (sendCallback : bool) (a : t)
  : Result FrameBuilder.BuildError t :=
  match n with
  | O => Ok a
  | S n' =>
      match processReceivedDataFrame (expectedSeqNum a) sendCallback a with
      | Ok (_, a', _) => acceptInOrder n' sendCallback a'
      | Err e => Err e
      end
  end.

(** State of the receiving side between calls. *)
Definition wf_replies (a : t) : Prop :=
  0 <= expectedSeqNum a < 16 /\
  forall s, s ∈ receivedFrames a -> 0 <= s < 16.

End AckReplies.

(** ** dataLinkLayer.js: the receive path for DATA frames *)

Module ReceivePath.
Import Constants.

(** Events the coordinator emits on this path.  The [type] of
    [frame_received] is the frame type whose name
    [frameBuilder.frameTypeToString] produces. *)
Inductive Event :=
| frame_error (error : FrameBuilder.ParseError) (rawFrameSize : Z) (crcError : bool)
| frame_received (type seqNum dataSize : Z)
| receive_error (error : JsException) (rawFrameSize : Z)
| flow_control_window_full (sendBase nextSeqNum windowSize : Z)
| data_received (data : list byte) (seqNum size : Z)
| frame_buffered (seqNum expectedSeqNum : Z)
| frame_out_of_window (seqNum expectedSeqNum : Z)
| ack_sent (seqNum frameSize : Z)
| nak_sent (seqNum : Z) (reason : AckReplies.NakReason) (frameSize : Z).

(** The coordinator with the parts of its state this path reads and
    writes: [connectionState] is [this.connectionManager.state], the two
    counters are fields of [globalStats]. *)
Record t := {
  node : DataLinkLayer.t;
  connectionState : ConnectionState;
  totalFramesReceived : Z;
  totalDataBytesReceived : Z;
  emitted : list Event
}.

Definition set_node (n : DataLinkLayer.t) (d : t) : t :=
  {| node := n; connectionState := connectionState d;
     totalFramesReceived := totalFramesReceived d;
     totalDataBytesReceived := totalDataBytesReceived d;
     emitted := emitted d |}.

Definition emit (e : Event) (d : t) : t :=
  {| node := node d; connectionState := connectionState d;
     totalFramesReceived := totalFramesReceived d;
     totalDataBytesReceived := totalDataBytesReceived d;
     emitted := emitted d ++ [e] |}.

Definition add_totalErrors (d : t) : t :=
  let n := node d in
  set_node
    {| DataLinkLayer.windowManager := DataLinkLayer.windowManager n;
       DataLinkLayer.ackManager := DataLinkLayer.ackManager n;
       DataLinkLayer.physicalLayerCallback := DataLinkLayer.physicalLayerCallback n;
       DataLinkLayer.transmitted := DataLinkLayer.transmitted n;
       DataLinkLayer.totalFramesSent := DataLinkLayer.totalFramesSent n;
       DataLinkLayer.totalDataBytesSent := DataLinkLayer.totalDataBytesSent n;
       DataLinkLayer.totalErrors := DataLinkLayer.totalErrors n + 1;
       DataLinkLayer.emitted := DataLinkLayer.emitted n |} d.

(** [this.connectionManager.isConnected()] *)
Definition isConnected (d : t) : bool :=
  match connectionState d with
  | CONNECTED => true
  | _ => false
  end.

(** How a method ends: normally, or with an exception and the state reached
    when it was thrown.  [NotCovered] stands for a callee whose embedding
    ends without a state (an exception inside the window manager or its
    loop budget) and for the frame types handled outside this path. *)
Inductive Outcome :=
| Done (d : t)
| Thrown (e : JsException) (d : t)
| NotCovered.

(** [deliverToNetworkLayer(data, seqNum)] *)
Definition deliverToNetworkLayer (data : list byte) (seqNum : Z) (d : t) : t :=
  emit (data_received data seqNum (Z.of_nat (length data))) d.

(** The listeners [setupEventListeners] installs on the window manager.
    The one on ['frames_delivered'] is
      [for (const frame of data.frames) this.deliverToNetworkLayer(...)]
    and the object [deliverFramesInOrder] emits has the fields [count],
    [firstSeqNum], [lastSeqNum], [newExpectedSeqNum] and [timestamp] only:
    [data.frames] is [undefined] and iterating it throws a TypeError before
    [deliverToNetworkLayer] is reached.  The one on ['window_full']
    re-emits the event as ['flow_control'].  The other events have no
    listener. *)
Definition windowListener (e : WindowManager.Event) (d : t) : Outcome :=
  match e with
  | WindowManager.frames_delivered _ _ _ _ => Thrown TypeError d
  | WindowManager.window_full sendBase nextSeqNum windowSize =>
      Done (emit (flow_control_window_full sendBase nextSeqNum windowSize) d)
  | _ => Done d
  end.

Fixpoint windowListeners (es : list WindowManager.Event) (d : t) : Outcome :=
  match es with
  | [] => Done d
  | e :: rest =>
      match windowListener e d with
      | Done d' => windowListeners rest d'
      | other => other
      end
  end.

(** The coordinator's part in one action of [ackManager.sendAck(seqNum,
    (ackFrame) => this.sendFrameToPhysical(ackFrame))]: the callback, and
    the listeners that re-emit ['ack_sent'] and ['nak_sent']. *)
Definition react (x : AckReplies.Action) (d : t) : Outcome :=
  match x with
  | AckReplies.send frame =>
      match DataLinkLayer.sendFrameToPhysical frame (node d) with
      | Normal n => Done (set_node n d)
      | Throw e => Thrown e d
      | LoopBudget => NotCovered
      end
  | AckReplies.Emit (AckReplies.ack_sent seqNum frameSize) =>
      Done (emit (ack_sent seqNum frameSize) d)
  | AckReplies.Emit (AckReplies.nak_sent seqNum reason frameSize) =>
      Done (emit (nak_sent seqNum reason frameSize) d)
  | AckReplies.Emit _ => Done d
  end.

Fixpoint reactAll (out : list AckReplies.Action) (d : t) : Outcome :=
  match out with
  | [] => Done d
  | x :: rest =>
      match react x d with
      | Done d' => reactAll rest d'
      | other => other
      end
  end.

(** [this.ackManager.sendAck(seqNum, (ackFrame) =>
    this.sendFrameToPhysical(ackFrame))] *)
Definition sendAck (seqNum : Z) (d : t) : Outcome :=
  match AckReplies.sendAck seqNum true (DataLinkLayer.ackManager (node d)) with
  | Err e => Thrown (BuildFailed e) d
  | Ok (a, out) =>
      reactAll out
        (set_node (DataLinkLayer.set_managers
                     (DataLinkLayer.windowManager (node d)) a (node d)) d)
  end.

(** [processDataFrame(frame)].  The window manager's listeners run inside
    [receiveFrame], at the [emit]; each [emit] of [receiveFrame] is the last
    thing it does before it returns, so the listeners are applied to the
    state it returns. *)
Definition processDataFrame (frame : FrameBuilder.Frame) (now : Z) (d : t) : Outcome :=
  if negb (isConnected d) then Done d
  else
    let w0 := DataLinkLayer.windowManager (node d) in
    match WindowManager.receiveFrame (FrameBuilder.seqNum frame)
            (FrameBuilder.data frame) now w0 with
    | Normal (result, w) =>
        let d := set_node (DataLinkLayer.set_managers w
                             (DataLinkLayer.ackManager (node d)) (node d)) d in
        let fresh := drop (length (WindowManager.emitted w0)) (WindowManager.emitted w) in
        match windowListeners fresh d with
        | Done d =>
            let handled :=
              match result with
              | WindowManager.recv_delivered frames _ =>
                  match last frames with
                  | Some f => sendAck (WindowManager.df_seqNum f) d
                  | None => Thrown TypeError d
                  end
              | WindowManager.recv_buffered _ expectedSeqNum =>
                  Done (emit (frame_buffered (FrameBuilder.seqNum frame)
                                expectedSeqNum) d)
              | WindowManager.recv_duplicate _ _ =>
                  sendAck (FrameBuilder.seqNum frame) d
              | WindowManager.recv_out_of_window _ expectedSeqNum =>
                  Done (emit (frame_out_of_window (FrameBuilder.seqNum frame)
                                expectedSeqNum) d)
              end in
            match handled with
            | Done d =>
                Done {| node := node d; connectionState := connectionState d;
                        totalFramesReceived := totalFramesReceived d;
                        totalDataBytesReceived :=
                          totalDataBytesReceived d
                          + Z.of_nat (length (FrameBuilder.data frame));
                        emitted := emitted d |}
            | other => other
            end
        | other => other
        end
    | _ => NotCovered
    end.

(** [processReceivedFrame(frame)] for DATA frames, for which
    [connectionManager.processFrame] returns [false] without an effect. *)
Definition processReceivedFrame (frame : FrameBuilder.Frame) (now : Z) (d : t)
  : Outcome :=
  if FrameBuilder.type frame =? FrameType.DATA then processDataFrame frame now d
  else NotCovered.

(** [receiveFromPhysical(rawFrame)]: [None] where [processReceivedFrame] is
    not covered. *)
Definition receiveFromPhysical (rawFrame : list byte) (now : Z) (d : t) : option t :=
  match FrameBuilder.parseFrame rawFrame with
  | Err error =>
      Some (emit (frame_error error (Z.of_nat (length rawFrame))
                    (match error with
                     | FrameBuilder.CrcError _ _ => true
                     | _ => false
                     end))
              (add_totalErrors d))
  | Ok frame =>
      let d := {| node := node d; connectionState := connectionState d;
                  totalFramesReceived := totalFramesReceived d + 1;
                  totalDataBytesReceived := totalDataBytesReceived d;
                  emitted := emitted d |} in
      let d := emit (frame_received (FrameBuilder.type frame)
                       (FrameBuilder.seqNum frame)
                       (Z.of_nat (FrameBuilder.payloadLength frame))) d in
      match processReceivedFrame frame now d with
      | Done d => Some d
      | Thrown error d =>
          Some (emit (receive_error error (Z.of_nat (length rawFrame)))
                  (add_totalErrors d))
      | NotCovered => None
      end
  end.

(** A coordinator after [setPhysicalLayer] and the connection handshake,
    as far as this path reads it. *)
Definition connected (d : t) : Prop :=
  connectionState d = CONNECTED /\
  DataLinkLayer.physicalLayerCallback (node d) = true.

Definition transmitted (d : t) : list (list byte) :=
  DataLinkLayer.transmitted (node d).

Definition windowManager (d : t) : WindowManager.t :=
  DataLinkLayer.windowManager (node d).

End ReceivePath.

(** * Properties *)

Section BufferFacts.

Lemma get_range b : 0 <= Buffer.get b < 256.
Proof.
  unfold Buffer.get. pose proof (Byte.to_N_bounded b). lia.
Qed.

Lemma put_get b : Buffer.put (Buffer.get b) = b.
Proof.
  unfold Buffer.put, Buffer.get.
  pose proof (Byte.to_N_bounded b) as Hb.
  replace (Z.land (Z.of_N (Byte.to_N b)) 255) with (Z.of_N (Byte.to_N b)).
  - rewrite N2Z.id, Byte.of_to_N. reflexivity.
  - change 255 with (Z.ones 8). rewrite Z.land_ones by lia.
    symmetry. apply Z.mod_small. lia.
Qed.

Lemma get_put z : 0 <= z < 256 -> Buffer.get (Buffer.put z) = z.
Proof.
  intros Hz. unfold Buffer.put, Buffer.get.
  replace (Z.land z 255) with z.
  - destruct (Byte.of_N (Z.to_N z)) as [b|] eqn:E.
    + apply Byte.to_of_N in E. simpl. rewrite E. lia.
    + apply Byte.of_N_None_iff in E. lia.
  - change 255 with (Z.ones 8). rewrite Z.land_ones by lia.
    symmetry. apply Z.mod_small. lia.
Qed.

Lemma get_inj a b : Buffer.get a = Buffer.get b -> a = b.
Proof.
  intros H. rewrite <- (put_get a), <- (put_get b). now rewrite H.
Qed.

Lemma from_get (x : list byte) : Buffer.from (map Buffer.get x) = x.
Proof.
  unfold Buffer.from. induction x as [|b x IH]; simpl; [reflexivity|].
  now rewrite put_get, IH.
Qed.

End BufferFacts.


(** ** Bit stuffing *)

Section BitStuffingFacts.
Import Constants BitStuffing.

Lemma bitStuff_eq x : bitStuff x = Buffer.from (stuffLoop x).
Proof. destruct x; reflexivity. Qed.

Lemma bitUnstuff_eq s : bitUnstuff s = rmap Buffer.from (unstuffLoop s).
Proof. destruct s; reflexivity. Qed.

Lemma unstuffLoop_escape n rest :
  unstuffLoop (Buffer.put ESC :: n :: rest) =
  if Buffer.get n =? 0x5e then rmap (cons FLAG) (unstuffLoop rest)
  else if Buffer.get n =? 0x5d then rmap (cons ESC) (unstuffLoop rest)
  else Err (InvalidEscape (Buffer.get n)).
Proof. reflexivity. Qed.

Lemma unstuffLoop_plain b rest :
  Buffer.get b <> ESC -> Buffer.get b <> FLAG ->
  unstuffLoop (b :: rest) = rmap (cons (Buffer.get b)) (unstuffLoop rest).
Proof.
  intros HE HF. cbn [unstuffLoop].
  destruct (Z.eqb_spec (Buffer.get b) ESC); [contradiction|].
  destruct (Z.eqb_spec (Buffer.get b) FLAG); [contradiction|].
  reflexivity.
Qed.

Lemma unstuffLoop_stuffLoop x :
  unstuffLoop (Buffer.from (stuffLoop x)) = Ok (map Buffer.get x).
Proof.
  induction x as [|b x IH]; [reflexivity|].
  cbn [stuffLoop map].
  destruct (Z.eqb_spec (Buffer.get b) FLAG) as [HF|HF].
  - change (Buffer.from (ESC :: 94 :: stuffLoop x))
      with (Buffer.put ESC :: Buffer.put 94 :: Buffer.from (stuffLoop x)).
    rewrite unstuffLoop_escape, IH, HF. reflexivity.
  - destruct (Z.eqb_spec (Buffer.get b) ESC) as [HE|HE].
    + change (Buffer.from (ESC :: 93 :: stuffLoop x))
        with (Buffer.put ESC :: Buffer.put 93 :: Buffer.from (stuffLoop x)).
      rewrite unstuffLoop_escape, IH, HE. reflexivity.
    + change (Buffer.from (Buffer.get b :: stuffLoop x))
        with (Buffer.put (Buffer.get b) :: Buffer.from (stuffLoop x)).
      rewrite put_get, unstuffLoop_plain, IH by assumption. reflexivity.
Qed.

Lemma stuffLoop_no_flag x :
  Forall (fun b => Buffer.get b <> FLAG) (Buffer.from (stuffLoop x)).
Proof.
  induction x as [|b x IH]; [constructor|].
  cbn [stuffLoop].
  destruct (Z.eqb_spec (Buffer.get b) FLAG) as [HF|HF];
    [|destruct (Z.eqb_spec (Buffer.get b) ESC) as [HE|HE]].
  - repeat (constructor; [discriminate|]). exact IH.
  - repeat (constructor; [discriminate|]). exact IH.
  - constructor; [|exact IH]. now rewrite put_get.
Qed.

(** The unstuffed data is never longer than the stuffed input. *)
Lemma unstuffLoop_length s :
  forall p, unstuffLoop s = Ok p -> (length p <= length s)%nat.
Proof.
  remember (length s) as n eqn:Hn. revert s Hn.
  induction n as [n IH] using lt_wf_ind. intros s Hn p.
  destruct s as [|b rest]; cbn [unstuffLoop].
  - intros [= <-]. simpl. lia.
  - destruct (Buffer.get b =? ESC).
    + destruct rest as [|m rest']; [discriminate|].
      assert (Hrec : forall q, unstuffLoop rest' = Ok q ->
                               (length q <= length rest')%nat).
      { intros q. apply (IH (length rest')) with (s := rest');
          [simpl in Hn; lia | reflexivity]. }
      destruct (Buffer.get m =? 94); [|destruct (Buffer.get m =? 93)];
        try discriminate;
        destruct (unstuffLoop rest') as [q|] eqn:E; try discriminate;
        intros [= <-]; specialize (Hrec q eq_refl); simpl in *; lia.
    + destruct (Buffer.get b =? FLAG); [discriminate|].
      destruct (unstuffLoop rest) as [q|] eqn:E; [|discriminate].
      intros [= <-].
      assert (length q <= length rest)%nat
        by (apply (IH (length rest)) with (s := rest);
            [simpl in Hn; lia | reflexivity | exact E]).
      simpl in *. lia.
Qed.

Lemma bitUnstuff_length s p :
  bitUnstuff s = Ok p -> (length p <= length s)%nat.
Proof.
  rewrite bitUnstuff_eq. destruct (unstuffLoop s) as [q|] eqn:E; [|discriminate].
  intros [= <-]. unfold Buffer.from. rewrite length_map.
  now apply unstuffLoop_length.
Qed.

Lemma bitUnstuff_bitStuff x : bitUnstuff (bitStuff x) = Ok x.
Proof.
  rewrite bitUnstuff_eq, bitStuff_eq, unstuffLoop_stuffLoop.
  cbn [rmap]. now rewrite from_get.
Qed.

(** C6: for every byte sequence [x], [bitUnstuff (bitStuff x)] succeeds and
    returns [x], and [bitStuff x] contains no occurrence of the FLAG byte
    0x7E. *)
Theorem bitUnstuff_bitStuff_roundtrip (x : list byte) :
  bitUnstuff (bitStuff x) = Ok x /\
  Forall (fun b => Buffer.get b <> FLAG) (bitStuff x) /\
  ~ In x7e (bitStuff x).
Proof.
  split; [apply bitUnstuff_bitStuff|].
  rewrite bitStuff_eq. split; [apply stuffLoop_no_flag|].
  intros Hin. pose proof (stuffLoop_no_flag x) as Hall.
  rewrite List.Forall_forall in Hall. apply (Hall _ Hin). reflexivity.
Qed.

End BitStuffingFacts.

(** ** CRC-16 *)

Section CRCFacts.
Import Constants CRC.

Lemma land_ffff_range c : 0 <= Z.land c 0xffff < 65536.
Proof.
  change 65535 with (Z.ones 16). rewrite Z.land_ones by lia.
  apply Z.mod_pos_bound. lia.
Qed.

Lemma testbit_high_16 c n : 0 <= c < 65536 -> 16 <= n -> Z.testbit c n = false.
Proof.
  intros Hc Hn. destruct (Z.eq_dec c 0) as [->|Hz]; [apply Z.bits_0|].
  apply Z.bits_above_log2; [lia|].
  assert (Z.log2 c < 16) by (apply Z.log2_lt_pow2; lia). lia.
Qed.

Lemma lxor_ffff_range c : 0 <= c < 65536 -> 0 <= Z.lxor c 0xffff < 65536.
Proof.
  intros Hc.
  assert (Hnn : 0 <= Z.lxor c 65535) by (apply Z.lxor_nonneg; lia).
  split; [exact Hnn|].
  replace (Z.lxor c 65535) with (Z.land (Z.lxor c 65535) 65535);
    [apply land_ffff_range|].
  apply Z.bits_inj'. intros n Hn.
  rewrite Z.land_spec, Z.lxor_spec.
  destruct (Z_lt_le_dec n 16) as [Hlt|Hge].
  - change 65535 with (Z.ones 16). rewrite Z.ones_spec_low by lia.
    now rewrite andb_true_r.
  - rewrite (testbit_high_16 c n), (testbit_high_16 65535 n) by lia.
    reflexivity.
Qed.

Lemma calculateFrom_range x init :
  0 <= init < 65536 -> 0 <= calculateFrom x init < 65536.
Proof.
  intros Hinit. unfold calculateFrom. apply lxor_ffff_range.
  revert init Hinit.
  induction x as [|b x IH]; intros init Hinit; cbn [fold_left]; [exact Hinit|].
  apply IH. apply land_ffff_range.
Qed.

Lemma calculate_range x : 0 <= calculate x < 65536.
Proof. apply calculateFrom_range. lia. Qed.

(** The two bytes written by [addCrc] recombine to the 16-bit value. *)
Lemma big_endian_recombine c :
  0 <= c < 65536 ->
  Z.lor (Z.shiftl (Z.land (Z.shiftr c 8) 0xff) 8) (Z.land c 0xff) = c.
Proof.
  intros Hc. apply Z.bits_inj'. intros n Hn.
  rewrite Z.lor_spec, Z.land_spec. change 255 with (Z.ones 8).
  destruct (Z_lt_le_dec n 8) as [Hlt|Hge].
  - rewrite Z.shiftl_spec_low by lia.
    rewrite Z.ones_spec_low by lia. now rewrite andb_true_r.
  - rewrite Z.shiftl_spec by lia. rewrite Z.land_spec, Z.shiftr_spec by lia.
    replace (n - 8 + 8) with n by lia.
    rewrite (Z.ones_spec_high 8 n) by lia. rewrite andb_false_r, orb_false_r.
    destruct (Z_lt_le_dec n 16) as [Hlt|Hge16].
    + rewrite Z.ones_spec_low by lia. now rewrite andb_true_r.
    + rewrite (testbit_high_16 c n) by lia. reflexivity.
Qed.

Lemma byte_range_hi c : 0 <= Z.land (Z.shiftr c 8) 0xff < 256.
Proof.
  change 255 with (Z.ones 8). rewrite Z.land_ones by lia.
  apply Z.mod_pos_bound. lia.
Qed.

Lemma byte_range_lo c : 0 <= Z.land c 0xff < 256.
Proof.
  change 255 with (Z.ones 8). rewrite Z.land_ones by lia.
  apply Z.mod_pos_bound. lia.
Qed.

Lemma at_app_tail_0 (x : list byte) h l :
  Buffer.at_ (x ++ [h; l]) (Z.of_nat (length x)) = Some (Buffer.get h).
Proof.
  unfold Buffer.at_.
  destruct (Z.leb_spec 0 (Z.of_nat (length x))); [|lia].
  rewrite Nat2Z.id, lookup_app_r by lia.
  now rewrite Nat.sub_diag.
Qed.

Lemma at_app_tail_1 (x : list byte) h l :
  Buffer.at_ (x ++ [h; l]) (Z.of_nat (length x) + 1) = Some (Buffer.get l).
Proof.
  unfold Buffer.at_.
  destruct (Z.leb_spec 0 (Z.of_nat (length x) + 1)); [|lia].
  replace (Z.to_nat (Z.of_nat (length x) + 1)) with (S (length x)) by lia.
  rewrite lookup_app_r by lia.
  now replace (S (length x) - length x)%nat with 1%nat by lia.
Qed.

(** What [extractAndValidate] does on any buffer of at least two bytes: the
    last two bytes are read big-endian and compared with the CRC of the
    prefix. *)
Lemma extractAndValidate_split (x : list byte) (h l : byte) :
  extractAndValidate (x ++ [h; l]) =
  {| valid := calculate x =? Z.lor (Z.shiftl (Buffer.get h) 8) (Buffer.get l);
     data := x;
     crc := Z.lor (Z.shiftl (Buffer.get h) 8) (Buffer.get l);
     calculatedCrc := Some (calculate x) |}.
Proof.
  unfold extractAndValidate.
  assert (Hlen : length (x ++ [h; l]) = (length x + 2)%nat)
    by (rewrite length_app; reflexivity).
  rewrite Hlen.
  destruct (Nat.ltb_spec (length x + 2) 2); [lia|].
  replace (length x + 2 - 2)%nat with (length x) by lia.
  rewrite at_app_tail_0, at_app_tail_1, take_app_length.
  reflexivity.
Qed.

Lemma extractAndValidate_addCrc_eq (x : list byte) :
  extractAndValidate (addCrc x) =
    {| valid := true; data := x; crc := calculate x;
       calculatedCrc := Some (calculate x) |}.
Proof.
  unfold addCrc. rewrite extractAndValidate_split.
  rewrite !get_put by (apply byte_range_hi || apply byte_range_lo).
  rewrite big_endian_recombine by apply calculate_range.
  now rewrite Z.eqb_refl.
Qed.

(** C7: for every byte sequence [x], [extractAndValidate (addCrc x)] returns
    [valid = true] and [data = x]; [addCrc] appends the 16-bit CRC high byte
    first, and [extractAndValidate] reads the last two bytes of any buffer as
    [(buf[-2] << 8) | buf[-1]] and checks it against the CRC of the prefix. *)
Theorem extractAndValidate_addCrc (x : list byte) :
  addCrc x =
    x ++ [Buffer.put (Z.land (Z.shiftr (calculate x) 8) 0xff);
          Buffer.put (Z.land (calculate x) 0xff)] /\
  (forall (p : list byte) (h l : byte),
      extractAndValidate (p ++ [h; l]) =
      {| valid := calculate p =? Z.lor (Z.shiftl (Buffer.get h) 8) (Buffer.get l);
         data := p;
         crc := Z.lor (Z.shiftl (Buffer.get h) 8) (Buffer.get l);
         calculatedCrc := Some (calculate p) |}) /\
  extractAndValidate (addCrc x) =
    {| valid := true; data := x; crc := calculate x;
       calculatedCrc := Some (calculate x) |}.
Proof.
  split; [reflexivity|]. split; [apply extractAndValidate_split|].
  apply extractAndValidate_addCrc_eq.
Qed.

End CRCFacts.

(** ** Frame codec *)

Section FrameBuilderFacts.
Import Constants FrameBuilder.

Lemma includes_iff t : FrameType.includes t = true <-> 1 <= t <= 8.
Proof.
  unfold FrameType.includes, FrameType.values. cbn [existsb].
  rewrite !orb_true_iff, !Z.eqb_eq.
  unfold FrameType.DATA, FrameType.ACK, FrameType.NAK, FrameType.CONN,
    FrameType.CONN_ACK, FrameType.DISC, FrameType.DISC_ACK, FrameType.HEARTBEAT.
  lia.
Qed.

Lemma land_0f_small s : 0 <= s <= 15 -> Z.land s 0x0f = s.
Proof.
  intros Hs. change 15 with (Z.ones 4). rewrite Z.land_ones by lia.
  apply Z.mod_small. lia.
Qed.

Lemma slice_1_m1_length (raw : list byte) :
  length (Buffer.slice_1_m1 raw) = (length raw - 2)%nat.
Proof.
  unfold Buffer.slice_1_m1. rewrite length_take, length_drop. lia.
Qed.

Lemma slice_1_m1_framed (a z : byte) (mid : list byte) :
  Buffer.slice_1_m1 (a :: mid ++ [z]) = mid.
Proof.
  unfold Buffer.slice_1_m1. cbn [length drop].
  rewrite length_app. cbn [length].
  replace (S (length mid + 1) - 2)%nat with (length mid) by lia.
  apply take_app_length.
Qed.

Lemma at_last_framed (a z : byte) (mid : list byte) :
  Buffer.at_ (a :: mid ++ [z]) (Z.of_nat (length (a :: mid ++ [z])) - 1)
  = Some (Buffer.get z).
Proof.
  unfold Buffer.at_. cbn [length]. rewrite length_app. cbn [length].
  destruct (Z.leb_spec 0 (Z.of_nat (S (length mid + 1)) - 1)); [|lia].
  replace (Z.to_nat (Z.of_nat (S (length mid + 1)) - 1)) with (S (length mid)) by lia.
  change ((a :: mid ++ [z]) !! S (length mid)) with ((mid ++ [z]) !! length mid).
  rewrite lookup_app_r by lia.
  now rewrite Nat.sub_diag.
Qed.

(** What [buildFrame] returns on a valid triple. *)
Lemma buildFrame_valid t s d :
  FrameType.includes t = true -> 0 <= s <= 15 ->
  Z.of_nat (length d) <= FieldSize.MAX_DATA ->
  buildFrame t s d =
  Ok (Buffer.put FLAG ::
      BitStuffing.bitStuff
        (CRC.addCrc (Buffer.put t :: Buffer.put (Z.land s 0x0f) :: d))
      ++ [Buffer.put FLAG]).
Proof.
  intros Ht Hs Hd. unfold buildFrame. rewrite Ht. cbn [negb].
  destruct (Z.ltb_spec s 0); [lia|].
  destruct (Z.gtb_spec s 15); [lia|]. cbn [orb].
  destruct (Z.gtb_spec (Z.of_nat (length d)) FieldSize.MAX_DATA); [lia|].
  reflexivity.
Qed.

(** Parsing a frame whose inner bytes are a correctly checksummed header
    and payload. *)
Lemma parseFrame_framed (c q : byte) (d : list byte) :
  FrameType.includes (Buffer.get c) = true ->
  parseFrame (Buffer.put FLAG ::
              BitStuffing.bitStuff (CRC.addCrc (c :: q :: d))
              ++ [Buffer.put FLAG]) =
  Ok {| type := Buffer.get c;
        seqNum := Z.land (Buffer.get q) 0x0f;
        data := d;
        rawLength := S (length (BitStuffing.bitStuff (CRC.addCrc (c :: q :: d))) + 1);
        payloadLength := length d;
        crc := CRC.calculate (c :: q :: d) |}.
Proof.
  intros Hc. unfold parseFrame.
  set (inner := CRC.addCrc (c :: q :: d)).
  set (stuffed := BitStuffing.bitStuff inner).
  assert (Hinner : (4 <= length inner)%nat).
  { unfold inner, CRC.addCrc. rewrite length_app. cbn [length]. lia. }
  assert (Hstuffed : (length inner <= length stuffed)%nat).
  { apply bitUnstuff_length. apply bitUnstuff_bitStuff. }
  assert (Hraw : length (Buffer.put FLAG :: stuffed ++ [Buffer.put FLAG])
                 = S (length stuffed + 1)).
  { cbn [length]. rewrite length_app. reflexivity. }
  rewrite at_last_framed, slice_1_m1_framed, Hraw.
  destruct (Nat.ltb_spec (S (length stuffed + 1)) 4); [lia|].
  change (Buffer.at_ (Buffer.put FLAG :: stuffed ++ [Buffer.put FLAG]) 0)
    with (Some (Buffer.get (Buffer.put FLAG))).
  change (Buffer.get (Buffer.put FLAG)) with FLAG.
  rewrite !bool_decide_eq_true_2 by reflexivity. cbn [negb orb].
  unfold stuffed. rewrite bitUnstuff_bitStuff.
  destruct (Nat.ltb_spec (length inner) 4); [lia|].
  unfold inner. rewrite extractAndValidate_addCrc_eq.
  cbn [CRC.valid CRC.data CRC.crc negb]. rewrite Hc. reflexivity.
Qed.

(** C5: for every valid triple (type in the 8-member FrameType enum, seq in
    0..15, payload of at most 1024 bytes), [parseFrame] applied to
    [buildFrame] of that triple succeeds and yields the same type, the same
    seq and the same payload bytes. *)
Theorem parseFrame_buildFrame_roundtrip (t s : Z) (d : list byte) :
  FrameType.includes t = true ->
  0 <= s <= 15 ->
  (length d <= 1024)%nat ->
  exists raw f,
    buildFrame t s d = Ok raw /\
    parseFrame raw = Ok f /\
    type f = t /\ seqNum f = s /\ data f = d.
Proof.
  intros Ht Hs Hd.
  pose proof (proj1 (includes_iff t) Ht) as Htr.
  eexists. eexists. split.
  - apply buildFrame_valid; [exact Ht | exact Hs | unfold FieldSize.MAX_DATA; lia].
  - split.
    + apply parseFrame_framed. rewrite get_put by lia. exact Ht.
    + cbn [type seqNum data]. rewrite (land_0f_small s Hs).
      rewrite !get_put by lia. rewrite (land_0f_small s Hs). auto.
Qed.

Lemma parseFrame_buildFrame_roundtrip_witness :
  exists raw f,
    buildFrame FrameType.DATA 0 [x48; x6f; x6c; x61] = Ok raw /\
    parseFrame raw = Ok f /\
    type f = FrameType.DATA /\ seqNum f = 0 /\ data f = [x48; x6f; x6c; x61].
Proof.
  apply (parseFrame_buildFrame_roundtrip FrameType.DATA 0 [x48; x6f; x6c; x61]).
  - reflexivity.
  - lia.
  - simpl. lia.
Defined.

(** C10: every input buffer shorter than 6 bytes is rejected by
    [parseFrame]: inputs of fewer than 4 bytes by the explicit length guard,
    inputs of 4 or 5 bytes (when they pass the flag and unstuffing checks) by
    the check that requires at least 4 unstuffed inner bytes. *)
Theorem parseFrame_rejects_short (rawFrame : list byte) :
  (length rawFrame < 6)%nat ->
  ((length rawFrame < 4)%nat -> parseFrame rawFrame = Err FrameTooSmall) /\
  ((4 <= length rawFrame)%nat ->
     parseFrame rawFrame = Err BadFlags \/
     (exists e, parseFrame rawFrame = Err (UnstuffError e)) \/
     parseFrame rawFrame = Err PayloadTooSmall) /\
  (forall f, parseFrame rawFrame <> Ok f).
Proof.
  intros Hlen.
  assert (Hcases :
    ((length rawFrame < 4)%nat /\ parseFrame rawFrame = Err FrameTooSmall) \/
    ((4 <= length rawFrame)%nat /\
     (parseFrame rawFrame = Err BadFlags \/
      (exists e, parseFrame rawFrame = Err (UnstuffError e)) \/
      parseFrame rawFrame = Err PayloadTooSmall))).
  { unfold parseFrame.
    destruct (Nat.ltb_spec (length rawFrame) 4) as [Hs|Hs]; [left; auto|].
    right. split; [exact Hs|].
    destruct (negb _ || negb _); [left; reflexivity|]. right.
    destruct (BitStuffing.bitUnstuff (Buffer.slice_1_m1 rawFrame))
      as [payload|e] eqn:E; [|left; eauto].
    right. apply bitUnstuff_length in E. rewrite slice_1_m1_length in E.
    destruct (Nat.ltb_spec (length payload) 4); [reflexivity|lia]. }
  split; [|split].
  - intros Hs. destruct Hcases as [[_ H]|[H _]]; [exact H|lia].
  - intros Hs. destruct Hcases as [[H _]|[_ H]]; [lia|exact H].
  - intros f Hf.
    destruct Hcases as [[_ H]|[_ [H|[[e H]|H]]]]; rewrite H in Hf; discriminate.
Qed.

Lemma parseFrame_rejects_short_witness :
  parseFrame [x7e; x01; x00; x00; x7e] = Err PayloadTooSmall.
Proof.
  pose proof (parseFrame_rejects_short [x7e; x01; x00; x00; x7e]) as H.
  destruct H as (_ & H & _); [simpl; lia|].
  destruct H as [H|[[e H]|H]]; [simpl; lia | discriminate H | discriminate H | exact H].
Defined.

End FrameBuilderFacts.

(** ** Sequence-number arithmetic *)

Section SeqArith.
Import Constants.

Lemma nextSeqNum_mod s : 0 <= s -> Utils.nextSeqNum s = (s + 1) mod 16.
Proof.
  intros Hs. unfold Utils.nextSeqNum, MAX_SEQ_NUM.
  apply Z.rem_mod_nonneg; lia.
Qed.

Lemma nextSeqNum_range s : 0 <= s -> 0 <= Utils.nextSeqNum s < 16.
Proof.
  intros Hs. rewrite nextSeqNum_mod by lia. apply Z.mod_pos_bound. lia.
Qed.

Lemma seqNumDiff_mod a b :
  0 <= a < 16 -> 0 <= b < 16 ->
  Utils.seqNumDiff a b =
  if (a - b) mod 16 >? 8 then (a - b) mod 16 - 16 else (a - b) mod 16.
Proof.
  intros Ha Hb. unfold Utils.seqNumDiff, MAX_SEQ_NUM.
  change ((15 + 1) / 2) with 8. change (15 + 1) with 16.
  rewrite Z.rem_mod_nonneg by lia.
  replace ((a - b + 15 + 1) mod 16) with ((a - b) mod 16); [reflexivity|].
  replace (a - b + 15 + 1) with (a - b + 1 * 16) by lia.
  now rewrite Z.mod_add by lia.
Qed.

Lemma seqNumDiff_range a b :
  0 <= a < 16 -> 0 <= b < 16 -> -7 <= Utils.seqNumDiff a b <= 8.
Proof.
  intros Ha Hb. rewrite seqNumDiff_mod by lia.
  pose proof (Z.mod_pos_bound (a - b) 16 ltac:(lia)).
  destruct (Z.gtb_spec ((a - b) mod 16) 8); lia.
Qed.

Lemma seqNumDiff_zero_iff a b :
  0 <= a < 16 -> 0 <= b < 16 -> (Utils.seqNumDiff a b = 0 <-> a = b).
Proof.
  intros Ha Hb. rewrite seqNumDiff_mod by lia.
  destruct (Z.gtb_spec ((a - b) mod 16) 8);
    Z.div_mod_to_equations; lia.
Qed.

(** Sliding to the successor of an acknowledged number [d] places ahead of
    the base moves the base by [d + 1]. *)
Lemma seqNumDiff_after_slide ack base :
  0 <= ack < 16 -> 0 <= base < 16 ->
  0 <= Utils.seqNumDiff ack base < 8 ->
  Utils.seqNumDiff (Utils.nextSeqNum ack) base = Utils.seqNumDiff ack base + 1.
Proof.
  intros Ha Hb Hd.
  pose proof (nextSeqNum_range ack ltac:(lia)) as Hn.
  rewrite (seqNumDiff_mod (Utils.nextSeqNum ack) base) by lia.
  rewrite (seqNumDiff_mod ack base) in * by lia.
  rewrite nextSeqNum_mod in * by lia.
  destruct (Z.gtb_spec ((ack - base) mod 16) 8);
    destruct (Z.gtb_spec (((ack + 1) mod 16 - base) mod 16) 8);
    Z.div_mod_to_equations; lia.
Qed.

End SeqArith.

(** ** Send window *)

Section SendWindowFacts.
Import Constants WindowManager WindowRun.

(** The three outcomes of [processAck]. *)
Lemma processAck_cases (w : t) (ack : Z) :
  0 <= ack < 16 ->
  0 <= sendBase w < 16 ->
  windowSize w <= WINDOW_SIZE ->
  let d := Utils.seqNumDiff ack (sendBase w) in
  let r := fst (processAck ack w) in
  let w' := snd (processAck ack w) in
  (d < 0 -> r = ack_duplicate ack (sendBase w) /\ w' = w) /\
  (0 <= d -> windowSize w <= d ->
     r = ack_out_of_window ack (sendBase w) /\ w' = w) /\
  (0 <= d < windowSize w ->
     sendBase w' = (ack + 1) mod 16 /\
     r = ack_accepted ack (sendBase w) ((ack + 1) mod 16) (d + 1) /\
     Utils.seqNumDiff (sendBase w') (sendBase w) = d + 1 /\
     1 <= d + 1 <= windowSize w) /\
  0 <= Utils.seqNumDiff (sendBase w') (sendBase w) /\
  0 <= sendBase w' < 16 /\
  windowSize w' = windowSize w.
Proof.
  intros Hack Hbase Hws d r w'. unfold WINDOW_SIZE in Hws.
  subst d r w'. unfold processAck.
  assert (Hself : Utils.seqNumDiff (sendBase w) (sendBase w) = 0)
    by (apply seqNumDiff_zero_iff; lia).
  destruct (Z.ltb_spec (Utils.seqNumDiff ack (sendBase w)) 0) as [Hlt|Hge].
  { cbn [fst snd]. rewrite Hself. repeat split; auto; lia. }
  destruct (Z.geb_spec (Utils.seqNumDiff ack (sendBase w)) (windowSize w)) as [Hout|Hin].
  { cbn [fst snd]. rewrite Hself. repeat split; auto; lia. }
  cbn [fst snd sendBase windowSize emit set_stats set_sendBase].
  pose proof (seqNumDiff_after_slide ack (sendBase w) Hack Hbase ltac:(lia)) as Hslide.
  pose proof (nextSeqNum_range ack ltac:(lia)) as Hn.
  rewrite Hslide, (nextSeqNum_mod ack) by lia.
  rewrite nextSeqNum_mod in Hn by lia.
  repeat split; auto; lia.
Qed.

(** Over any run of ACKs, each send base is at a non-negative signed
    distance from the one before it. *)
Lemma processAcks_monotone (acks : list Z) :
  forall w : t,
    Forall (fun a => 0 <= a < 16) acks ->
    0 <= sendBase w < 16 ->
    windowSize w <= WINDOW_SIZE ->
    forall (i : nat) (b b' : Z),
      (sendBase w :: fst (processAcks acks w)) !! i = Some b ->
      fst (processAcks acks w) !! i = Some b' ->
      0 <= Utils.seqNumDiff b' b <= WINDOW_SIZE.
Proof.
  induction acks as [|a acks IH]; intros w Hall Hbase Hws i b b' Hb Hb'.
  - destruct i; discriminate.
  - inversion Hall as [|? ? Ha Hrest]; subst.
    pose proof (processAck_cases w a Ha Hbase Hws) as Hc. cbv zeta in Hc.
    destruct Hc as (Hdup & Hout & Hacc & Hnn & Hrange & Hsize).
    cbn [processAcks] in Hb, Hb'.
    destruct (processAck a w) as [r w1] eqn:Hack. cbn [fst snd] in *.
    destruct (processAcks acks w1) as [bases w2] eqn:Hrun. cbn [fst] in *.
    destruct i as [|i].
    + injection Hb as <-. injection Hb' as <-.
      split; [exact Hnn|].
      destruct (Z_lt_le_dec (Utils.seqNumDiff a (sendBase w)) 0) as [Hlt|Hge].
      { destruct (Hdup Hlt) as [_ ->].
        replace (Utils.seqNumDiff (sendBase w) (sendBase w)) with 0
          by (symmetry; apply seqNumDiff_zero_iff; lia).
        unfold WINDOW_SIZE. lia. }
      destruct (Z_lt_le_dec (Utils.seqNumDiff a (sendBase w)) (windowSize w)) as [Hin|Hoo].
      { destruct (Hacc ltac:(lia)) as (_ & _ & -> & _). lia. }
      destruct (Hout Hge Hoo) as [_ ->].
      replace (Utils.seqNumDiff (sendBase w) (sendBase w)) with 0
        by (symmetry; apply seqNumDiff_zero_iff; lia).
      unfold WINDOW_SIZE. lia.
    + apply (IH w1 Hrest Hrange ltac:(lia) i b b').
      * rewrite Hrun. exact Hb.
      * rewrite Hrun. exact Hb'.
Qed.

(** C4: [processAck ack] with [d] the signed modulo-16 difference between
    [ack] and [sendBase] leaves [sendBase] unchanged when [d < 0] (duplicate)
    or [d >= windowSize] (out of window) and otherwise sets [sendBase] to
    [(ack + 1) mod 16]; every slide has distance [d + 1] in
    [1 .. windowSize], so over any run of ACKs [sendBase] never moves
    backwards in the signed modulo-16 sense. *)
Theorem processAck_monotone (w : t) (ack : Z) :
  0 <= ack < 16 ->
  0 <= sendBase w < 16 ->
  windowSize w <= WINDOW_SIZE ->
  let d := Utils.seqNumDiff ack (sendBase w) in
  let r := fst (processAck ack w) in
  let w' := snd (processAck ack w) in
  (d < 0 -> r = ack_duplicate ack (sendBase w) /\ w' = w) /\
  (0 <= d -> windowSize w <= d ->
     r = ack_out_of_window ack (sendBase w) /\ w' = w) /\
  (0 <= d < windowSize w ->
     sendBase w' = (ack + 1) mod 16 /\
     r = ack_accepted ack (sendBase w) ((ack + 1) mod 16) (d + 1) /\
     Utils.seqNumDiff (sendBase w') (sendBase w) = d + 1 /\
     1 <= d + 1 <= windowSize w) /\
  0 <= Utils.seqNumDiff (sendBase w') (sendBase w) /\
  (forall (acks : list Z) (i : nat) (b b' : Z),
     Forall (fun a => 0 <= a < 16) acks ->
     (sendBase w :: fst (processAcks acks w)) !! i = Some b ->
     fst (processAcks acks w) !! i = Some b' ->
     0 <= Utils.seqNumDiff b' b <= WINDOW_SIZE).
Proof.
  intros Hack Hbase Hws.
  pose proof (processAck_cases w ack Hack Hbase Hws) as Hc. cbv zeta in *.
  destruct Hc as (Hdup & Hout & Hacc & Hnn & _).
  repeat (split; [assumption|]).
  intros acks i b b' Hall. now apply processAcks_monotone.
Qed.

Lemma processAck_monotone_witness :
  sendBase (snd (processAck 2 new)) = 3 /\
  Utils.seqNumDiff (sendBase (snd (processAck 2 new))) (sendBase new) = 3.
Proof.
  pose proof (processAck_monotone new 2) as H.
  cbv zeta in H.
  destruct H as (_ & _ & H & _); [lia | simpl; lia | reflexivity |].
  destruct H as (H1 & _ & H3 & _); [vm_compute; split; [discriminate | reflexivity]|].
  split; [exact H1 | exact H3].
Defined.

End SendWindowFacts.

(** ** Receive window *)

Section ReceiveBufferFacts.
Import Constants WindowManager WindowRun.

Lemma bufferSet_length buf i v : length (bufferSet buf i v) = length buf.
Proof.
  unfold bufferSet. destruct (_ && _); [apply length_insert | reflexivity].
Qed.

Lemma bufferAt_in_range buf i :
  0 <= i < Z.of_nat (length buf) ->
  exists v, buf !! Z.to_nat i = Some v /\ bufferAt buf i = cellOf v.
Proof.
  intros Hi. unfold bufferAt.
  destruct (Z.leb_spec 0 i); [|lia].
  destruct (buf !! Z.to_nat i) as [v|] eqn:E.
  - exists v. split; [reflexivity|]. destruct v; reflexivity.
  - apply lookup_ge_None in E. lia.
Qed.

Lemma bufferAt_set_same buf i v :
  0 <= i < Z.of_nat (length buf) ->
  bufferAt (bufferSet buf i v) i = cellOf v.
Proof.
  intros Hi. unfold bufferAt, bufferSet.
  destruct (Z.leb_spec 0 i); [|lia].
  destruct (Z.ltb_spec i (Z.of_nat (length buf))); [|lia]. cbn [andb].
  rewrite list_lookup_insert_eq by lia. destruct v; reflexivity.
Qed.

Lemma bufferAt_set_other buf i j v :
  i <> j -> bufferAt (bufferSet buf i v) j = bufferAt buf j.
Proof.
  intros Hij. unfold bufferAt, bufferSet.
  destruct (Z.leb_spec 0 j); [|reflexivity].
  destruct (Z.leb_spec 0 i); [|reflexivity].
  destruct (Z.ltb_spec i (Z.of_nat (length buf))); [|reflexivity]. cbn [andb].
  rewrite list_lookup_insert_ne by lia. reflexivity.
Qed.

Lemma countObj_le_length buf : (countObj buf <= length buf)%nat.
Proof.
  induction buf as [|[fd|] buf IH]; simpl; lia.
Qed.

Lemma countObj_clear (buf : list (option FrameData)) (n : nat) fd :
  buf !! n = Some (Some fd) ->
  S (countObj (<[n := None]> buf)) = countObj buf.
Proof.
  revert n. induction buf as [|c buf IH]; intros n Hn; [discriminate|].
  destruct n as [|n].
  - simpl in Hn. injection Hn as ->. reflexivity.
  - simpl in Hn. specialize (IH n Hn).
    destruct c; simpl in *; lia.
Qed.

Lemma countObj_bufferSet_clear buf i fd :
  bufferAt buf i = Obj fd ->
  S (countObj (bufferSet buf i None)) = countObj buf.
Proof.
  unfold bufferAt, bufferSet. intros H.
  destruct (Z.leb_spec 0 i); [|discriminate].
  destruct (buf !! Z.to_nat i) as [[fd'|]|] eqn:E; try discriminate.
  pose proof (lookup_lt_Some _ _ _ E).
  destruct (Z.ltb_spec i (Z.of_nat (length buf))); [|lia]. cbn [andb].
  eapply countObj_clear. exact E.
Qed.

Lemma mod16_succ e n :
  ((e + 1) mod 16 + Z.of_nat n) mod 16 = (e + Z.of_nat (S n)) mod 16.
Proof.
  rewrite Z.add_mod_idemp_l by lia. f_equal. lia.
Qed.

(** The delivery loop from a well-formed receiver: it terminates within the
    budget, hands over the frames stored in consecutive slots starting at
    [expectedSeqNum], clears each of these slots and advances
    [expectedSeqNum] once per frame. *)
Lemma deliverLoop_spec budget :
  forall (w : t) (acc : list DeliveredFrame),
    wf_receiver w ->
    (countObj (receiveBuffer w) < budget)%nat ->
    exists w' new,
      deliverLoop budget w acc = Normal (w', acc ++ new) /\
      wf_receiver w' /\
      expectedSeqNum w' = (expectedSeqNum w + Z.of_nat (length new)) mod 16 /\
      (forall (i : nat) x, new !! i = Some x ->
         df_seqNum x = (expectedSeqNum w + Z.of_nat i) mod 16 /\
         bufferAt (receiveBuffer w) (df_seqNum x)
           = Obj {| fd_data := df_data x; fd_timestamp := df_timestamp x |} /\
         bufferAt (receiveBuffer w') (df_seqNum x) = Null) /\
      bufferAt (receiveBuffer w') (expectedSeqNum w') = Null /\
      (forall j, bufferAt (receiveBuffer w') j = bufferAt (receiveBuffer w) j \/
                 bufferAt (receiveBuffer w') j = Null) /\
      (length new <= countObj (receiveBuffer w))%nat /\
      (new = [] -> bufferAt (receiveBuffer w) (expectedSeqNum w) = Null) /\
      windowSize w' = windowSize w /\ sendBase w' = sendBase w /\
      nextSeqNum w' = nextSeqNum w.
Proof.
  induction budget as [|budget IH]; intros w acc [Hlen He] Hcount; [lia|].
  cbn [deliverLoop].
  destruct (bufferAt_in_range (receiveBuffer w) (expectedSeqNum w) ltac:(lia))
    as (v & Hv & Hcell).
  rewrite Hcell. destruct v as [fd|]; cbn [cellOf].
  - (* a frame is waiting in the expected slot *)
    set (x0 := {| df_seqNum := expectedSeqNum w; df_data := fd_data fd;
                  df_timestamp := fd_timestamp fd |}).
    set (w1 := set_receiver (Utils.nextSeqNum (expectedSeqNum w))
                 (bufferSet (receiveBuffer w) (expectedSeqNum w) None)
                 (Z.shiftr (receivedMask w) 1) w).
    assert (Hwf1 : wf_receiver w1).
    { split; cbn; [now rewrite bufferSet_length | apply nextSeqNum_range; lia]. }
    assert (Hc1 : S (countObj (receiveBuffer w1)) = countObj (receiveBuffer w)).
    { cbn. eapply countObj_bufferSet_clear. rewrite Hcell. reflexivity. }
    destruct (IH w1 (acc ++ [x0]) Hwf1 ltac:(lia))
      as (w' & new & Hrun & Hwf' & Hexp & Hnew & Hnull & Hkeep & Hn & _ & Hws & Hsb & Hns).
    assert (He1 : expectedSeqNum w1 = (expectedSeqNum w + 1) mod 16)
      by (cbn; apply nextSeqNum_mod; lia).
    assert (Hcleared : bufferAt (receiveBuffer w1) (expectedSeqNum w) = Null).
    { cbn. rewrite bufferAt_set_same by lia. reflexivity. }
    exists w', (x0 :: new). rewrite Hrun, <- app_assoc. cbn [app].
    split; [reflexivity|]. split; [exact Hwf'|]. split.
    { rewrite Hexp, He1. cbn [length]. apply mod16_succ. }
    split.
    { intros [|i] x Hx.
      - injection Hx as <-. cbn [df_seqNum df_data df_timestamp x0].
        split; [rewrite Z.add_0_r, Z.mod_small by lia; reflexivity|].
        split; [rewrite Hcell; destruct fd; reflexivity|].
        destruct (Hkeep (expectedSeqNum w)) as [Hk|Hk]; congruence.
      - destruct (Hnew i x Hx) as (Hs & Hobj & Hclr).
        split; [rewrite Hs, He1; apply mod16_succ|].
        split; [|exact Hclr].
        destruct (Z.eq_dec (expectedSeqNum w) (df_seqNum x)) as [Heq|Hne].
        + rewrite <- Heq, Hcleared in Hobj. discriminate.
        + rewrite <- Hobj. cbn. now rewrite bufferAt_set_other. }
    split; [exact Hnull|]. split.
    { intros j. destruct (Hkeep j) as [Hk|Hk]; [|right; exact Hk].
      destruct (Z.eq_dec (expectedSeqNum w) j) as [<-|Hne].
      - right. congruence.
      - left. rewrite Hk. cbn. now rewrite bufferAt_set_other. }
    split; [cbn [length]; lia|]. split; [discriminate|].
    cbn in Hws, Hsb, Hns. auto.
  - (* the expected slot is empty: the loop stops *)
    exists w, []. rewrite app_nil_r. cbn [length].
    split; [reflexivity|]. split; [split; assumption|].
    split; [rewrite Z.add_0_r, Z.mod_small by lia; reflexivity|].
    split; [intros i x Hx; destruct i; discriminate|].
    split; [exact Hcell|]. split; [intros j; left; reflexivity|].
    split; [lia|]. split; [intros _; reflexivity|]. auto.
Qed.

End ReceiveBufferFacts.

Section ReceiveFrameFacts.
Import Constants WindowManager WindowRun.

Lemma deliverFramesInOrder_spec (w : t) :
  wf_receiver w ->
  exists w' frames,
    deliverFramesInOrder w = Normal (recv_delivered frames (expectedSeqNum w'), w') /\
    wf_receiver w' /\
    expectedSeqNum w' = (expectedSeqNum w + Z.of_nat (length frames)) mod 16 /\
    (forall (i : nat) x, frames !! i = Some x ->
       df_seqNum x = (expectedSeqNum w + Z.of_nat i) mod 16 /\
       bufferAt (receiveBuffer w) (df_seqNum x)
         = Obj {| fd_data := df_data x; fd_timestamp := df_timestamp x |} /\
       bufferAt (receiveBuffer w') (df_seqNum x) = Null) /\
    bufferAt (receiveBuffer w') (expectedSeqNum w') = Null /\
    (length frames <= 16)%nat /\
    (frames = [] -> bufferAt (receiveBuffer w) (expectedSeqNum w) = Null) /\
    windowSize w' = windowSize w.
Proof.
  intros Hwf. unfold deliverFramesInOrder.
  pose proof (countObj_le_length (receiveBuffer w)) as Hc.
  destruct (deliverLoop_spec (S (length (receiveBuffer w))) w [] Hwf ltac:(lia))
    as (w' & new & Hrun & Hwf' & Hexp & Hnew & Hnull & _ & Hn & Hempty & Hws & _).
  rewrite Hrun. cbn [app].
  exists (emit (frames_delivered (Z.of_nat (length new)) (df_seqNum <$> head new)
                  (df_seqNum <$> last new) (expectedSeqNum w')) w'), new.
  cbn. destruct Hwf as [Hlen _]. repeat split; auto; try apply Hwf'; try lia.
  all: intros; eapply Hnew; eassumption.
Qed.

(** An in-window frame carrying the expected sequence number. *)
Lemma receiveFrame_expected (w : t) (data : list byte) (now : Z) :
  wf_receiver w ->
  0 < windowSize w ->
  exists w' rest,
    receiveFrame (expectedSeqNum w) data now w =
      Normal (recv_delivered
                ({| df_seqNum := expectedSeqNum w; df_data := data;
                    df_timestamp := now |} :: rest)
                (expectedSeqNum w'), w') /\
    wf_receiver w' /\
    expectedSeqNum w' = (expectedSeqNum w + Z.of_nat (S (length rest))) mod 16 /\
    (forall (i : nat) x,
       ({| df_seqNum := expectedSeqNum w; df_data := data; df_timestamp := now |}
          :: rest) !! i = Some x ->
       df_seqNum x = (expectedSeqNum w + Z.of_nat i) mod 16 /\
       bufferAt (receiveBuffer w') (df_seqNum x) = Null) /\
    (S (length rest) <= 16)%nat.
Proof.
  intros [Hlen He] Hws. unfold receiveFrame. cbn [expectedSeqNum set_stats windowSize].
  assert (Hd : Utils.seqNumDiff (expectedSeqNum w) (expectedSeqNum w) = 0)
    by (apply seqNumDiff_zero_iff; lia).
  rewrite Hd. cbn [Z.ltb Z.compare].
  destruct (Z.geb_spec 0 (windowSize w)); [lia|].
  cbn [expectedSeqNum set_receiver]. rewrite Z.eqb_refl.
  match goal with |- context [deliverFramesInOrder ?w0] => set (w1 := w0) end.
  assert (Hwf1 : wf_receiver w1).
  { split; cbn; [now rewrite bufferSet_length | lia]. }
  destruct (deliverFramesInOrder_spec w1 Hwf1)
    as (w' & frames & Hrun & Hwf' & Hexp & Hfr & Hnull & Hn & Hempty & _).
  assert (Hstored : bufferAt (receiveBuffer w1) (expectedSeqNum w)
                    = Obj {| fd_data := data; fd_timestamp := now |}).
  { cbn. rewrite bufferAt_set_same by lia. reflexivity. }
  change (expectedSeqNum w1) with (expectedSeqNum w) in *.
  destruct frames as [|x0 rest].
  { (* the slot just filled cannot be empty *)
    rewrite (Hempty eq_refl) in Hstored. discriminate. }
  destruct (Hfr 0%nat x0 eq_refl) as (Hs0 & Hobj0 & _).
  rewrite Z.add_0_r, Z.mod_small in Hs0 by lia.
  rewrite Hs0, Hstored in Hobj0. injection Hobj0 as Hdata Hts.
  assert (Hx0 : x0 = {| df_seqNum := expectedSeqNum w; df_data := data;
                        df_timestamp := now |}).
  { destruct x0; cbn in *; congruence. }
  subst x0. exists w', rest. rewrite Hrun.
  repeat split; auto; try apply Hwf'.
  - eapply Hfr; eassumption.
  - eapply Hfr; eassumption.
Qed.

(** An in-window frame that is not the expected one. *)
Lemma receiveFrame_buffered (w : t) (seqNum : Z) (data : list byte) (now : Z) :
  wf_receiver w ->
  0 <= seqNum < 16 ->
  seqNum <> expectedSeqNum w ->
  0 <= Utils.seqNumDiff seqNum (expectedSeqNum w) < windowSize w ->
  exists w',
    receiveFrame seqNum data now w =
      Normal (recv_buffered seqNum (expectedSeqNum w), w') /\
    wf_receiver w' /\
    expectedSeqNum w' = expectedSeqNum w /\
    windowSize w' = windowSize w /\
    bufferAt (receiveBuffer w') seqNum = Obj {| fd_data := data; fd_timestamp := now |} /\
    (forall j, j <> seqNum ->
       bufferAt (receiveBuffer w') j = bufferAt (receiveBuffer w) j).
Proof.
  intros [Hlen He] Hs Hne Hd. unfold receiveFrame.
  cbn [expectedSeqNum set_stats windowSize].
  destruct (Z.ltb_spec (Utils.seqNumDiff seqNum (expectedSeqNum w)) 0); [lia|].
  destruct (Z.geb_spec (Utils.seqNumDiff seqNum (expectedSeqNum w)) (windowSize w)); [lia|].
  cbn [expectedSeqNum set_receiver].
  destruct (Z.eqb_spec seqNum (expectedSeqNum w)); [contradiction|].
  eexists. split; [reflexivity|].
  unfold wf_receiver.
  cbn [receiveBuffer expectedSeqNum windowSize emit set_stats set_receiver].
  rewrite bufferSet_length.
  split; [split; [assumption | lia]|].
  split; [reflexivity|]. split; [reflexivity|].
  split; [rewrite bufferAt_set_same by lia; reflexivity|].
  intros j Hj. now rewrite bufferAt_set_other by congruence.
Qed.

(** Frames outside the window leave the receiver as it is. *)
Lemma receiveFrame_rejected (w : t) (seqNum : Z) (data : list byte) (now : Z) :
  Utils.seqNumDiff seqNum (expectedSeqNum w) < 0 \/
  windowSize w <= Utils.seqNumDiff seqNum (expectedSeqNum w) ->
  exists r w',
    receiveFrame seqNum data now w = Normal (r, w') /\
    (r = recv_duplicate seqNum (expectedSeqNum w) \/
     r = recv_out_of_window seqNum (expectedSeqNum w)) /\
    expectedSeqNum w' = expectedSeqNum w /\
    receiveBuffer w' = receiveBuffer w /\
    windowSize w' = windowSize w.
Proof.
  intros Hd. unfold receiveFrame. cbn [expectedSeqNum set_stats windowSize].
  destruct (Z.ltb_spec (Utils.seqNumDiff seqNum (expectedSeqNum w)) 0).
  { eexists. eexists. split; [reflexivity|]. cbn. auto. }
  destruct (Z.geb_spec (Utils.seqNumDiff seqNum (expectedSeqNum w)) (windowSize w)); [|lia].
  eexists. eexists. split; [reflexivity|]. cbn. auto.
Qed.

End ReceiveFrameFacts.

Section InOrderDelivery.
Import Constants WindowManager WindowRun.

Lemma consecutive_from_nil e : consecutive_from e [].
Proof. intros i x Hx. destruct i; discriminate. Qed.

Lemma consecutive_from_app e l1 l2 :
  consecutive_from e l1 ->
  consecutive_from ((e + Z.of_nat (length l1)) mod 16) l2 ->
  consecutive_from e (l1 ++ l2).
Proof.
  intros H1 H2 i x Hx.
  destruct (Nat.lt_ge_cases i (length l1)) as [Hlt|Hge].
  - rewrite lookup_app_l in Hx by exact Hlt. now apply H1.
  - rewrite lookup_app_r in Hx by exact Hge.
    rewrite (H2 _ _ Hx), Z.add_mod_idemp_l by lia. f_equal. lia.
Qed.

(** One call of [receiveFrame] from a well-formed receiver: it returns, and
    what it hands over continues the sequence at [expectedSeqNum]. *)
Lemma receiveFrame_step (w : t) (seqNum : Z) (data : list byte) (now : Z) :
  wf_receiver w ->
  0 <= seqNum < 16 ->
  exists r w',
    receiveFrame seqNum data now w = Normal (r, w') /\
    wf_receiver w' /\
    consecutive_from (expectedSeqNum w) (deliveredOf r) /\
    expectedSeqNum w' =
      (expectedSeqNum w + Z.of_nat (length (deliveredOf r))) mod 16.
Proof.
  intros Hwf Hs. pose proof Hwf as [Hlen He].
  destruct (Z_lt_le_dec (Utils.seqNumDiff seqNum (expectedSeqNum w)) 0) as [Hdup|Hnn];
    [|destruct (Z_lt_le_dec (Utils.seqNumDiff seqNum (expectedSeqNum w)) (windowSize w))
        as [Hin|Hout]].
  - destruct (receiveFrame_rejected w seqNum data now (or_introl Hdup))
      as (r & w' & Hrun & Hr & Hexp & Hbuf & _).
    exists r, w'. split; [exact Hrun|].
    split; [split; [rewrite Hbuf | rewrite Hexp]; assumption|].
    destruct Hr as [-> | ->]; cbn [deliveredOf length];
      (split; [apply consecutive_from_nil|]);
      rewrite Hexp, Z.add_0_r, Z.mod_small by lia; reflexivity.
  - destruct (Z.eq_dec seqNum (expectedSeqNum w)) as [->|Hne].
    + destruct (receiveFrame_expected w data now Hwf ltac:(lia))
        as (w' & rest & Hrun & Hwf' & Hexp & Hfr & _).
      eexists. exists w'. split; [exact Hrun|]. split; [exact Hwf'|].
      cbn [deliveredOf]. rewrite length_map. split; [|exact Hexp].
      intros i x Hx. rewrite list_lookup_fmap in Hx.
      destruct (_ !! i) as [fr|] eqn:E; [|discriminate].
      injection Hx as <-. now apply (Hfr i fr).
    + destruct (receiveFrame_buffered w seqNum data now Hwf Hs Hne ltac:(lia))
        as (w' & Hrun & Hwf' & Hexp & _).
      eexists. exists w'. split; [exact Hrun|]. split; [exact Hwf'|].
      cbn [deliveredOf length]. split; [apply consecutive_from_nil|].
      rewrite Hexp, Z.add_0_r, Z.mod_small by lia. reflexivity.
  - destruct (receiveFrame_rejected w seqNum data now (or_intror Hout))
      as (r & w' & Hrun & Hr & Hexp & Hbuf & _).
    exists r, w'. split; [exact Hrun|].
    split; [split; [rewrite Hbuf | rewrite Hexp]; assumption|].
    destruct Hr as [-> | ->]; cbn [deliveredOf length];
      (split; [apply consecutive_from_nil|]);
      rewrite Hexp, Z.add_0_r, Z.mod_small by lia; reflexivity.
Qed.

(** Any run of the receiver returns, and the sequence numbers it hands over
    are [e, e+1, e+2, ...] modulo 16 from the initial [expectedSeqNum]. *)
Lemma receiveAll_consecutive (inputs : list (Z * list byte * Z)) :
  forall w : t,
    wf_receiver w ->
    Forall (fun i => 0 <= fst (fst i) < 16) inputs ->
    exists rs w',
      receiveAll inputs w = Normal (rs, w') /\
      wf_receiver w' /\
      consecutive_from (expectedSeqNum w) (deliveredSeqs rs) /\
      expectedSeqNum w' =
        (expectedSeqNum w + Z.of_nat (length (deliveredSeqs rs))) mod 16.
Proof.
  induction inputs as [|[[seqNum data] now] inputs IH]; intros w Hwf Hall.
  - exists [], w. cbn. split; [reflexivity|]. split; [exact Hwf|].
    split; [apply consecutive_from_nil|].
    destruct Hwf as [_ He]. rewrite Z.add_0_r, Z.mod_small by lia. reflexivity.
  - inversion Hall as [|? ? Hs Hrest]; subst. cbn [fst] in Hs.
    destruct (receiveFrame_step w seqNum data now Hwf Hs)
      as (r & w1 & Hrun & Hwf1 & Hcons & Hexp).
    destruct (IH w1 Hwf1 Hrest) as (rs & w' & Hruns & Hwf' & Hconss & Hexps).
    exists (r :: rs), w'. cbn [receiveAll]. rewrite Hrun, Hruns.
    split; [reflexivity|]. split; [exact Hwf'|].
    unfold deliveredSeqs in *. cbn [map concat].
    split.
    + apply consecutive_from_app; [exact Hcons|]. rewrite <- Hexp. exact Hconss.
    + rewrite Hexps, Hexp, length_app, Z.add_mod_idemp_l by lia. f_equal. lia.
Qed.

(** The delivery loop leaves alone every slot it does not hand over. *)
Lemma deliverLoop_untouched budget :
  forall (w w' : t) (acc out : list DeliveredFrame),
    wf_receiver w ->
    deliverLoop budget w acc = Normal (w', out) ->
    exists new,
      out = acc ++ new /\
      forall j,
        (forall i, (i < length new)%nat -> j <> (expectedSeqNum w + Z.of_nat i) mod 16) ->
        bufferAt (receiveBuffer w') j = bufferAt (receiveBuffer w) j.
Proof.
  induction budget as [|budget IH]; intros w w' acc out [Hlen He]; cbn [deliverLoop];
    [discriminate|].
  destruct (bufferAt (receiveBuffer w) (expectedSeqNum w)) as [| |fd] eqn:Hcell;
    [discriminate| |].
  - intros [= <- <-]. exists []. rewrite app_nil_r. split; [reflexivity|]. reflexivity.
  - intros Hrun.
    match type of Hrun with deliverLoop _ ?w0 ?a0 = _ => set (w1 := w0) in *; set (acc1 := a0) in * end.
    assert (Hwf1 : wf_receiver w1).
    { split; cbn; [now rewrite bufferSet_length | apply nextSeqNum_range; lia]. }
    destruct (IH w1 w' acc1 out Hwf1 Hrun) as (new1 & Hout & Hkeep).
    eexists (_ :: new1). split.
    { rewrite Hout. unfold acc1. rewrite <- app_assoc. reflexivity. }
    intros j Hj.
    assert (Hj0 : j <> expectedSeqNum w).
    { specialize (Hj 0%nat ltac:(cbn; lia)).
      rewrite Z.add_0_r, Z.mod_small in Hj by lia. exact Hj. }
    rewrite Hkeep.
    + cbn. apply bufferAt_set_other. congruence.
    + intros i Hi. cbn [expectedSeqNum w1 set_receiver].
      rewrite nextSeqNum_mod by lia. rewrite mod16_succ.
      apply Hj. cbn [length]. lia.
Qed.

(** The expected frame arrives: everything the call does to the buffer. *)
Lemma receiveFrame_expected_walk (w : t) (data : list byte) (now : Z) :
  wf_receiver w ->
  0 < windowSize w ->
  exists w' rest,
    receiveFrame (expectedSeqNum w) data now w =
      Normal (recv_delivered
                ({| df_seqNum := expectedSeqNum w; df_data := data;
                    df_timestamp := now |} :: rest)
                (expectedSeqNum w'), w') /\
    (forall (i : nat) x, rest !! i = Some x ->
       df_seqNum x = (expectedSeqNum w + Z.of_nat (S i)) mod 16 /\
       bufferAt (receiveBuffer w) (df_seqNum x)
         = Obj {| fd_data := df_data x; fd_timestamp := df_timestamp x |}) /\
    bufferAt (receiveBuffer w') (expectedSeqNum w') = Null /\
    ((S (length rest) < 16)%nat ->
     bufferAt (receiveBuffer w)
       ((expectedSeqNum w + Z.of_nat (S (length rest))) mod 16) = Null) /\
    (forall j,
       (forall i, (i <= length rest)%nat -> j <> (expectedSeqNum w + Z.of_nat i) mod 16) ->
       bufferAt (receiveBuffer w') j = bufferAt (receiveBuffer w) j).
Proof.
  intros Hwf Hws. pose proof Hwf as [Hlen He].
  destruct (receiveFrame_expected w data now Hwf Hws)
    as (w' & rest & Hrun & Hwf' & Hexp & Hfr & Hn).
  exists w', rest. split; [exact Hrun|].
  revert Hrun. unfold receiveFrame. cbn [expectedSeqNum set_stats windowSize].
  assert (Hd : Utils.seqNumDiff (expectedSeqNum w) (expectedSeqNum w) = 0)
    by (apply seqNumDiff_zero_iff; lia).
  rewrite Hd. cbn [Z.ltb Z.compare].
  destruct (Z.geb_spec 0 (windowSize w)); [lia|].
  cbn [expectedSeqNum set_receiver]. rewrite Z.eqb_refl.
  match goal with |- context [deliverFramesInOrder ?w0] => set (w1 := w0) end.
  assert (Hwf1 : wf_receiver w1).
  { split; cbn; [now rewrite bufferSet_length | lia]. }
  destruct (deliverFramesInOrder_spec w1 Hwf1)
    as (w2 & frames & Hrun2 & _ & _ & Hfr2 & Hnull2 & _ & _ & _).
  rewrite Hrun2. intros Heq. injection Heq as Hfreq _ Hw. subst w2 frames.
  assert (Hw1 : forall j, j <> expectedSeqNum w ->
                          bufferAt (receiveBuffer w1) j = bufferAt (receiveBuffer w) j).
  { intros j Hj. cbn. apply bufferAt_set_other. congruence. }
  assert (Hkeep : forall j,
             (forall i, (i < S (length rest))%nat ->
                        j <> (expectedSeqNum w + Z.of_nat i) mod 16) ->
             bufferAt (receiveBuffer w') j = bufferAt (receiveBuffer w1) j).
  { revert Hrun2. unfold deliverFramesInOrder.
    destruct (deliverLoop _ w1 []) as [[w3 out]| |] eqn:E; try discriminate.
    intros Heq. injection Heq as Hf _ Hw.
    destruct (deliverLoop_untouched _ _ _ _ _ Hwf1 E) as (new & Hout & Hk).
    cbn [app] in Hout. rewrite <- Hw. cbn [receiveBuffer emit].
    rewrite Hout in Hf. subst new. exact Hk. }
  change (expectedSeqNum w1) with (expectedSeqNum w) in *.
  split; [|split; [|split]].
  - intros i x Hx. destruct (Hfr2 (S i) x Hx) as (Hs & Hobj & _).
    split; [exact Hs|]. rewrite <- Hobj. symmetry. apply Hw1.
    rewrite Hs. apply lookup_lt_Some in Hx.
    clear -He Hx Hn. Z.div_mod_to_equations. lia.
  - exact Hnull2.
  - intros Hlt. rewrite <- Hexp, <- Hw1.
    + rewrite <- Hkeep; [exact Hnull2|].
      intros i Hi. rewrite Hexp. clear -He Hi Hlt. Z.div_mod_to_equations. lia.
    + rewrite Hexp. clear -He Hlt. Z.div_mod_to_equations. lia.
  - intros j Hj. rewrite Hkeep.
    + apply Hw1. specialize (Hj 0%nat ltac:(lia)).
      rewrite Z.add_0_r, Z.mod_small in Hj by lia. exact Hj.
    + intros i Hi. apply Hj. lia.
Qed.

(** C2: for every well-formed receiver state and every in-window DATA frame
    [(seqNum, data)], [receiveFrame] returns [delivered] exactly when
    [seqNum] equals [expectedSeqNum].  The delivered list then starts with
    the frame itself and walks forward over the buffer: it carries
    consecutive sequence numbers modulo 16 from the old [expectedSeqNum],
    every further element is the frame that was waiting in the slot of its
    number, with the payload and timestamp stored there, the walk goes on as
    long as the next slot holds a frame and ends only at an empty slot; each
    delivered slot is cleared, every other slot is left as it was and
    [expectedSeqNum] has advanced once per delivered frame.  An in-window
    frame that is not the expected one is stored, leaving the other slots
    alone, and [buffered] is returned with [shouldAck = false].  Hence over
    any run the delivered sequence numbers are [e, e+1, e+2, ...] modulo 16,
    without gap or repeat. *)
Theorem receiveFrame_in_order (w : t) :
  wf_receiver w ->
  (forall (seqNum : Z) (data : list byte) (now : Z),
     0 <= seqNum < 16 ->
     0 <= Utils.seqNumDiff seqNum (expectedSeqNum w) < windowSize w ->
     exists r w',
       receiveFrame seqNum data now w = Normal (r, w') /\
       wf_receiver w' /\
       ((exists frames e, r = recv_delivered frames e) <-> seqNum = expectedSeqNum w) /\
       (seqNum = expectedSeqNum w ->
          (exists rest,
             r = recv_delivered
                   ({| df_seqNum := seqNum; df_data := data; df_timestamp := now |}
                      :: rest) (expectedSeqNum w') /\
             forall (i : nat) x, rest !! i = Some x ->
               df_seqNum x = (expectedSeqNum w + Z.of_nat (S i)) mod 16 /\
               bufferAt (receiveBuffer w) (df_seqNum x)
                 = Obj {| fd_data := df_data x; fd_timestamp := df_timestamp x |}) /\
          consecutive_from (expectedSeqNum w) (deliveredOf r) /\
          expectedSeqNum w' =
            (expectedSeqNum w + Z.of_nat (length (deliveredOf r))) mod 16 /\
          (forall s, In s (deliveredOf r) -> bufferAt (receiveBuffer w') s = Null) /\
          (forall k : nat, (k < 16)%nat ->
             (forall i : nat, (1 <= i <= k)%nat ->
                bufferAt (receiveBuffer w) ((expectedSeqNum w + Z.of_nat i) mod 16)
                  <> Null) ->
             (k < length (deliveredOf r))%nat) /\
          ((length (deliveredOf r) < 16)%nat ->
             bufferAt (receiveBuffer w)
               ((expectedSeqNum w + Z.of_nat (length (deliveredOf r))) mod 16) = Null) /\
          bufferAt (receiveBuffer w') (expectedSeqNum w') = Null /\
          (forall j, ~ In j (deliveredOf r) ->
             bufferAt (receiveBuffer w') j = bufferAt (receiveBuffer w) j)) /\
       (seqNum <> expectedSeqNum w ->
          r = recv_buffered seqNum (expectedSeqNum w) /\
          shouldAck r = false /\
          bufferAt (receiveBuffer w') seqNum
            = Obj {| fd_data := data; fd_timestamp := now |} /\
          (forall j, j <> seqNum ->
             bufferAt (receiveBuffer w') j = bufferAt (receiveBuffer w) j) /\
          expectedSeqNum w' = expectedSeqNum w)) /\
  (forall inputs : list (Z * list byte * Z),
     Forall (fun i => 0 <= fst (fst i) < 16) inputs ->
     exists rs w',
       receiveAll inputs w = Normal (rs, w') /\
       wf_receiver w' /\
       consecutive_from (expectedSeqNum w) (deliveredSeqs rs) /\
       expectedSeqNum w' =
         (expectedSeqNum w + Z.of_nat (length (deliveredSeqs rs))) mod 16).
Proof.
  intros Hwf. split; [|intros inputs; now apply receiveAll_consecutive].
  intros seqNum data now Hs Hd.
  destruct (Z.eq_dec seqNum (expectedSeqNum w)) as [Heq|Hne].
  - subst seqNum.
    assert (Hws : 0 < windowSize w) by lia.
    destruct (receiveFrame_expected w data now Hwf Hws)
      as (w' & rest & Hrun & Hwf' & Hexp & Hfr & _).
    destruct (receiveFrame_expected_walk w data now Hwf Hws)
      as (w2 & rest2 & Hrun2 & Hpay & Hnull & Hmax & Hkeep).
    rewrite Hrun in Hrun2. injection Hrun2 as Hrest _ Hw. subst rest2 w2.
    eexists. exists w'. split; [exact Hrun|]. split; [exact Hwf'|].
    split; [split; [reflexivity | intros _; eauto]|].
    split; [|intros Hne; contradiction].
    intros _. split; [exists rest; split; [reflexivity | exact Hpay]|].
    cbn [deliveredOf]. rewrite length_map. cbn [length].
    split; [|split; [exact Hexp|split; [|split; [|split; [exact Hmax|split; [exact Hnull|]]]]]].
    + intros i x Hx. rewrite list_lookup_fmap in Hx.
      destruct (_ !! i) as [fr|] eqn:E; [|discriminate].
      injection Hx as <-. now apply (Hfr i fr).
    + intros s Hin. apply in_map_iff in Hin as (fr & <- & Hin).
      apply list_elem_of_In, list_elem_of_lookup in Hin as (i & Hi).
      now apply (Hfr i fr).
    + (* a walk that stopped early would have stopped at a filled slot *)
      intros k Hk Hfilled.
      destruct (le_lt_dec (S (length rest)) k) as [Hshort|Hlong]; [exfalso|exact Hlong].
      apply (Hfilled (S (length rest))); [lia|]. apply Hmax. lia.
    + intros j Hj. apply Hkeep. intros i Hi Habs. apply Hj.
      destruct (lookup_lt_is_Some_2
                  ({| df_seqNum := expectedSeqNum w; df_data := data;
                      df_timestamp := now |} :: rest) i) as (x & Hx);
        [cbn [length]; lia|].
      apply in_map_iff. exists x. split.
      * destruct (Hfr i x Hx) as (Hsx & _). congruence.
      * apply list_elem_of_In, list_elem_of_lookup. eauto.
  - destruct (receiveFrame_buffered w seqNum data now Hwf Hs Hne Hd)
      as (w' & Hrun & Hwf' & Hexp & _ & Hst & Hother).
    eexists. exists w'. split; [exact Hrun|]. split; [exact Hwf'|].
    split; [split; [intros (fr & e & Habs); discriminate | contradiction]|].
    split; [contradiction|]. intros _. auto 10.
Qed.

Lemma receiveFrame_in_order_witness :
  let w12 :=
    set_receiver 0
      (bufferSet
         (bufferSet emptyBuffer 1 (Some {| fd_data := [x62]; fd_timestamp := 10 |}))
         2 (Some {| fd_data := [x63]; fd_timestamp := 11 |}))
      6 new in
  wf_receiver w12 /\
  (exists r w',
     receiveFrame 0 [x61] 12 w12 = Normal (r, w') /\
     (2 < length (deliveredOf r))%nat /\
     r = recv_delivered
           [{| df_seqNum := 0; df_data := [x61]; df_timestamp := 12 |};
            {| df_seqNum := 1; df_data := [x62]; df_timestamp := 10 |};
            {| df_seqNum := 2; df_data := [x63]; df_timestamp := 11 |}] 3) /\
  exists rs w',
    receiveAll [(1, [x62], 10); (2, [x63], 11); (0, [x61], 12); (3, [x64], 13)] new
      = Normal (rs, w') /\
    consecutive_from 0 (deliveredSeqs rs).
Proof.
  intros w12.
  assert (Hwf12 : wf_receiver w12) by (split; [reflexivity | cbn; lia]).
  assert (Hwf : wf_receiver new) by (split; [reflexivity | cbn; lia]).
  split; [exact Hwf12|]. split.
  - destruct (receiveFrame_in_order w12 Hwf12) as [Hstep _].
    destruct (Hstep 0 [x61] 12) as (r & w' & Hrun & _ & _ & Hexp & _);
      [lia | vm_compute; split; [discriminate | reflexivity] |].
    destruct (Hexp eq_refl) as (_ & _ & _ & _ & Hwalk & _).
    exists r, w'. split; [exact Hrun|]. split.
    + apply Hwalk; [lia|].
      intros i Hi. assert (Hc : i = 1%nat \/ i = 2%nat) by lia.
      destruct Hc as [-> | ->]; vm_compute; discriminate.
    + vm_compute in Hrun. injection Hrun as <- _. reflexivity.
  - destruct (receiveFrame_in_order new Hwf) as [_ Hrun].
    destruct (Hrun [(1, [x62], 10); (2, [x63], 11); (0, [x61], 12); (3, [x64], 13)])
      as (rs & w' & H1 & _ & H2 & _).
    + repeat constructor; cbn; lia.
    + exists rs, w'. split; [exact H1 | exact H2].
Defined.

End InOrderDelivery.

(** ** Acknowledgement engine *)

Section AckEngineFacts.
Import Constants AcknowledgmentManager.

Ltac run_engine :=
  unfold handleReceivedAck, handleReceivedNak, handleAckTimeout, retransmitFrame,
    registerPendingAck, fireTimer, bind, gets, modify, emit, call, ret,
    clearTimeout, setTimeout, set_stats, set_pendingAcks;
  cbn [pendingAcks receivedFrames expectedSeqNum stats timers nextTimer
       frame timestamp retries timeout retransmitCallback app fst snd].

(** [retransmitFrame] on a pending entry: the timer is replaced, the
    timestamp refreshed, the callback invoked with the stored bytes; the
    [retries] field is not written. *)
Lemma retransmitFrame_pending (a : t) (seqNum now : Z) (p : PendingAck) :
  pendingAcks a !! seqNum = Some p ->
  retransmitFrame seqNum now a =
  (tt,
   {| pendingAcks :=
        <[seqNum := {| frame := frame p; timestamp := now; retries := retries p;
                       timeout := nextTimer a;
                       retransmitCallback := retransmitCallback p |}]> (pendingAcks a);
      receivedFrames := receivedFrames a;
      expectedSeqNum := expectedSeqNum a;
      stats := {| acksSent := acksSent (stats a); naksSent := naksSent (stats a);
                  acksReceived := acksReceived (stats a);
                  naksReceived := naksReceived (stats a);
                  timeouts := timeouts (stats a);
                  retransmissions := retransmissions (stats a) + 1;
                  duplicatesDetected := duplicatesDetected (stats a) |};
      timers := <[nextTimer a := seqNum]> (delete (timeout p) (timers a));
      nextTimer := S (nextTimer a) |},
   Emit (frame_retransmitting seqNum (retries p + 1)) ::
   (if retransmitCallback p then [call_retransmit (frame p) seqNum] else [])).
Proof.
  intros Hp. run_engine. rewrite Hp.
  cbn [pendingAcks receivedFrames expectedSeqNum stats timers nextTimer
       frame timestamp retries timeout retransmitCallback app fst snd].
  destruct (retransmitCallback p); reflexivity.
Qed.

Lemma handleReceivedNak_pending (a : t) (seqNum now : Z) (p : PendingAck) :
  pendingAcks a !! seqNum = Some p ->
  handleReceivedNak seqNum now a =
  (true,
   {| pendingAcks :=
        <[seqNum := {| frame := frame p; timestamp := now; retries := retries p;
                       timeout := nextTimer a;
                       retransmitCallback := retransmitCallback p |}]> (pendingAcks a);
      receivedFrames := receivedFrames a;
      expectedSeqNum := expectedSeqNum a;
      stats := {| acksSent := acksSent (stats a); naksSent := naksSent (stats a);
                  acksReceived := acksReceived (stats a);
                  naksReceived := naksReceived (stats a) + 1;
                  timeouts := timeouts (stats a);
                  retransmissions := retransmissions (stats a) + 1;
                  duplicatesDetected := duplicatesDetected (stats a) |};
      timers := <[nextTimer a := seqNum]> (delete (timeout p) (timers a));
      nextTimer := S (nextTimer a) |},
   Emit (nak_received seqNum (retries p)) ::
   Emit (frame_retransmitting seqNum (retries p + 1)) ::
   (if retransmitCallback p then [call_retransmit (frame p) seqNum] else [])).
Proof.
  intros Hp. unfold handleReceivedNak.
  unfold bind at 1. unfold modify at 1.
  unfold bind at 1. unfold gets at 1. cbn [set_stats pendingAcks]. rewrite Hp.
  unfold bind at 1. unfold emit at 1.
  unfold bind at 1.
  rewrite (retransmitFrame_pending _ seqNum now p) by exact Hp.
  unfold ret. cbn [pendingAcks receivedFrames expectedSeqNum stats timers nextTimer
                   acksSent naksSent acksReceived naksReceived timeouts
                   retransmissions duplicatesDetected app].
  rewrite app_nil_r. reflexivity.
Qed.

Lemma handleReceivedNak_unknown (a : t) (seqNum now : Z) :
  pendingAcks a !! seqNum = None ->
  exists a',
    handleReceivedNak seqNum now a = (false, a', [Emit (nak_unexpected seqNum)]) /\
    pendingAcks a' = pendingAcks a /\ timers a' = timers a.
Proof.
  intros Hp. run_engine. rewrite Hp. eexists. split; [reflexivity|]. auto.
Qed.

(** [handleReceivedAck] removes the entry of the acknowledged sequence number
    and cancels its timer, and touches no other entry and no other timer. *)
Lemma handleReceivedAck_run (a : t) (seqNum now : Z) :
  exists known a' out,
    handleReceivedAck seqNum now a = (known, a', out) /\
    pendingAcks a' = delete seqNum (pendingAcks a) /\
    timers a' = match pendingAcks a !! seqNum with
                | Some p => delete (timeout p) (timers a)
                | None => timers a
                end /\
    nextTimer a' = nextTimer a /\
    out = match pendingAcks a !! seqNum with
          | Some p => [Emit (ack_received seqNum (now - timestamp p) (retries p))]
          | None => [Emit (ack_unexpected seqNum)]
          end.
Proof.
  run_engine. destruct (pendingAcks a !! seqNum) as [p|] eqn:Hp.
  - do 3 eexists. split; [reflexivity|]. cbn. auto.
  - do 3 eexists. split; [reflexivity|]. cbn.
    rewrite delete_id by exact Hp. auto.
Qed.

(** A timeout on a pending entry: the counter is incremented first; when it
    has reached [MAX_RETRIES] the entry is dropped and the frame declared
    failed without a further transmission, otherwise the frame is
    retransmitted once. *)
Lemma handleAckTimeout_pending (a : t) (seqNum now : Z) (p : PendingAck) :
  pendingAcks a !! seqNum = Some p ->
  exists a' out,
    handleAckTimeout seqNum now a = (tt, a', out) /\
    if retries p + 1 >=? MAX_RETRIES then
      pendingAcks a' = delete seqNum (pendingAcks a) /\
      timers a' = timers a /\
      nextTimer a' = nextTimer a /\
      out = [Emit (ack_timeout seqNum (retries p + 1) MAX_RETRIES);
             Emit (frame_failed seqNum (retries p + 1))]
    else
      pendingAcks a' =
        <[seqNum := {| frame := frame p; timestamp := now; retries := retries p + 1;
                       timeout := nextTimer a;
                       retransmitCallback := retransmitCallback p |}]> (pendingAcks a) /\
      timers a' = <[nextTimer a := seqNum]> (delete (timeout p) (timers a)) /\
      nextTimer a' = S (nextTimer a) /\
      out = Emit (ack_timeout seqNum (retries p + 1) MAX_RETRIES) ::
            Emit (frame_retransmitting seqNum (retries p + 2)) ::
            (if retransmitCallback p then [call_retransmit (frame p) seqNum] else []).
Proof.
  intros Hp. unfold handleAckTimeout.
  unfold bind at 1. unfold gets at 1. rewrite Hp.
  cbn [frame timestamp retries timeout retransmitCallback].
  destruct (retries p + 1 >=? MAX_RETRIES) eqn:Hmax.
  - run_engine. do 2 eexists. split; [reflexivity|]. cbn.
    rewrite delete_insert_eq. auto.
  - unfold bind at 1. unfold modify at 1.
    unfold bind at 1. unfold modify at 1.
    unfold bind at 1. unfold emit at 1.
    erewrite retransmitFrame_pending
      by (cbn [set_stats set_pendingAcks pendingAcks]; apply lookup_insert_eq).
    do 2 eexists. split; [reflexivity|].
    cbn [set_stats set_pendingAcks pendingAcks timers nextTimer
         frame timestamp retries timeout retransmitCallback app].
    rewrite insert_insert_eq.
    replace (retries p + 1 + 1) with (retries p + 2) by lia. auto.
Qed.

Lemma fireTimer_live (a : t) (h : nat) (seqNum now : Z) :
  timers a !! h = Some seqNum ->
  fireTimer h now a =
  handleAckTimeout seqNum now
    {| pendingAcks := pendingAcks a; receivedFrames := receivedFrames a;
       expectedSeqNum := expectedSeqNum a; stats := stats a;
       timers := delete h (timers a); nextTimer := nextTimer a |}.
Proof.
  intros Hh. unfold fireTimer.
  unfold bind at 1. unfold gets at 1. rewrite Hh.
  unfold bind at 1. unfold clearTimeout, modify.
  destruct (handleAckTimeout seqNum now _) as [[[] a'] out]. reflexivity.
Qed.

(** [registerPendingAck] stores the entry with [retries = 0] and arms a
    fresh timer for it. *)
Lemma registerPendingAck_run (a : t) (seqNum : Z) (fr : list byte) (cb : bool) (now : Z) :
  exists a',
    registerPendingAck seqNum fr cb now a =
      (tt, a', [Emit (ack_registered seqNum (Z.of_nat (length fr)) ACK_TIMEOUT)]) /\
    pendingAcks a' !! seqNum =
      Some {| frame := fr; timestamp := now; retries := 0;
              timeout := nextTimer a; retransmitCallback := cb |} /\
    timers a' !! nextTimer a = Some seqNum /\
    nextTimer a' = S (nextTimer a).
Proof.
  run_engine.
  destruct (pendingAcks a !! seqNum) as [p|];
    (eexists; split; [reflexivity|]; cbn;
     split; [apply lookup_insert_eq|]; split; [apply lookup_insert_eq | reflexivity]).
Qed.

(** One expiry of the live timer of a pending entry that has a callback. *)
Lemma fireTimer_pending (a : t) (seqNum now : Z) (p : PendingAck) :
  pendingAcks a !! seqNum = Some p ->
  timers a !! timeout p = Some seqNum ->
  retransmitCallback p = true ->
  exists a' out,
    fireTimer (timeout p) now a = (tt, a', out) /\
    nextTimer a' = (if retries p + 1 >=? MAX_RETRIES then nextTimer a
                    else S (nextTimer a)) /\
    if retries p + 1 >=? MAX_RETRIES then
      pendingAcks a' !! seqNum = None /\
      out = [Emit (ack_timeout seqNum (retries p + 1) MAX_RETRIES);
             Emit (frame_failed seqNum (retries p + 1))]
    else
      pendingAcks a' !! seqNum =
        Some {| frame := frame p; timestamp := now; retries := retries p + 1;
                timeout := nextTimer a; retransmitCallback := true |} /\
      timers a' !! nextTimer a = Some seqNum /\
      out = [Emit (ack_timeout seqNum (retries p + 1) MAX_RETRIES);
             Emit (frame_retransmitting seqNum (retries p + 2));
             call_retransmit (frame p) seqNum].
Proof.
  intros Hp Ht Hcb. rewrite (fireTimer_live a _ seqNum now Ht).
  match goal with |- context [handleAckTimeout _ _ ?a0] =>
    destruct (handleAckTimeout_pending a0 seqNum now p Hp) as (a' & out & Hrun & Hcases)
  end.
  exists a', out. split; [exact Hrun|].
  cbn [pendingAcks timers nextTimer] in Hcases.
  destruct (retries p + 1 >=? MAX_RETRIES).
  - destruct Hcases as (Hpend & _ & Hnext & ->).
    split; [exact Hnext|]. rewrite Hpend. split; [apply lookup_delete_eq | reflexivity].
  - destruct Hcases as (Hpend & Htm & Hnext & ->).
    split; [exact Hnext|]. rewrite Hpend, Htm, Hcb, !lookup_insert_eq. auto.
Qed.

(** A run of NAKs for one pending sequence number. *)
Lemma nak_run (seqNum : Z) (times : list Z) :
  forall (a : t) (p : PendingAck),
    pendingAcks a !! seqNum = Some p ->
    exists a' out p',
      AckInv.runOps (map (fun now => (AckInv.op_nak seqNum, now)) times) a = (a', out) /\
      pendingAcks a' !! seqNum = Some p' /\
      retries p' = retries p /\ frame p' = frame p /\
      retransmitCallback p' = retransmitCallback p /\
      retransmitCalls out
        = (if retransmitCallback p then length times else 0%nat) /\
      retransmissions (stats a')
        = retransmissions (stats a) + Z.of_nat (length times) /\
      (forall s r, ~ In (Emit (frame_failed s r)) out).
Proof.
  induction times as [|now times IH]; intros a p Hp; cbn [map AckInv.runOps].
  - exists a, [], p. split; [reflexivity|]. split; [exact Hp|].
    repeat (split; [reflexivity|]).
    split; [destruct (retransmitCallback p); reflexivity|].
    split; [cbn; lia | intros s r []].
  - unfold AckInv.runOp. rewrite (handleReceivedNak_pending a seqNum now p Hp).
    match goal with |- context [AckInv.runOps _ ?x] => set (a1 := x) end.
    set (p1 := {| frame := frame p; timestamp := now; retries := retries p;
                  timeout := nextTimer a;
                  retransmitCallback := retransmitCallback p |}).
    assert (Hp1 : pendingAcks a1 !! seqNum = Some p1) by apply lookup_insert_eq.
    destruct (IH a1 p1 Hp1) as (a' & out & p' & Hrun & Hp' & Hr & Hf & Hcb & Hcalls & Hst & Hnf).
    rewrite Hrun. eexists a', _, p'. split; [reflexivity|]. split; [exact Hp'|].
    split; [exact Hr|]. split; [exact Hf|]. split; [exact Hcb|].
    split; [|split].
    + unfold retransmitCalls in *. cbn [p1 retransmitCallback] in Hcalls.
      destruct (retransmitCallback p); cbn; rewrite Hcalls; reflexivity.
    + rewrite Hst. cbn. lia.
    + intros s r Hin. cbn [app] in Hin.
      destruct Hin as [Habs|[Habs|Hin]]; try discriminate.
      apply in_app_or in Hin. destruct Hin as [Hin|Hin]; [|now apply (Hnf s r)].
      destruct (retransmitCallback p); cbn in Hin; [destruct Hin as [Habs|[]]; discriminate | contradiction].
Qed.

(** C8 (what the code does): a NAK for a pending sequence number is answered
    at once, in any state of the engine: the stored retransmit callback (when
    there is one) is invoked with the stored frame bytes, the entry's timer
    is replaced by a fresh one and the [retransmissions] statistic grows by
    one.  It is not counted as a retry: [handleReceivedNak] reaches
    [retransmitFrame] without the [pending.retries++] that
    [handleAckTimeout] performs before the same call, so the entry keeps its
    [retries] value, the event ['frame_retransmitting'] reports the same
    [attempt] for every NAK resend, and any number of NAKs in a row
    retransmits each time without ever removing the entry or emitting
    ['frame_failed']: NAK resends are outside the [MAX_RETRIES] budget. *)
Theorem handleReceivedNak_retransmits (a : t) (seqNum now : Z) (p : PendingAck) :
  pendingAcks a !! seqNum = Some p ->
  (exists a',
     handleReceivedNak seqNum now a =
       (true, a',
        Emit (nak_received seqNum (retries p)) ::
        Emit (frame_retransmitting seqNum (retries p + 1)) ::
        (if retransmitCallback p then [call_retransmit (frame p) seqNum] else [])) /\
     pendingAcks a' !! seqNum =
       Some {| frame := frame p; timestamp := now; retries := retries p;
               timeout := nextTimer a;
               retransmitCallback := retransmitCallback p |} /\
     timers a' !! nextTimer a = Some seqNum /\
     retransmissions (stats a') = retransmissions (stats a) + 1) /\
  (forall times : list Z,
     exists a' out p',
       AckInv.runOps (map (fun t => (AckInv.op_nak seqNum, t)) times) a = (a', out) /\
       pendingAcks a' !! seqNum = Some p' /\
       retries p' = retries p /\ frame p' = frame p /\
       retransmitCalls out
         = (if retransmitCallback p then length times else 0%nat) /\
       retransmissions (stats a')
         = retransmissions (stats a) + Z.of_nat (length times) /\
       (forall s r, ~ In (Emit (frame_failed s r)) out)).
Proof.
  intros Hp. split.
  - rewrite (handleReceivedNak_pending a seqNum now p Hp).
    eexists. split; [reflexivity|].
    cbn [pendingAcks timers stats retransmissions].
    rewrite !lookup_insert_eq. auto.
  - intros times.
    destruct (nak_run seqNum times a p Hp)
      as (a' & out & p' & Hrun & Hp' & Hr & Hf & _ & Hcalls & Hst & Hnf).
    exists a', out, p'. auto 10.
Qed.

Lemma handleReceivedNak_retransmits_witness :
  let a :=
    {| pendingAcks := {[ 0 := {| frame := [x7e; x01; x00; x7e]; timestamp := 0;
                                 retries := 2; timeout := 4%nat;
                                 retransmitCallback := true |} ]};
       receivedFrames := ∅; expectedSeqNum := 0; stats := stats new;
       timers := {[ 4%nat := 0 ]}; nextTimer := 5 |} in
  (exists a',
     handleReceivedNak 0 10 a =
       (true, a',
        [Emit (nak_received 0 2); Emit (frame_retransmitting 0 3);
         call_retransmit [x7e; x01; x00; x7e] 0]) /\
     retries <$> (pendingAcks a' !! 0) = Some 2) /\
  exists a' out p',
    AckInv.runOps (map (fun t => (AckInv.op_nak 0, t)) [10; 20; 30; 40; 50]) a
      = (a', out) /\
    pendingAcks a' !! 0 = Some p' /\ retries p' = 2 /\
    retransmitCalls out = 5%nat /\
    (forall s r, ~ In (Emit (frame_failed s r)) out).
Proof.
  intros a.
  destruct (handleReceivedNak_retransmits a 0 10
              {| frame := [x7e; x01; x00; x7e]; timestamp := 0; retries := 2;
                 timeout := 4%nat; retransmitCallback := true |})
    as [(a1 & Hrun1 & Hpend1 & _) Hmany].
  - apply lookup_singleton_eq.
  - split.
    + exists a1. split; [exact Hrun1|]. rewrite Hpend1. reflexivity.
    + destruct (Hmany [10; 20; 30; 40; 50])
        as (a' & out & p' & Hrun & Hp' & Hr & _ & Hcalls & _ & Hnf).
      exists a', out, p'. auto 10.
Defined.

(** C8 (as stated) fails: a NAK for a pending entry with [retries = 1]
    leaves the counter at 1, not 2, where the claim has it one higher. *)
Lemma nak_leaves_retries_counterexample :
  let a :=
    {| pendingAcks := {[ 0 := {| frame := [x7e; x01; x00; x7e]; timestamp := 0;
                                 retries := 1; timeout := 4%nat;
                                 retransmitCallback := true |} ]};
       receivedFrames := ∅; expectedSeqNum := 0; stats := stats new;
       timers := {[ 4%nat := 0 ]}; nextTimer := 5 |} in
  let a' := snd (fst (handleReceivedNak 0 10 a)) in
  retries <$> (pendingAcks a !! 0) = Some 1 /\
  retries <$> (pendingAcks a' !! 0) = Some 1 /\
  retries <$> (pendingAcks a' !! 0) <> Some (1 + 1).
Proof.
  cbv zeta. split; [|split].
  - vm_compute. reflexivity.
  - vm_compute. reflexivity.
  - intros H. vm_compute in H. discriminate H.
Qed.

(** After [registerPendingAck], in any state of the engine, the first two
    expiries of the entry's timer each retransmit the frame once, and the
    third one removes the entry and emits [frame_failed] with
    [retries = 3] without retransmitting. *)
Lemma three_timeouts_run (a : t) (seqNum : Z) (fr : list byte)
    (now0 now1 now2 now3 : Z) :
  exists a1 out1 a2 a3 a4 out4,
    registerPendingAck seqNum fr true now0 a = (tt, a1, out1) /\
    fireTimer (nextTimer a) now1 a1 =
      (tt, a2, [Emit (ack_timeout seqNum 1 MAX_RETRIES);
                Emit (frame_retransmitting seqNum 2);
                call_retransmit fr seqNum]) /\
    fireTimer (S (nextTimer a)) now2 a2 =
      (tt, a3, [Emit (ack_timeout seqNum 2 MAX_RETRIES);
                Emit (frame_retransmitting seqNum 3);
                call_retransmit fr seqNum]) /\
    fireTimer (S (S (nextTimer a))) now3 a3 = (tt, a4, out4) /\
    out4 = [Emit (ack_timeout seqNum 3 MAX_RETRIES); Emit (frame_failed seqNum 3)] /\
    retransmitCalls out4 = 0%nat /\
    pendingAcks a4 !! seqNum = None.
Proof.
  destruct (registerPendingAck_run a seqNum fr true now0) as (a1 & Hreg & Hp1 & Ht1 & Hn1).
  destruct (fireTimer_pending a1 seqNum now1 _ Hp1 Ht1 eq_refl)
    as (a2 & out2 & Hrun2 & Hn2 & Hc2).
  cbn [frame retries timeout] in Hrun2, Hn2, Hc2.
  change (0 + 1 >=? MAX_RETRIES) with false in Hn2, Hc2.
  destruct Hc2 as (Hp2 & Ht2 & ->). rewrite Hn1 in Hp2, Ht2, Hn2.
  destruct (fireTimer_pending a2 seqNum now2 _ Hp2 Ht2 eq_refl)
    as (a3 & out3 & Hrun3 & Hn3 & Hc3).
  cbn [frame retries timeout] in Hrun3, Hn3, Hc3.
  change (0 + 1 + 1 >=? MAX_RETRIES) with false in Hn3, Hc3.
  destruct Hc3 as (Hp3 & Ht3 & ->). rewrite Hn2 in Hp3, Ht3, Hn3.
  destruct (fireTimer_pending a3 seqNum now3 _ Hp3 Ht3 eq_refl)
    as (a4 & out4 & Hrun4 & Hn4 & Hc4).
  cbn [frame retries timeout] in Hrun4, Hn4, Hc4.
  change (0 + 1 + 1 + 1 >=? MAX_RETRIES) with true in Hn4, Hc4.
  destruct Hc4 as (Hp4 & ->).
  do 6 eexists.
  split; [exact Hreg|]. split; [exact Hrun2|]. split; [exact Hrun3|].
  split; [exact Hrun4|]. split; [reflexivity|]. split; [reflexivity|]. exact Hp4.
Qed.

End AckEngineFacts.

(** ** Coordinator *)

Section CoordinatorFacts.
Import Constants DataLinkLayer.

(** The coordinator's listeners leave both managers alone. *)
Lemma react_emit (e : AcknowledgmentManager.Event) (d : t) :
  exists d',
    react (AcknowledgmentManager.Emit e) d = Normal d' /\
    ackManager d' = ackManager d /\
    windowManager d' = windowManager d /\
    transmitted d' = transmitted d.
Proof.
  destruct e; cbn; eexists; (split; [reflexivity|]); cbn; auto.
Qed.

(** C1 (what the code does): [processAckFrame] looks up only the
    acknowledged sequence number in the pending map, so the entry of any
    other sequence number is still there afterwards, whether or not the
    window slid over it, and only the timer of the acknowledged entry is
    cancelled. *)
Theorem processAckFrame_removes_only_exact (d : t) (seqNum now k : Z) :
  k <> seqNum ->
  exists slid d',
    processAckFrame seqNum now d = Normal (slid, d') /\
    AcknowledgmentManager.pendingAcks (ackManager d') !! k
      = AcknowledgmentManager.pendingAcks (ackManager d) !! k /\
    AcknowledgmentManager.timers (ackManager d')
      = match AcknowledgmentManager.pendingAcks (ackManager d) !! seqNum with
        | Some p => delete (AcknowledgmentManager.timeout p)
                      (AcknowledgmentManager.timers (ackManager d))
        | None => AcknowledgmentManager.timers (ackManager d)
        end /\
    WindowManager.sendBase (windowManager d')
      = WindowManager.sendBase
          (snd (WindowManager.processAck seqNum (windowManager d))).
Proof.
  intros Hk. unfold processAckFrame, withAckManager.
  destruct (handleReceivedAck_run (ackManager d) seqNum now)
    as (known & a' & out & Hrun & Hpend & Htm & _ & Hout).
  rewrite Hrun.
  assert (Hreact : exists d1,
             reactAll out (set_managers (windowManager d) a' d) = Normal d1 /\
             ackManager d1 = a' /\ windowManager d1 = windowManager d).
  { rewrite Hout.
    destruct (AcknowledgmentManager.pendingAcks (ackManager d) !! seqNum);
      cbn [reactAll];
      match goal with |- context [react (AcknowledgmentManager.Emit ?e) ?d0] =>
        destruct (react_emit e d0) as (d1 & -> & Ha & Hw & _)
      end; exists d1; auto. }
  destruct Hreact as (d1 & -> & Ha & Hw).
  rewrite Hw.
  destruct (WindowManager.processAck seqNum (windowManager d)) as [r w] eqn:Hack.
  cbn [snd].
  assert (Hother : AcknowledgmentManager.pendingAcks a' !! k
                   = AcknowledgmentManager.pendingAcks (ackManager d) !! k)
    by (rewrite Hpend; apply lookup_delete_ne; congruence).
  destruct r; eexists; eexists; (split; [reflexivity|]); cbn; rewrite Ha; auto.
Qed.

Lemma processAckFrame_removes_only_exact_witness :
  exists d3 d4,
    sendAll [[x41]; [x42]; [x43]] 0 (setPhysicalLayer new) = Normal d3 /\
    processAckFrame 2 50 d3 = Normal (true, d4) /\
    WindowManager.sendBase (windowManager d3) = 0 /\
    WindowManager.sendBase (windowManager d4) = 3 /\
    AcknowledgmentManager.pendingAcks (ackManager d4) !! 0
      = AcknowledgmentManager.pendingAcks (ackManager d3) !! 0 /\
    AcknowledgmentManager.retries <$>
      (AcknowledgmentManager.pendingAcks (ackManager d4) !! 0) = Some 0 /\
    AcknowledgmentManager.retries <$>
      (AcknowledgmentManager.pendingAcks (ackManager d4) !! 1) = Some 0 /\
    AcknowledgmentManager.timers (ackManager d4) !! 0%nat = Some 0 /\
    AcknowledgmentManager.timers (ackManager d4) !! 1%nat = Some 1.
Proof.
  eexists. eexists.
  split; [vm_compute; reflexivity|].
  split; [vm_compute; reflexivity|].
  split; [reflexivity|]. split; [reflexivity|].
  split.
  - match goal with |- AcknowledgmentManager.pendingAcks (ackManager ?d4) !! 0
                       = AcknowledgmentManager.pendingAcks (ackManager ?d3) !! 0 =>
      destruct (processAckFrame_removes_only_exact d3 2 50 0 ltac:(lia))
        as (slid & d' & Hrun & Hkeep & _);
      assert (Hd : processAckFrame 2 50 d3 = Normal (true, d4))
        by (vm_compute; reflexivity);
      rewrite Hd in Hrun; injection Hrun as _ <-; exact Hkeep
    end.
  - repeat split; vm_compute; reflexivity.
Defined.

(** One expiry of the live timer of a pending frame, seen from the
    coordinator: below the limit the stored bytes go to the physical layer
    once more; at the limit nothing is transmitted, the entry is dropped and
    [transmission_failed] is reported. *)
Lemma ackTimerFired_pending (d : t) (seqNum now : Z)
    (p : AcknowledgmentManager.PendingAck) :
  physicalLayerCallback d = true ->
  AcknowledgmentManager.pendingAcks (ackManager d) !! seqNum = Some p ->
  AcknowledgmentManager.timers (ackManager d) !! AcknowledgmentManager.timeout p
    = Some seqNum ->
  AcknowledgmentManager.retransmitCallback p = true ->
  exists d',
    ackTimerFired (AcknowledgmentManager.timeout p) now d = Normal (tt, d') /\
    physicalLayerCallback d' = true /\
    if AcknowledgmentManager.retries p + 1 >=? MAX_RETRIES then
      transmitted d' = transmitted d /\
      AcknowledgmentManager.pendingAcks (ackManager d') !! seqNum = None /\
      emitted d' = emitted d ++
        [error_recovery_ack_timeout seqNum (AcknowledgmentManager.retries p + 1) MAX_RETRIES;
         transmission_failed seqNum (AcknowledgmentManager.retries p + 1)]
    else
      transmitted d' = transmitted d ++ [AcknowledgmentManager.frame p] /\
      AcknowledgmentManager.pendingAcks (ackManager d') !! seqNum =
        Some {| AcknowledgmentManager.frame := AcknowledgmentManager.frame p;
                AcknowledgmentManager.timestamp := now;
                AcknowledgmentManager.retries := AcknowledgmentManager.retries p + 1;
                AcknowledgmentManager.timeout :=
                  AcknowledgmentManager.nextTimer (ackManager d);
                AcknowledgmentManager.retransmitCallback := true |} /\
      AcknowledgmentManager.timers (ackManager d')
        !! AcknowledgmentManager.nextTimer (ackManager d) = Some seqNum /\
      AcknowledgmentManager.nextTimer (ackManager d')
        = S (AcknowledgmentManager.nextTimer (ackManager d)).
Proof.
  intros Hphys Hp Ht Hcb. unfold ackTimerFired, withAckManager.
  destruct (fireTimer_pending (ackManager d) seqNum now p Hp Ht Hcb)
    as (a' & out & -> & Hnext & Hcases).
  destruct (AcknowledgmentManager.retries p + 1 >=? MAX_RETRIES).
  - destruct Hcases as (Hpend & ->).
    cbn [reactAll react]. eexists. split; [reflexivity|].
    cbn. rewrite <- app_assoc. auto.
  - destruct Hcases as (Hpend & Htm & ->).
    cbn [reactAll react]. unfold sendFrameToPhysical.
    cbn [emit set_managers physicalLayerCallback]. rewrite Hphys. cbn [negb].
    eexists. split; [reflexivity|]. cbn. auto.
Qed.

(** [sendDataFrame] when the window has room. *)
Lemma sendDataFrame_sends (d : t) (data : list byte) (now : Z) :
  physicalLayerCallback d = true ->
  WindowManager.canSend (windowManager d) = true ->
  0 <= WindowManager.nextSeqNum (windowManager d) <= 15 ->
  (length data <= 1024)%nat ->
  exists fr d',
    FrameBuilder.createDataFrame (WindowManager.nextSeqNum (windowManager d)) data
      = Ok fr /\
    sendDataFrame data now d
      = Normal (sent (WindowManager.nextSeqNum (windowManager d)), d') /\
    physicalLayerCallback d' = true /\
    transmitted d' = transmitted d ++ [fr] /\
    AcknowledgmentManager.pendingAcks (ackManager d')
      !! WindowManager.nextSeqNum (windowManager d) =
      Some {| AcknowledgmentManager.frame := fr;
              AcknowledgmentManager.timestamp := now;
              AcknowledgmentManager.retries := 0;
              AcknowledgmentManager.timeout :=
                AcknowledgmentManager.nextTimer (ackManager d);
              AcknowledgmentManager.retransmitCallback := true |} /\
    AcknowledgmentManager.timers (ackManager d')
      !! AcknowledgmentManager.nextTimer (ackManager d)
      = Some (WindowManager.nextSeqNum (windowManager d)) /\
    AcknowledgmentManager.nextTimer (ackManager d')
      = S (AcknowledgmentManager.nextTimer (ackManager d)).
Proof.
  intros Hphys Hcan Hseq Hlen.
  unfold sendDataFrame, WindowManager.getNextSeqNum. rewrite Hcan. cbn [negb].
  unfold FrameBuilder.createDataFrame.
  rewrite buildFrame_valid
    by (try reflexivity; try exact Hseq; unfold FieldSize.MAX_DATA; lia).
  unfold withAckManager. cbn [set_managers ackManager].
  destruct (registerPendingAck_run (ackManager d)
              (WindowManager.nextSeqNum (windowManager d))
              (Buffer.put FLAG ::
               BitStuffing.bitStuff
                 (CRC.addCrc
                    (Buffer.put FrameType.DATA ::
                     Buffer.put (Z.land (WindowManager.nextSeqNum (windowManager d)) 15) ::
                     data)) ++ [Buffer.put FLAG]) true now)
    as (a' & -> & Hpend & Htm & Hnext).
  cbn [reactAll react]. unfold sendFrameToPhysical.
  cbn [set_managers physicalLayerCallback]. rewrite Hphys. cbn [negb].
  do 2 eexists. split; [reflexivity|]. split; [reflexivity|].
  cbn. auto.
Qed.

(** C3 (as amended): for every DATA frame sent when the window has room,
    if afterwards only its retransmission timer fires, the frame is handed
    to the physical layer exactly [MAX_RETRIES] = 3 times (the original
    transmission and two retransmissions): the first and the second expiry
    retransmit it, the third removes the pending entry and reports
    [transmission_failed] with [retries = 3] without a further
    transmission. *)
Theorem timeouts_transmit_three_times (d : t) (data : list byte)
    (now0 now1 now2 now3 : Z) :
  physicalLayerCallback d = true ->
  WindowManager.canSend (windowManager d) = true ->
  0 <= WindowManager.nextSeqNum (windowManager d) <= 15 ->
  (length data <= 1024)%nat ->
  let seqNum := WindowManager.nextSeqNum (windowManager d) in
  let h := AcknowledgmentManager.nextTimer (ackManager d) in
  exists fr d1 d2 d3 d4,
    FrameBuilder.createDataFrame seqNum data = Ok fr /\
    sendDataFrame data now0 d = Normal (sent seqNum, d1) /\
    ackTimerFired h now1 d1 = Normal (tt, d2) /\
    ackTimerFired (S h) now2 d2 = Normal (tt, d3) /\
    ackTimerFired (S (S h)) now3 d3 = Normal (tt, d4) /\
    transmitted d1 = transmitted d ++ [fr] /\
    transmitted d2 = transmitted d ++ [fr; fr] /\
    transmitted d3 = transmitted d ++ [fr; fr; fr] /\
    transmitted d4 = transmitted d ++ [fr; fr; fr] /\
    AcknowledgmentManager.pendingAcks (ackManager d4) !! seqNum = None /\
    emitted d4 = emitted d3 ++
      [error_recovery_ack_timeout seqNum 3 MAX_RETRIES; transmission_failed seqNum 3].
Proof.
  intros Hphys Hcan Hseq Hlen seqNum h. subst seqNum h.
  destruct (sendDataFrame_sends d data now0 Hphys Hcan Hseq Hlen)
    as (fr & d1 & Hfr & Hsend & Hphys1 & Htx1 & Hp1 & Ht1 & Hn1).
  destruct (ackTimerFired_pending d1 _ now1 _ Hphys1 Hp1 Ht1 eq_refl)
    as (d2 & Hrun2 & Hphys2 & Hc2).
  cbn [AcknowledgmentManager.frame AcknowledgmentManager.retries
       AcknowledgmentManager.timeout] in Hrun2, Hc2.
  change (0 + 1 >=? MAX_RETRIES) with false in Hc2.
  destruct Hc2 as (Htx2 & Hp2 & Ht2 & Hn2). rewrite Hn1 in Hp2, Ht2, Hn2.
  destruct (ackTimerFired_pending d2 _ now2 _ Hphys2 Hp2 Ht2 eq_refl)
    as (d3 & Hrun3 & Hphys3 & Hc3).
  cbn [AcknowledgmentManager.frame AcknowledgmentManager.retries
       AcknowledgmentManager.timeout] in Hrun3, Hc3.
  change (0 + 1 + 1 >=? MAX_RETRIES) with false in Hc3.
  destruct Hc3 as (Htx3 & Hp3 & Ht3 & Hn3). rewrite Hn2 in Hp3, Ht3, Hn3.
  destruct (ackTimerFired_pending d3 _ now3 _ Hphys3 Hp3 Ht3 eq_refl)
    as (d4 & Hrun4 & Hphys4 & Hc4).
  cbn [AcknowledgmentManager.frame AcknowledgmentManager.retries
       AcknowledgmentManager.timeout] in Hrun4, Hc4.
  change (0 + 1 + 1 + 1 >=? MAX_RETRIES) with true in Hc4.
  destruct Hc4 as (Htx4 & Hp4 & Hev4).
  exists fr, d1, d2, d3, d4.
  split; [exact Hfr|]. split; [exact Hsend|]. split; [exact Hrun2|].
  split; [exact Hrun3|]. split; [exact Hrun4|]. split; [exact Htx1|].
  split; [rewrite Htx2, Htx1, <- app_assoc; reflexivity|].
  split; [rewrite Htx3, Htx2, Htx1, <- !app_assoc; reflexivity|].
  split; [rewrite Htx4, Htx3, Htx2, Htx1, <- !app_assoc; reflexivity|].
  split; [exact Hp4 | exact Hev4].
Qed.

Lemma timeouts_transmit_three_times_witness :
  exists fr d1 d2 d3 d4,
    sendDataFrame [x48; x6f; x6c; x61] 0 (setPhysicalLayer new) = Normal (sent 0, d1) /\
    ackTimerFired 0 2000 d1 = Normal (tt, d2) /\
    ackTimerFired 1 4000 d2 = Normal (tt, d3) /\
    ackTimerFired 2 6000 d3 = Normal (tt, d4) /\
    transmitted d4 = [fr; fr; fr] /\
    AcknowledgmentManager.pendingAcks (ackManager d4) !! 0 = None.
Proof.
  destruct (timeouts_transmit_three_times (setPhysicalLayer new)
              [x48; x6f; x6c; x61] 0 2000 4000 6000)
    as (fr & d1 & d2 & d3 & d4 & _ & H1 & H2 & H3 & H4 & _ & _ & _ & Htx & Hp & _).
  - reflexivity.
  - reflexivity.
  - cbn. lia.
  - simpl. lia.
  - exists fr, d1, d2, d3, d4. repeat split; assumption.
Defined.

(** C3 (as stated) fails: when every copy of DATA(seq = 0) is lost and only
    timeouts fire, the frame has been handed to the physical layer three
    times, not four, when the engine removes the entry and
    [transmission_failed] with [retries = 3] is reported. *)
Lemma retry_exhaustion_counterexample :
  exists d1 d2 d3 d4 fr,
    sendDataFrame [x48; x6f; x6c; x61] 0 (setPhysicalLayer new) = Normal (sent 0, d1) /\
    ackTimerFired 0 2000 d1 = Normal (tt, d2) /\
    ackTimerFired 1 4000 d2 = Normal (tt, d3) /\
    ackTimerFired 2 6000 d3 = Normal (tt, d4) /\
    transmitted d1 = [fr] /\
    transmitted d2 = [fr; fr] /\
    transmitted d3 = [fr; fr; fr] /\
    transmitted d4 = [fr; fr; fr] /\
    AcknowledgmentManager.retries <$>
      (AcknowledgmentManager.pendingAcks (ackManager d3) !! 0) = Some 2 /\
    AcknowledgmentManager.pendingAcks (ackManager d4) !! 0 = None /\
    AcknowledgmentManager.timers (ackManager d4) = ∅ /\
    last (emitted d4) = Some (transmission_failed 0 3) /\
    Z.of_nat (length (transmitted d4)) = MAX_RETRIES /\
    Z.of_nat (length (transmitted d4)) <> MAX_RETRIES + 1.
Proof.
  do 5 eexists.
  split; [vm_compute; reflexivity|].
  split; [vm_compute; reflexivity|].
  split; [vm_compute; reflexivity|].
  split; [vm_compute; reflexivity|].
  split; [vm_compute; reflexivity|].
  repeat split; try (vm_compute; reflexivity).
  vm_compute. discriminate.
Qed.

(** A NAK for a pending frame makes the coordinator hand the stored bytes
    to the physical layer at once. *)
Lemma processNakFrame_transmits (d : t) (seqNum now : Z)
    (p : AcknowledgmentManager.PendingAck) :
  physicalLayerCallback d = true ->
  AcknowledgmentManager.pendingAcks (ackManager d) !! seqNum = Some p ->
  AcknowledgmentManager.retransmitCallback p = true ->
  exists d',
    processNakFrame seqNum now d = Normal (true, d') /\
    transmitted d' = transmitted d ++ [AcknowledgmentManager.frame p] /\
    AcknowledgmentManager.retries <$>
      (AcknowledgmentManager.pendingAcks (ackManager d') !! seqNum)
      = Some (AcknowledgmentManager.retries p).
Proof.
  intros Hphys Hp Hcb. unfold processNakFrame, withAckManager.
  rewrite (handleReceivedNak_pending (ackManager d) seqNum now p Hp), Hcb.
  cbn [reactAll react]. unfold sendFrameToPhysical, emit, set_managers.
  cbn [physicalLayerCallback]. rewrite Hphys. cbn [negb].
  eexists. split; [reflexivity|].
  cbn [transmitted ackManager AcknowledgmentManager.pendingAcks].
  rewrite lookup_insert_eq. auto.
Qed.

End CoordinatorFacts.

(** ** Connection manager *)

Section ConnectionFacts.
Import Constants ConnectionManager.

(** C9 (what the code does): a CONNECTED peer that receives DISC answers
    with a frame built by [createDataFrame], so the control byte on the wire
    is DATA (0x01), not DISC_ACK (0x07); the text ['DISC_ACK'] is only its
    payload.  The peer then moves to DISCONNECTED when the 100 ms timer it
    armed expires. *)
Theorem handleDisconnectionRequest_sends_data_frame (c : t) (remote now : Z) :
  state c = CONNECTED ->
  sendCallback c = true ->
  0 <= localSeqNum c <= 15 ->
  exists raw c' f,
    handleDisconnectionRequest remote c =
      Normal (true, c', [send raw; Emit (disconnection_request remote)]) /\
    Buffer.at_ raw 1 = Some FrameType.DATA /\
    Buffer.at_ raw 1 <> Some FrameType.DISC_ACK /\
    FrameBuilder.parseFrame raw = Ok f /\
    FrameBuilder.type f = FrameType.DATA /\
    FrameBuilder.data f = str_DISC_ACK /\
    state c' = CONNECTED /\
    timers c' !! nextTimer c = Some (task_handleDisconnection 100) /\
    state (fst (fireTimer (nextTimer c) now c')) = DISCONNECTED.
Proof.
  intros Hst Hcb Hseq. unfold handleDisconnectionRequest.
  rewrite Hst, Hcb. unfold FrameBuilder.createDataFrame.
  assert (Hlen : Z.of_nat (length str_DISC_ACK) <= FieldSize.MAX_DATA)
    by (vm_compute; discriminate).
  rewrite (buildFrame_valid FrameType.DATA (localSeqNum c) str_DISC_ACK eq_refl Hseq Hlen).
  do 3 eexists. split; [reflexivity|].
  assert (Hctl : forall rest tl,
             Buffer.at_ (Buffer.put FLAG ::
                         BitStuffing.bitStuff (CRC.addCrc (Buffer.put FrameType.DATA :: rest))
                         ++ tl) 1 = Some FrameType.DATA).
  { intros rest tl. rewrite bitStuff_eq. unfold CRC.addCrc.
    rewrite <- app_comm_cons. cbn [BitStuffing.stuffLoop].
    reflexivity. }
  split; [apply Hctl|]. split; [rewrite Hctl; discriminate|].
  split; [apply parseFrame_framed; reflexivity|].
  split; [reflexivity|]. split; [reflexivity|].
  split; [reflexivity|].
  split; [cbn; apply lookup_insert_eq|].
  unfold fireTimer. cbn [timers]. rewrite lookup_insert_eq. reflexivity.
Qed.

Lemma handleDisconnectionRequest_sends_data_frame_witness :
  exists raw c' f,
    handleDisconnectionRequest 0
      {| state := CONNECTED; localSeqNum := 0; remoteSeqNum := 0;
         sendCallback := true; connectionTimeout := None;
         heartbeatTimer := Some 0%nat;
         stats := {| connectionsEstablished := 1; connectionsFailed := 0;
                     disconnections := 0; heartbeatsSent := 0;
                     heartbeatsReceived := 0; connectionUptime := 0;
                     connectionStartTime := Some 1000 |};
         timers := ∅; nextTimer := 1 |} =
      Normal (true, c', [send raw; Emit (disconnection_request 0)]) /\
    FrameBuilder.parseFrame raw = Ok f /\
    FrameBuilder.type f = FrameType.DATA.
Proof.
  destruct (handleDisconnectionRequest_sends_data_frame
              {| state := CONNECTED; localSeqNum := 0; remoteSeqNum := 0;
                 sendCallback := true; connectionTimeout := None;
                 heartbeatTimer := Some 0%nat;
                 stats := {| connectionsEstablished := 1; connectionsFailed := 0;
                             disconnections := 0; heartbeatsSent := 0;
                             heartbeatsReceived := 0; connectionUptime := 0;
                             connectionStartTime := Some 1000 |};
                 timers := ∅; nextTimer := 1 |} 0 1100)
    as (raw & c' & f & Hrun & _ & _ & Hparse & Htype & _).
  - reflexivity.
  - reflexivity.
  - cbn. lia.
  - exists raw, c', f. auto.
Defined.

End ConnectionFacts.

(** ** Worked examples *)

Section Examples.
Import Constants.

(** The table held by the instance is the one [generateCrcTable] builds. *)
Example crcTable_generated : CRC.crcTable = CRC.generateCrcTable.
Proof. vm_compute. reflexivity. Qed.

(** CRC of the ASCII digits "123456789": 0x29B1 inverted. *)
Example calculate_digits :
  CRC.calculate [x31; x32; x33; x34; x35; x36; x37; x38; x39] = 0xD64E.
Proof. vm_compute. reflexivity. Qed.

(** A payload containing FLAG and ESC is escaped on the wire. *)
Example buildFrame_escapes :
  FrameBuilder.buildFrame FrameType.DATA 0 [x7e; x7d; x41] =
  Ok [x7e; x01; x00; x7d; x5e; x7d; x5d; x41; xa1; x4b; x7e].
Proof. vm_compute. reflexivity. Qed.

Example buildFrame_rejects_seq_16 :
  FrameBuilder.buildFrame FrameType.DATA 16 [] = Err (FrameBuilder.InvalidSeqNum 16).
Proof. reflexivity. Qed.

Example bitUnstuff_rejects_bare_flag :
  BitStuffing.bitUnstuff [x01; x7e] = Err BitStuffing.UnescapedFlag.
Proof. reflexivity. Qed.

Example seqNumDiff_wraps : Utils.seqNumDiff 1 15 = 2 /\ Utils.seqNumDiff 15 1 = -2.
Proof. split; reflexivity. Qed.

(** Out-of-order arrival: 1 and 2 are buffered, then 0 releases 0, 1, 2. *)
Example receive_out_of_order :
  exists rs w,
    WindowRun.receiveAll [(1, [x62], 10); (2, [x63], 11); (0, [x61], 12)]
      WindowManager.new = Normal (rs, w) /\
    WindowRun.deliveredSeqs rs = [0; 1; 2] /\
    WindowManager.expectedSeqNum w = 3.
Proof. do 2 eexists. split; [vm_compute; reflexivity|]. split; reflexivity. Qed.

End Examples.

(** * Further properties of the codec *)

Section StuffingMore.
Import Constants BitStuffing BitStuffingTools.

Lemma stuffLoop_length (x : list byte) :
  Z.of_nat (length (stuffLoop x))
  = Z.of_nat (length x) + countByte FLAG x + countByte ESC x.
Proof.
  induction x as [|b x IH]; [reflexivity|].
  cbn [stuffLoop countByte length].
  destruct (Z.eqb_spec (Buffer.get b) FLAG) as [HF|HF].
  - rewrite HF. change (FLAG =? ESC) with false. cbn [length]. lia.
  - destruct (Z.eqb_spec (Buffer.get b) ESC); cbn [length]; lia.
Qed.

Lemma countByte_bounds v (x : list byte) :
  0 <= countByte v x <= Z.of_nat (length x).
Proof.
  induction x as [|b x IH]; cbn [countByte length]; [lia|].
  destruct (Buffer.get b =? v); lia.
Qed.

Lemma countByte_flag_esc (x : list byte) :
  countByte FLAG x + countByte ESC x <= Z.of_nat (length x).
Proof.
  induction x as [|b x IH]; cbn [countByte length]; [lia|].
  destruct (Z.eqb_spec (Buffer.get b) FLAG) as [HF|HF].
  - rewrite HF. change (FLAG =? ESC) with false. lia.
  - destruct (Buffer.get b =? ESC); lia.
Qed.

(** X1: the stuffed output is longer than the input by exactly the number
    of FLAG and ESC bytes in it, which is what [getStuffingStats] reports
    as [overhead = totalEscaped]; so its size lies between the input size
    and [getMaxStuffedSize]. *)
Theorem bitStuff_size (x : list byte) :
  let st := getStuffingStats x (bitStuff x) in
  overhead st = totalEscaped st /\
  stuffedSize st = originalSize st + flagsEscaped st + escsEscaped st /\
  originalSize st <= stuffedSize st <= getMaxStuffedSize (originalSize st).
Proof.
  cbv zeta. unfold getStuffingStats, getMaxStuffedSize.
  cbn [overhead totalEscaped stuffedSize originalSize flagsEscaped escsEscaped].
  rewrite bitStuff_eq. unfold Buffer.from. rewrite length_map, stuffLoop_length.
  pose proof (countByte_bounds FLAG x). pose proof (countByte_bounds ESC x).
  pose proof (countByte_flag_esc x). lia.
Qed.

(** A successful unstuffing yields byte values, and stuffing them again
    gives back the input. *)
Lemma stuffLoop_unstuffLoop (s : list byte) :
  forall p, unstuffLoop s = Ok p ->
            Buffer.from (stuffLoop (Buffer.from p)) = s.
Proof.
  remember (length s) as n eqn:Hn. revert s Hn.
  induction n as [n IH] using lt_wf_ind. intros s Hn p.
  destruct s as [|b rest]; cbn [unstuffLoop].
  - intros [= <-]. reflexivity.
  - destruct (Z.eqb_spec (Buffer.get b) ESC) as [HE|HE].
    + destruct rest as [|m rest']; [discriminate|].
      assert (Hrec : forall q, unstuffLoop rest' = Ok q ->
                               Buffer.from (stuffLoop (Buffer.from q)) = rest').
      { intros q. apply (IH (length rest')) with (s := rest');
          [simpl in Hn; lia | reflexivity]. }
      assert (Hb : b = Buffer.put ESC) by (rewrite <- HE; symmetry; apply put_get).
      destruct (Z.eqb_spec (Buffer.get m) 94) as [H5e|H5e];
        [|destruct (Z.eqb_spec (Buffer.get m) 93) as [H5d|H5d]]; try discriminate;
        destruct (unstuffLoop rest') as [q|] eqn:E; try discriminate;
        intros [= <-]; specialize (Hrec q eq_refl).
      * assert (Hm : m = Buffer.put 94) by (rewrite <- H5e; symmetry; apply put_get).
        change (Buffer.from (FLAG :: q)) with (Buffer.put FLAG :: Buffer.from q).
        cbn [stuffLoop]. change (Buffer.get (Buffer.put FLAG) =? FLAG) with true.
        cbn iota.
        change (Buffer.from (ESC :: 94 :: stuffLoop (Buffer.from q)))
          with (Buffer.put ESC :: Buffer.put 94 :: Buffer.from (stuffLoop (Buffer.from q))).
        now rewrite Hrec, Hb, Hm.
      * assert (Hm : m = Buffer.put 93) by (rewrite <- H5d; symmetry; apply put_get).
        change (Buffer.from (ESC :: q)) with (Buffer.put ESC :: Buffer.from q).
        cbn [stuffLoop]. change (Buffer.get (Buffer.put ESC) =? FLAG) with false.
        change (Buffer.get (Buffer.put ESC) =? ESC) with true. cbn iota.
        change (Buffer.from (ESC :: 93 :: stuffLoop (Buffer.from q)))
          with (Buffer.put ESC :: Buffer.put 93 :: Buffer.from (stuffLoop (Buffer.from q))).
        now rewrite Hrec, Hb, Hm.
    + destruct (Z.eqb_spec (Buffer.get b) FLAG) as [HF|HF]; [discriminate|].
      destruct (unstuffLoop rest) as [q|] eqn:E; [|discriminate].
      intros [= <-].
      assert (Hrec : Buffer.from (stuffLoop (Buffer.from q)) = rest)
        by (apply (IH (length rest)) with (s := rest);
            [simpl in Hn; lia | reflexivity | exact E]).
      change (Buffer.from (Buffer.get b :: q))
        with (Buffer.put (Buffer.get b) :: Buffer.from q).
      rewrite put_get. cbn [stuffLoop].
      destruct (Z.eqb_spec (Buffer.get b) FLAG); [contradiction|].
      destruct (Z.eqb_spec (Buffer.get b) ESC); [contradiction|].
      change (Buffer.from (Buffer.get b :: stuffLoop (Buffer.from q)))
        with (Buffer.put (Buffer.get b) :: Buffer.from (stuffLoop (Buffer.from q))).
      now rewrite put_get, Hrec.
Qed.

Lemma bitStuff_bitUnstuff (s p : list byte) :
  bitUnstuff s = Ok p -> bitStuff p = s.
Proof.
  rewrite bitUnstuff_eq, bitStuff_eq.
  destruct (unstuffLoop s) as [q|] eqn:E; [|discriminate].
  intros [= <-]. now apply stuffLoop_unstuffLoop.
Qed.

(** X2: whenever [bitUnstuff] accepts an input, stuffing its result gives
    back that input, so [bitUnstuff] is injective on the inputs it accepts;
    and it rejects every input that contains a FLAG byte, wherever the FLAG
    stands. *)
Theorem bitUnstuff_accepts_only_stuffed (s : list byte) :
  (forall p, bitUnstuff s = Ok p -> bitStuff p = s) /\
  (forall s' p, bitUnstuff s = Ok p -> bitUnstuff s' = Ok p -> s = s') /\
  (In x7e s -> exists e, bitUnstuff s = Err e).
Proof.
  split; [intros p; apply bitStuff_bitUnstuff|]. split.
  - intros s' p H1 H2.
    rewrite <- (bitStuff_bitUnstuff s p H1). now apply bitStuff_bitUnstuff.
  - intros Hin. destruct (bitUnstuff s) as [p|e] eqn:E; [|eauto].
    exfalso. apply bitStuff_bitUnstuff in E. subst s.
    rewrite bitStuff_eq in Hin.
    pose proof (stuffLoop_no_flag p) as Hall.
    rewrite List.Forall_forall in Hall. apply (Hall _ Hin). reflexivity.
Qed.

End StuffingMore.

Lemma bitUnstuff_accepts_only_stuffed_witness :
  BitStuffing.bitUnstuff [x41; x7d; x5e; x42] = Ok [x41; x7e; x42] /\
  BitStuffing.bitStuff [x41; x7e; x42] = [x41; x7d; x5e; x42].
Proof.
  destruct (bitUnstuff_accepts_only_stuffed [x41; x7d; x5e; x42]) as (H1 & _ & _).
  split.
  - reflexivity.
  - apply H1. reflexivity.
Defined.

Section ValidationFacts.
Import Constants BitStuffing BitStuffingTools.

Lemma validateLoop_nil_cons i b rest :
  validateLoop i (b :: rest) = [] <->
  Buffer.get b <> FLAG /\
  (Buffer.get b = ESC ->
     exists n rest', rest = n :: rest' /\
                     (Buffer.get n = 0x5e \/ Buffer.get n = 0x5d)) /\
  validateLoop (i + 1) rest = [].
Proof.
  cbn [validateLoop].
  destruct (Z.eqb_spec (Buffer.get b) FLAG) as [HF|HF].
  { split; [discriminate|]. intros (H & _); contradiction. }
  cbn [app].
  destruct (Z.eqb_spec (Buffer.get b) ESC) as [HE|HE].
  - destruct rest as [|n rest'].
    + split; [discriminate|]. intros (_ & H & _).
      destruct (H HE) as (? & ? & ? & _); discriminate.
    + destruct (Z.eqb_spec (Buffer.get n) 94) as [H1|H1];
        [|destruct (Z.eqb_spec (Buffer.get n) 93) as [H2|H2]]; cbn [negb andb app].
      * split; [intros H; repeat split; eauto|intros (_ & _ & H); exact H].
      * split; [intros H; repeat split; eauto|intros (_ & _ & H); exact H].
      * split; [discriminate|]. intros (_ & H & _).
        destruct (H HE) as (n' & r' & [= <- <-] & [?|?]); contradiction.
  - cbn [app]. split; [intros H; repeat split; [assumption|contradiction|assumption]|].
    intros (_ & _ & H); exact H.
Qed.

Lemma validateLoop_iff_unstuffLoop (s : list byte) :
  forall i, validateLoop i s = [] <-> exists p, unstuffLoop s = Ok p.
Proof.
  remember (length s) as n eqn:Hn. revert s Hn.
  induction n as [n IH] using lt_wf_ind. intros s Hn i.
  destruct s as [|b rest].
  { split; [intros _; exists []; reflexivity | reflexivity]. }
  rewrite validateLoop_nil_cons. cbn [unstuffLoop].
  assert (IHrest : forall j, validateLoop j rest = [] <-> exists p, unstuffLoop rest = Ok p).
  { intros j. apply (IH (length rest)); [simpl in Hn; lia | reflexivity]. }
  destruct (Z.eqb_spec (Buffer.get b) ESC) as [HE|HE].
  - assert (HF : Buffer.get b <> FLAG) by (rewrite HE; discriminate).
    destruct rest as [|m rest'].
    + split; [|intros (p & Hp); discriminate].
      intros (_ & H & _). destruct (H HE) as (? & ? & ? & _); discriminate.
    + assert (IH2 : forall j, validateLoop j rest' = [] <->
                              exists p, unstuffLoop rest' = Ok p).
      { intros j. apply (IH (length rest')); [simpl in Hn; lia | reflexivity]. }
      split.
      * intros (_ & H & Hv). destruct (H HE) as (n' & r' & [= <- <-] & Hesc).
        apply validateLoop_nil_cons in Hv as (_ & _ & Hv).
        apply IH2 in Hv as (p & Hp). rewrite Hp.
        destruct Hesc as [-> | ->]; cbn; eauto.
      * intros (p & Hp).
        assert (Hm : (Buffer.get m = 94 \/ Buffer.get m = 93) /\
                     exists q, unstuffLoop rest' = Ok q).
        { destruct (Z.eqb_spec (Buffer.get m) 94);
            [|destruct (Z.eqb_spec (Buffer.get m) 93); [|discriminate]];
            (destruct (unstuffLoop rest') as [q|]; [|discriminate]); eauto. }
        destruct Hm as (Hesc & Hq).
        split; [exact HF|]. split; [intros _; eauto|].
        apply validateLoop_nil_cons. split; [destruct Hesc as [H|H]; rewrite H; discriminate|].
        split; [intros Habs; destruct Hesc as [H|H]; rewrite H in Habs; discriminate|].
        apply IH2. exact Hq.
  - destruct (Z.eqb_spec (Buffer.get b) FLAG) as [HF|HF].
    + split; [intros (H & _); contradiction | intros (p & Hp); discriminate].
    + split.
      * intros (_ & _ & Hv). apply IHrest in Hv as (p & Hp). rewrite Hp. cbn. eauto.
      * intros (p & Hp). split; [exact HF|]. split; [contradiction|].
        apply IHrest. destruct (unstuffLoop rest) as [q|]; [eauto|discriminate].
Qed.

(** X3: [validateStuffedData] reports [valid] (and no issue) exactly on the
    inputs that [bitUnstuff] accepts; in particular everything [bitStuff]
    produces is valid. *)
Theorem validateStuffedData_iff_bitUnstuff (s : list byte) :
  (valid (validateStuffedData s) = true <-> exists p, bitUnstuff s = Ok p) /\
  (valid (validateStuffedData s) = true <-> issues (validateStuffedData s) = []) /\
  valid (validateStuffedData (bitStuff s)) = true.
Proof.
  assert (Hv : forall t, valid (validateStuffedData t) = true <->
                         issues (validateStuffedData t) = []).
  { intros t. unfold validateStuffedData. cbn [valid issues].
    destruct (validateLoop 0 t); split; congruence. }
  assert (Hu : forall t, valid (validateStuffedData t) = true <->
                         exists p, bitUnstuff t = Ok p).
  { intros t. rewrite Hv. unfold validateStuffedData. cbn [issues].
    rewrite validateLoop_iff_unstuffLoop, bitUnstuff_eq.
    split; intros (p & Hp).
    - rewrite Hp. cbn. eauto.
    - destruct (unstuffLoop t) as [q|]; [eauto|discriminate]. }
  split; [apply Hu|]. split; [apply Hv|].
  apply Hu. exists s. apply bitUnstuff_bitStuff.
Qed.

End ValidationFacts.

(** ** Error detection *)

Section CRCDetection.
Import Constants CRC CRCRun.

Lemma testbit_high_8 c n : 0 <= c < 256 -> 8 <= n -> Z.testbit c n = false.
Proof.
  intros Hc Hn. destruct (Z.eq_dec c 0) as [->|Hz]; [apply Z.bits_0|].
  apply Z.bits_above_log2; [lia|].
  assert (Z.log2 c < 8) by (apply Z.log2_lt_pow2; lia). lia.
Qed.

Lemma bytes_split_lo H L :
  0 <= L < 256 -> Z.land (Z.lor (Z.shiftl H 8) L) 0xff = L.
Proof.
  intros HL. apply Z.bits_inj'. intros n Hn.
  rewrite Z.land_spec, Z.lor_spec. change 255 with (Z.ones 8).
  destruct (Z_lt_le_dec n 8).
  - rewrite Z.shiftl_spec_low, Z.ones_spec_low by lia.
    now rewrite andb_true_r.
  - rewrite Z.ones_spec_high, (testbit_high_8 L n) by lia.
    now rewrite andb_false_r.
Qed.

Lemma bytes_split_hi H L :
  0 <= H < 256 -> 0 <= L < 256 ->
  Z.land (Z.shiftr (Z.lor (Z.shiftl H 8) L) 8) 0xff = H.
Proof.
  intros HH HL. apply Z.bits_inj'. intros n Hn.
  rewrite Z.land_spec, Z.shiftr_spec, Z.lor_spec, Z.shiftl_spec by lia.
  replace (n + 8 - 8) with n by lia. change 255 with (Z.ones 8).
  rewrite (testbit_high_8 L (n + 8)) by lia. rewrite orb_false_r.
  destruct (Z_lt_le_dec n 8).
  - rewrite Z.ones_spec_low by lia. now rewrite andb_true_r.
  - rewrite Z.ones_spec_high, (testbit_high_8 H n) by lia.
    now rewrite andb_false_r.
Qed.

Lemma trailer_eq (x : list byte) : addCrc x = x ++ trailer (calculate x).
Proof. reflexivity. Qed.

(** X4: on a buffer of at least two bytes [extractAndValidate] reports
    [valid] exactly when the last two bytes are the ones [addCrc] appends to
    the prefix, so every other trailer is rejected; a buffer of fewer than
    two bytes is invalid with empty data. *)
Theorem extractAndValidate_valid_iff (x : list byte) (h l : byte) :
  (valid (extractAndValidate (x ++ [h; l])) = true <-> x ++ [h; l] = addCrc x) /\
  data (extractAndValidate (x ++ [h; l])) = x /\
  (forall buf : list byte,
     (length buf < 2)%nat ->
     valid (extractAndValidate buf) = false /\ data (extractAndValidate buf) = []).
Proof.
  rewrite extractAndValidate_split. cbn [valid data].
  split; [|split; [reflexivity|]].
  - rewrite Z.eqb_eq, trailer_eq. unfold trailer. split.
    + intros ->.
      rewrite bytes_split_hi, bytes_split_lo by apply get_range.
      now rewrite !put_get.
    + intros Heq. apply app_inv_head in Heq. injection Heq as -> ->.
      rewrite !get_put by (apply byte_range_hi || apply byte_range_lo).
      symmetry. apply big_endian_recombine, calculate_range.
  - intros buf Hlen. unfold extractAndValidate.
    destruct (Nat.ltb_spec (length buf) 2); [auto | lia].
Qed.

Lemma extractAndValidate_valid_iff_witness :
  valid (extractAndValidate [x31; x32; x33; xd1; x4d]) = false /\
  valid (extractAndValidate [x7e]) = false.
Proof.
  destruct (extractAndValidate_valid_iff [x31; x32; x33] xd1 x4d) as (Hiff & _ & Hshort).
  split.
  - apply not_true_is_false. intros E.
    apply Hiff in E. vm_compute in E. discriminate E.
  - apply (Hshort [x7e]). simpl. lia.
Defined.

(** *** One changed byte changes the checksum *)

Lemma tableAt_range i : 0 <= tableAt i < 65536.
Proof.
  unfold tableAt. destruct (crcTable !! Z.to_nat i) as [t|] eqn:E; cbn; [|lia].
  assert (Hall : tableEntriesFit = true) by (vm_compute; reflexivity).
  unfold tableEntriesFit in Hall. rewrite forallb_forall in Hall.
  apply list_elem_of_lookup_2, list_elem_of_In, Hall in E.
  apply andb_true_iff in E as [H1 H2]. lia.
Qed.

Lemma distinctOn256_inj (f : Z -> Z) :
  distinctOn256 f = true ->
  forall i j, 0 <= i < 256 -> 0 <= j < 256 -> f i = f j -> i = j.
Proof.
  unfold distinctOn256. intros Hall i j Hi Hj Heq.
  rewrite forallb_forall in Hall.
  specialize (Hall (Z.to_nat i) ltac:(apply in_seq; lia)).
  rewrite forallb_forall in Hall.
  specialize (Hall (Z.to_nat j) ltac:(apply in_seq; lia)).
  rewrite !Z2Nat.id in Hall by lia.
  rewrite Heq, Z.eqb_refl in Hall. cbn [implb] in Hall.
  apply Nat.eqb_eq in Hall. lia.
Qed.

Lemma tableLowBytesDistinct_true :
  distinctOn256 (fun i => Z.land (tableAt i) 0xff) = true.
Proof. vm_compute. reflexivity. Qed.

Lemma tableAt_low_inj i j :
  0 <= i < 256 -> 0 <= j < 256 ->
  Z.land (tableAt i) 0xff = Z.land (tableAt j) 0xff -> i = j.
Proof.
  intros Hi Hj Heq.
  exact (distinctOn256_inj (fun i => Z.land (tableAt i) 0xff)
           tableLowBytesDistinct_true i j Hi Hj Heq).
Qed.

Lemma lxor_byte_range a b : 0 <= a < 256 -> 0 <= b < 256 -> 0 <= Z.lxor a b < 256.
Proof.
  intros Ha Hb.
  assert (Hnn : 0 <= Z.lxor a b) by (apply Z.lxor_nonneg; lia).
  split; [exact Hnn|].
  destruct (Z.eq_dec (Z.lxor a b) 0) as [->|Hz]; [lia|].
  change 256 with (2 ^ 8). apply Z.log2_lt_pow2; [lia|].
  pose proof (Z.log2_lxor a b ltac:(lia) ltac:(lia)) as Hl.
  assert (Z.log2 a < 8)
    by (destruct (Z.eq_dec a 0) as [->|]; [cbn; lia|apply Z.log2_lt_pow2; lia]).
  assert (Z.log2 b < 8)
    by (destruct (Z.eq_dec b 0) as [->|]; [cbn; lia|apply Z.log2_lt_pow2; lia]).
  lia.
Qed.

Lemma land_ff_small a : 0 <= a < 256 -> Z.land a 0xff = a.
Proof.
  intros Ha. change 255 with (Z.ones 8). rewrite Z.land_ones by lia.
  apply Z.mod_small. lia.
Qed.

Lemma shiftr8_range c : 0 <= c < 65536 -> 0 <= Z.shiftr c 8 < 256.
Proof.
  intros Hc. rewrite Z.shiftr_div_pow2 by lia. change (2 ^ 8) with 256.
  split; [apply Z.div_pos; lia | apply Z.div_lt_upper_bound; lia].
Qed.

Lemma lxor_cancel_l a b c : Z.lxor a b = Z.lxor a c -> b = c.
Proof.
  intros H. apply (f_equal (Z.lxor a)) in H.
  now rewrite <- !Z.lxor_assoc, Z.lxor_nilpotent, !Z.lxor_0_l in H.
Qed.

(** The register after one byte, for a 16-bit register: the old low byte
    moves up and is combined with the table entry selected by the old high
    byte and the data byte. *)
Lemma step_split c b :
  0 <= c < 65536 ->
  step c b = Z.lxor (Z.shiftl (Z.land c 0xff) 8)
               (tableAt (Z.lxor (Z.shiftr c 8) (Buffer.get b))).
Proof.
  intros Hc. unfold step.
  rewrite (land_ff_small (Z.lxor (Z.shiftr c 8) (Buffer.get b)))
    by (apply lxor_byte_range; [apply shiftr8_range; lia | apply get_range]).
  set (t := tableAt _). pose proof (tableAt_range (Z.lxor (Z.shiftr c 8) (Buffer.get b))) as Ht.
  fold t in Ht.
  apply Z.bits_inj'. intros n Hn.
  rewrite Z.land_spec, !Z.lxor_spec.
  destruct (Z_lt_le_dec n 16) as [Hlt|Hge].
  - change 65535 with (Z.ones 16). rewrite Z.ones_spec_low, andb_true_r by lia.
    f_equal. destruct (Z_lt_le_dec n 8).
    + now rewrite !Z.shiftl_spec_low by lia.
    + rewrite !Z.shiftl_spec by lia. rewrite Z.land_spec.
      change 255 with (Z.ones 8). rewrite Z.ones_spec_low by lia.
      now rewrite andb_true_r.
  - change 65535 with (Z.ones 16). rewrite Z.ones_spec_high, andb_false_r by lia.
    rewrite (testbit_high_16 t n) by lia.
    rewrite Z.shiftl_spec, Z.land_spec by lia.
    change 255 with (Z.ones 8). rewrite Z.ones_spec_high by lia.
    now rewrite andb_false_r.
Qed.

Lemma step_range c b : 0 <= step c b < 65536.
Proof. unfold step. apply land_ffff_range. Qed.

Lemma land_ff_of_split lo t :
  Z.land (Z.lxor (Z.shiftl lo 8) t) 0xff = Z.land t 0xff.
Proof.
  apply Z.bits_inj'. intros n Hn.
  rewrite !Z.land_spec, Z.lxor_spec. change 255 with (Z.ones 8).
  destruct (Z_lt_le_dec n 8).
  - now rewrite Z.shiftl_spec_low by lia.
  - rewrite Z.ones_spec_high by lia. now rewrite !andb_false_r.
Qed.

(** Different data bytes lead to different registers. *)
Lemma step_inj_byte c b b' :
  0 <= c < 65536 -> step c b = step c b' -> b = b'.
Proof.
  intros Hc. rewrite !step_split by lia. intros H.
  apply lxor_cancel_l in H.
  pose proof (shiftr8_range c Hc) as Hhi.
  apply (f_equal (fun z => Z.land z 0xff)) in H.
  apply tableAt_low_inj in H;
    try (apply lxor_byte_range; [lia | apply get_range]).
  apply lxor_cancel_l in H. now apply get_inj.
Qed.

(** Different registers stay different after the same byte. *)
Lemma step_inj_register c c' b :
  0 <= c < 65536 -> 0 <= c' < 65536 -> step c b = step c' b -> c = c'.
Proof.
  intros Hc Hc'. rewrite !step_split by lia. intros H.
  pose proof (shiftr8_range c Hc) as Hhi.
  pose proof (shiftr8_range c' Hc') as Hhi'.
  pose proof (f_equal (fun z => Z.land z 0xff) H) as Hlow. cbv beta in Hlow.
  rewrite !land_ff_of_split in Hlow.
  apply tableAt_low_inj in Hlow;
    try (apply lxor_byte_range; [lia | apply get_range]).
  rewrite Hlow in H.
  rewrite (Z.lxor_comm _ (tableAt _)), (Z.lxor_comm (Z.shiftl (Z.land c' 255) 8)) in H.
  apply lxor_cancel_l in H.
  rewrite !(Z.lxor_comm _ (Buffer.get b)) in Hlow. apply lxor_cancel_l in Hlow.
  rewrite !Z.shiftl_mul_pow2 in H by lia.
  change 255 with (Z.ones 8) in H. rewrite !Z.land_ones in H by lia.
  rewrite !Z.shiftr_div_pow2 in Hlow by lia.
  change (2 ^ 8) with 256 in *.
  rewrite (Z.div_mod c 256), (Z.div_mod c' 256) by lia. lia.
Qed.

Lemma fold_step_range (x : list byte) c :
  0 <= c < 65536 -> 0 <= fold_left step x c < 65536.
Proof.
  revert c. induction x as [|b x IH]; intros c Hc; cbn [fold_left]; [exact Hc|].
  apply IH, step_range.
Qed.

Lemma fold_step_inj (x : list byte) c c' :
  0 <= c < 65536 -> 0 <= c' < 65536 ->
  fold_left step x c = fold_left step x c' -> c = c'.
Proof.
  revert c c'. induction x as [|b x IH]; intros c c' Hc Hc'; cbn [fold_left]; [auto|].
  intros H. apply IH in H; try apply step_range.
  now apply step_inj_register in H.
Qed.

Lemma calculate_fold (x : list byte) :
  calculate x = Z.lxor (fold_left step x 0xffff) 0xffff.
Proof. reflexivity. Qed.

Lemma calculate_one_byte (pre suf : list byte) (b b' : byte) :
  calculate (pre ++ b :: suf) = calculate (pre ++ b' :: suf) -> b = b'.
Proof.
  rewrite !calculate_fold, !fold_left_app. cbn [fold_left]. intros H.
  rewrite !(Z.lxor_comm _ 65535) in H. apply lxor_cancel_l in H.
  assert (Hpre : 0 <= fold_left step pre 65535 < 65536)
    by (apply fold_step_range; lia).
  apply fold_step_inj in H; try apply step_range.
  now apply step_inj_byte in H.
Qed.

(** X5: the checksum detects every corruption confined to one byte of the
    protected data: two inputs that differ in exactly one byte have
    different CRCs, so [extractAndValidate] rejects the corrupted data
    followed by the original trailer. *)
Theorem crc_detects_single_byte (pre suf : list byte) (b b' : byte) :
  b <> b' ->
  calculate (pre ++ b :: suf) <> calculate (pre ++ b' :: suf) /\
  valid (extractAndValidate
           ((pre ++ b' :: suf) ++ trailer (calculate (pre ++ b :: suf)))) = false.
Proof.
  intros Hne.
  assert (Hcrc : calculate (pre ++ b :: suf) <> calculate (pre ++ b' :: suf))
    by (intros H; apply Hne; eapply calculate_one_byte; exact H).
  split; [exact Hcrc|].
  unfold trailer. rewrite extractAndValidate_split. cbn [valid].
  rewrite !get_put by (apply byte_range_hi || apply byte_range_lo).
  rewrite big_endian_recombine by apply calculate_range.
  apply Z.eqb_neq. congruence.
Qed.

Lemma crc_detects_single_byte_witness :
  calculate [x48; x6f; x6c; x61] <> calculate [x48; x6f; x6d; x61].
Proof.
  apply (crc_detects_single_byte [x48; x6f] [x61] x6c x6d). discriminate.
Defined.

End CRCDetection.

(** ** Frames: construction errors, wire shape, soundness of parsing *)

Section FrameMore.
Import Constants FrameBuilder CRCRun.

Lemma buildFrame_ok_iff_aux (t s : Z) (d : list byte) :
  ((exists raw, buildFrame t s d = Ok raw) <->
   FrameType.includes t = true /\ 0 <= s <= 15 /\
   Z.of_nat (length d) <= FieldSize.MAX_DATA) /\
  (FrameType.includes t = false -> buildFrame t s d = Err (InvalidFrameType t)) /\
  (FrameType.includes t = true -> (s < 0 \/ 15 < s) ->
   buildFrame t s d = Err (InvalidSeqNum s)) /\
  (FrameType.includes t = true -> 0 <= s <= 15 ->
   FieldSize.MAX_DATA < Z.of_nat (length d) ->
   buildFrame t s d = Err (DataTooLarge (length d))).
Proof.
  unfold buildFrame.
  destruct (FrameType.includes t); cbn [negb].
  2:{ split; [split; [intros (raw & Habs); discriminate | intros (Habs & _); discriminate]|].
      repeat split; intros; congruence. }
  destruct (Z.ltb_spec s 0) as [Hs0|Hs0]; cbn [orb].
  { split; [split; [intros (raw & Habs); discriminate | lia]|].
    repeat split; intros; try congruence; lia. }
  destruct (Z.gtb_spec s 15) as [Hs15|Hs15].
  { split; [split; [intros (raw & Habs); discriminate | lia]|].
    repeat split; intros; try congruence; lia. }
  destruct (Z.gtb_spec (Z.of_nat (length d)) FieldSize.MAX_DATA) as [Hd|Hd].
  { split; [split; [intros (raw & Habs); discriminate | lia]|].
    repeat split; intros; try congruence; lia. }
  split; [split; [intros _; repeat split; lia | eauto]|].
  repeat split; intros; try congruence; lia.
Qed.

(** X6: [buildFrame] returns a frame exactly for a type of the enum, a
    sequence number in 0..15 and at most 1024 payload bytes; otherwise it
    throws, checking the type first, then the sequence number, then the
    payload size. *)
Theorem buildFrame_ok_iff (t s : Z) (d : list byte) :
  ((exists raw, buildFrame t s d = Ok raw) <->
   FrameType.includes t = true /\ 0 <= s <= 15 /\
   Z.of_nat (length d) <= FieldSize.MAX_DATA) /\
  (FrameType.includes t = false -> buildFrame t s d = Err (InvalidFrameType t)) /\
  (FrameType.includes t = true -> (s < 0 \/ 15 < s) ->
   buildFrame t s d = Err (InvalidSeqNum s)) /\
  (FrameType.includes t = true -> 0 <= s <= 15 ->
   FieldSize.MAX_DATA < Z.of_nat (length d) ->
   buildFrame t s d = Err (DataTooLarge (length d))).
Proof. apply buildFrame_ok_iff_aux. Qed.

Lemma buildFrame_ok_iff_witness :
  buildFrame 9 0 [] = Err (InvalidFrameType 9) /\
  buildFrame FrameType.ACK (-1) [] = Err (InvalidSeqNum (-1)) /\
  buildFrame 0 16 [] = Err (InvalidFrameType 0).
Proof.
  destruct (buildFrame_ok_iff 9 0 []) as (_ & H1 & _).
  destruct (buildFrame_ok_iff FrameType.ACK (-1) []) as (_ & _ & H2 & _).
  destruct (buildFrame_ok_iff 0 16 []) as (_ & H3 & _).
  split; [apply H1; reflexivity|].
  split; [apply H2; [reflexivity | lia] | apply H3; reflexivity].
Defined.

Lemma bitStuff_length_bounds (x : list byte) :
  (length x <= length (BitStuffing.bitStuff x) <= 2 * length x)%nat.
Proof.
  rewrite bitStuff_eq. unfold Buffer.from. rewrite length_map.
  pose proof (stuffLoop_length x) as H.
  pose proof (countByte_bounds FLAG x).
  pose proof (countByte_bounds ESC x).
  pose proof (countByte_flag_esc x). lia.
Qed.

(** X7: a frame built from a valid triple starts and ends with FLAG and
    contains no other FLAG byte, and its length lies between
    [payload + 6] and [2 * payload + 10] bytes. *)
Theorem buildFrame_wire_shape (t s : Z) (d : list byte) (raw : list byte) :
  buildFrame t s d = Ok raw ->
  exists mid,
    raw = x7e :: mid ++ [x7e] /\
    ~ In x7e mid /\
    (length d + 6 <= length raw <= 2 * length d + 10)%nat.
Proof.
  intros Hb.
  destruct (proj1 (proj1 (buildFrame_ok_iff_aux t s d)) (ex_intro _ raw Hb))
    as (Ht & Hs & Hd).
  rewrite (buildFrame_valid t s d Ht Hs Hd) in Hb.
  assert (Hraw : raw = Buffer.put FLAG ::
                       BitStuffing.bitStuff
                         (CRC.addCrc (Buffer.put t :: Buffer.put (Z.land s 15) :: d))
                       ++ [Buffer.put FLAG]) by congruence.
  clear Hb. subst raw.
  exists (BitStuffing.bitStuff
            (CRC.addCrc (Buffer.put t :: Buffer.put (Z.land s 15) :: d))).
  split; [reflexivity|]. split.
  - rewrite bitStuff_eq. intros Hin.
    pose proof (stuffLoop_no_flag
                  (CRC.addCrc (Buffer.put t :: Buffer.put (Z.land s 15) :: d))) as Hall.
    rewrite List.Forall_forall in Hall. apply (Hall _ Hin). reflexivity.
  - pose proof (bitStuff_length_bounds
                  (CRC.addCrc (Buffer.put t :: Buffer.put (Z.land s 15) :: d))) as Hl.
    assert (Hinner : length (CRC.addCrc (Buffer.put t :: Buffer.put (Z.land s 15) :: d))
                     = (length d + 4)%nat).
    { unfold CRC.addCrc. rewrite length_app. cbn [length]. lia. }
    rewrite Hinner in Hl.
    set (stuffed := BitStuffing.bitStuff _) in *. clearbody stuffed.
    rewrite length_cons, length_app. cbn [length]. lia.
Qed.

End FrameMore.

Lemma buildFrame_wire_shape_witness :
  exists mid,
    [x7e; x02; x03; xb4; xf1; x7e] = x7e :: mid ++ [x7e] /\ ~ In x7e mid.
Proof.
  destruct (buildFrame_wire_shape Constants.FrameType.ACK 3 []
              [x7e; x02; x03; xb4; xf1; x7e]) as (mid & H1 & H2 & _).
  - vm_compute. reflexivity.
  - exists mid. split; assumption.
Defined.

Section FrameParsing.
Import Constants FrameBuilder CRCRun.

(** Any buffer of at least two bytes is a first byte, a middle part and a
    last byte; the middle part is what [slice(1, -1)] returns. *)
Lemma framed_decompose (raw : list byte) :
  (2 <= length raw)%nat ->
  exists a z, raw = a :: Buffer.slice_1_m1 raw ++ [z].
Proof.
  intros Hlen. destruct raw as [|a r]; [simpl in Hlen; lia|].
  destruct (exists_last (l := r)) as (mid & z & ->).
  { intros ->. simpl in Hlen. lia. }
  exists a, z. now rewrite slice_1_m1_framed.
Qed.

Lemma split_last_two (p : list byte) :
  (2 <= length p)%nat -> exists x h l, p = x ++ [h; l].
Proof.
  intros Hlen.
  destruct (exists_last (l := p)) as (p1 & l & ->).
  { intros ->. simpl in Hlen. lia. }
  rewrite length_app in Hlen. cbn [length] in Hlen.
  destruct (exists_last (l := p1)) as (x & h & ->).
  { intros ->. simpl in Hlen. lia. }
  exists x, h, l. now rewrite <- app_assoc.
Qed.

Lemma extractAndValidate_valid_addCrc (x : list byte) (h l : byte) :
  CRC.valid (CRC.extractAndValidate (x ++ [h; l])) = true ->
  x ++ [h; l] = CRC.addCrc x.
Proof.
  rewrite extractAndValidate_split. cbn [CRC.valid]. rewrite Z.eqb_eq.
  intros Hc. unfold CRC.addCrc. rewrite Hc.
  rewrite bytes_split_hi, bytes_split_lo by apply get_range.
  now rewrite !put_get.
Qed.

(** What [parseFrame] does with a frame whose inner bytes are [x] followed
    by two trailer bytes, for at least two bytes in [x]. *)
Lemma parseFrame_inner (x : list byte) (h l : byte) :
  (2 <= length x)%nat ->
  parseFrame (Buffer.put FLAG :: BitStuffing.bitStuff (x ++ [h; l])
              ++ [Buffer.put FLAG]) =
  let received := Z.lor (Z.shiftl (Buffer.get h) 8) (Buffer.get l) in
  if CRC.calculate x =? received then
    match x with
    | c :: q :: rest =>
        if FrameType.includes (Buffer.get c) then
          Ok {| type := Buffer.get c;
                seqNum := Z.land (Buffer.get q) 0x0f;
                data := rest;
                rawLength := S (length (BitStuffing.bitStuff (x ++ [h; l])) + 1);
                payloadLength := length rest;
                crc := received |}
        else Err (UnknownFrameType (Buffer.get c))
    | _ => Err ValidPayloadTooSmall
    end
  else Err (CrcError (CRC.calculate x) received).
Proof.
  intros Hx. unfold parseFrame.
  set (inner := x ++ [h; l]).
  set (stuffed := BitStuffing.bitStuff inner).
  assert (Hinner : (4 <= length inner)%nat).
  { unfold inner. rewrite length_app. cbn [length]. lia. }
  assert (Hstuffed : (length inner <= length stuffed)%nat).
  { apply bitUnstuff_length. apply bitUnstuff_bitStuff. }
  assert (Hraw : length (Buffer.put FLAG :: stuffed ++ [Buffer.put FLAG])
                 = S (length stuffed + 1)).
  { rewrite length_cons, length_app. reflexivity. }
  rewrite at_last_framed, slice_1_m1_framed, Hraw.
  destruct (Nat.ltb_spec (S (length stuffed + 1)) 4); [lia|].
  change (Buffer.at_ (Buffer.put FLAG :: stuffed ++ [Buffer.put FLAG]) 0)
    with (Some (Buffer.get (Buffer.put FLAG))).
  change (Buffer.get (Buffer.put FLAG)) with FLAG.
  rewrite !bool_decide_eq_true_2 by reflexivity. cbn [negb orb].
  unfold stuffed. rewrite bitUnstuff_bitStuff.
  destruct (Nat.ltb_spec (length inner) 4); [lia|].
  unfold inner. rewrite extractAndValidate_split.
  cbn [CRC.valid CRC.data CRC.crc CRC.calculatedCrc default]. cbv zeta.
  destruct (CRC.calculate x =? _); cbn [negb]; [|reflexivity].
  destruct x as [|c [|q rest]]; try reflexivity.
  destruct (FrameType.includes (Buffer.get c)); reflexivity.
Qed.

(** X8: every frame [parseFrame] accepts is the FLAG-delimited, stuffed
    form of a control byte, a sequence byte and the payload followed by
    their CRC; the reported type belongs to the enum, the reported sequence
    number is the low nibble of the sequence byte and the reported CRC is
    the checksum of header and payload.  When moreover the sequence byte has
    no high bits and the payload has at most 1024 bytes, [buildFrame] of the
    parsed fields gives back the very same bytes. *)
Theorem parseFrame_sound (raw : list byte) (f : Frame) :
  parseFrame raw = Ok f ->
  exists c q,
    raw = Buffer.put FLAG ::
          BitStuffing.bitStuff (CRC.addCrc (c :: q :: data f))
          ++ [Buffer.put FLAG] /\
    type f = Buffer.get c /\
    FrameType.includes (type f) = true /\
    seqNum f = Z.land (Buffer.get q) 0x0f /\
    0 <= seqNum f <= 15 /\
    crc f = CRC.calculate (c :: q :: data f) /\
    rawLength f = length raw /\
    payloadLength f = length (data f) /\
    (Buffer.get q <= 15 -> (length (data f) <= 1024)%nat ->
     buildFrame (type f) (seqNum f) (data f) = Ok raw).
Proof.
  intros Hparse.
  assert (Hlen : (4 <= length raw)%nat).
  { revert Hparse. unfold parseFrame.
    destruct (Nat.ltb_spec (length raw) 4); [discriminate | lia]. }
  destruct (framed_decompose raw ltac:(lia)) as (a & z & Hraw).
  remember (Buffer.slice_1_m1 raw) as mid eqn:Hmid. clear Hmid. subst raw.
  assert (Hflags : a = Buffer.put FLAG /\ z = Buffer.put FLAG /\
                   exists payload, BitStuffing.bitUnstuff mid = Ok payload /\
                                   (4 <= length payload)%nat /\
                                   CRC.valid (CRC.extractAndValidate payload) = true).
  { revert Hparse. unfold parseFrame.
    destruct (Nat.ltb_spec (length (a :: mid ++ [z])) 4); [lia|].
    rewrite at_last_framed, slice_1_m1_framed.
    change (Buffer.at_ (a :: mid ++ [z]) 0) with (Some (Buffer.get a)).
    destruct (bool_decide (Some (Buffer.get a) = Some FLAG)) eqn:Ha; [|discriminate].
    destruct (bool_decide (Some (Buffer.get z) = Some FLAG)) eqn:Hz; [|discriminate].
    apply bool_decide_eq_true_1 in Ha, Hz. injection Ha as Ha. injection Hz as Hz.
    cbn [negb orb].
    destruct (BitStuffing.bitUnstuff mid) as [payload|] eqn:Hun; [|discriminate].
    destruct (Nat.ltb_spec (length payload) 4); [discriminate|].
    destruct (CRC.valid (CRC.extractAndValidate payload)) eqn:Hv; [|discriminate].
    intros _. split; [rewrite <- Ha; symmetry; apply put_get|].
    split; [rewrite <- Hz; symmetry; apply put_get|]. eauto. }
  destruct Hflags as (-> & -> & payload & Hun & Hpl & Hvalid).
  apply bitStuff_bitUnstuff in Hun. subst mid.
  destruct (split_last_two payload ltac:(lia)) as (x & h & l & ->).
  pose proof (extractAndValidate_valid_addCrc x h l Hvalid) as Hadd.
  assert (Hx : (2 <= length x)%nat)
    by (rewrite length_app in Hpl; cbn [length] in Hpl; lia).
  rewrite parseFrame_inner in Hparse by exact Hx.
  cbv zeta in Hparse.
  revert Hvalid. rewrite extractAndValidate_split. cbn [CRC.valid]. intros Hcrc.
  rewrite Hcrc in Hparse. apply Z.eqb_eq in Hcrc.
  destruct x as [|c [|q rest]]; try discriminate.
  destruct (FrameType.includes (Buffer.get c)) eqn:Hinc; [|discriminate].
  assert (Hf : f = {| type := Buffer.get c;
                      seqNum := Z.land (Buffer.get q) 15;
                      data := rest;
                      rawLength :=
                        S (length (BitStuffing.bitStuff ((c :: q :: rest) ++ [h; l])) + 1);
                      payloadLength := length rest;
                      crc := Z.lor (Z.shiftl (Buffer.get h) 8) (Buffer.get l) |})
    by congruence.
  clear Hparse. subst f. cbn [type seqNum data crc rawLength payloadLength].
  exists c, q. rewrite <- Hadd.
  assert (Hseq : 0 <= Z.land (Buffer.get q) 15 <= 15).
  { change (Z.land (Buffer.get q) 15) with (Z.land (Buffer.get q) (Z.ones 4)).
    rewrite Z.land_ones by lia. change (2 ^ 4) with 16.
    pose proof (Z.mod_pos_bound (Buffer.get q) 16 ltac:(lia)). lia. }
  split; [reflexivity|].
  split; [reflexivity|]. split; [exact Hinc|]. split; [reflexivity|].
  split; [exact Hseq|]. split; [symmetry; exact Hcrc|].
  split; [rewrite length_cons, length_app; reflexivity|].
  split; [reflexivity|].
  intros Hq Hd. pose proof (get_range q) as Hqr.
  rewrite buildFrame_valid; [|exact Hinc|exact Hseq|unfold FieldSize.MAX_DATA; lia].
  rewrite (land_0f_small (Z.land (Buffer.get q) 15)) by exact Hseq.
  rewrite (land_0f_small (Buffer.get q)) by lia.
  rewrite !put_get, <- Hadd. reflexivity.
Qed.

Lemma parseFrame_sound_witness :
  exists c q,
    [x7e; x02; x03; xb4; xf1; x7e] =
      Buffer.put FLAG :: BitStuffing.bitStuff (CRC.addCrc [c; q]) ++ [Buffer.put FLAG] /\
    Buffer.get c = FrameType.ACK.
Proof.
  destruct (parseFrame_sound [x7e; x02; x03; xb4; xf1; x7e]
              {| type := 2; seqNum := 3; data := []; rawLength := 6;
                 payloadLength := 0; crc := 46321 |})
    as (c & q & H1 & H2 & _).
  - vm_compute. reflexivity.
  - exists c, q. split; [exact H1 | symmetry; exact H2].
Defined.








(** X10: a correctly delimited and checksummed frame whose control byte is
    not one of the eight frame types is rejected as unknown type, whatever
    its sequence byte and payload. *)
Theorem parseFrame_unknown_type (c q : byte) (d : list byte) :
  FrameType.includes (Buffer.get c) = false ->
  parseFrame (Buffer.put FLAG :: BitStuffing.bitStuff (CRC.addCrc (c :: q :: d))
              ++ [Buffer.put FLAG]) = Err (UnknownFrameType (Buffer.get c)).
Proof.
  intros Hinc. unfold CRC.addCrc. rewrite parseFrame_inner by (cbn [length]; lia).
  cbv zeta.
  rewrite !get_put by (apply byte_range_hi || apply byte_range_lo).
  rewrite big_endian_recombine by apply calculate_range.
  rewrite Z.eqb_refl, Hinc. reflexivity.
Qed.

Lemma parseFrame_unknown_type_witness :
  parseFrame (Buffer.put FLAG :: BitStuffing.bitStuff (CRC.addCrc [x09; x00])
              ++ [Buffer.put FLAG]) = Err (UnknownFrameType 9).
Proof.
  apply (parseFrame_unknown_type x09 x00 []). reflexivity.
Defined.

End FrameParsing.

(** * Further properties of the sliding window *)

Section SeqArithMore.
Import Constants.

(** X11: for sequence numbers in 0..15 the signed difference lies in
    [-7 .. 8]; it changes sign when its arguments are swapped, except for
    numbers exactly eight apart, where both directions give [+8]; and the
    successor is one ahead. *)
Theorem seqNumDiff_antisymmetric (a b : Z) :
  0 <= a < 16 -> 0 <= b < 16 ->
  -7 <= Utils.seqNumDiff a b <= 8 /\
  ((a - b) mod 16 <> 8 -> Utils.seqNumDiff b a = - Utils.seqNumDiff a b) /\
  ((a - b) mod 16 = 8 -> Utils.seqNumDiff a b = 8 /\ Utils.seqNumDiff b a = 8) /\
  Utils.seqNumDiff (Utils.nextSeqNum a) a = 1 /\
  Utils.inWindow a b 8 = negb (Utils.seqNumDiff a b <? 0) && negb (Utils.seqNumDiff a b =? 8).
Proof.
  intros Ha Hb.
  pose proof (nextSeqNum_range a ltac:(lia)) as Hn.
  assert (Hone : Utils.seqNumDiff (Utils.nextSeqNum a) a = 1).
  { rewrite seqNumDiff_mod by lia. rewrite nextSeqNum_mod in * by lia.
    destruct (Z.gtb_spec (((a + 1) mod 16 - a) mod 16) 8);
      Z.div_mod_to_equations; lia. }
  unfold Utils.inWindow.
  rewrite (seqNumDiff_mod a b), (seqNumDiff_mod b a) by lia.
  assert (Hk : 0 <= (a - b) mod 16 < 16) by (apply Z.mod_pos_bound; lia).
  assert (Hk' : (b - a) mod 16 = if (a - b) mod 16 =? 0 then 0 else 16 - (a - b) mod 16).
  { destruct (Z.eqb_spec ((a - b) mod 16) 0); Z.div_mod_to_equations; lia. }
  rewrite Hk'. clear Hk'. generalize dependent ((a - b) mod 16). intros k Hk.
  split; [|split; [|split; [|split; [exact Hone|]]]].
  - destruct (Z.gtb_spec k 8); lia.
  - intros Hne. destruct (Z.eqb_spec k 0); destruct (Z.gtb_spec k 8);
      try destruct (Z.gtb_spec 0 8); try destruct (Z.gtb_spec (16 - k) 8); lia.
  - intros ->. split; reflexivity.
  - destruct (Z.gtb_spec k 8).
    + destruct (Z.leb_spec 0 (k - 16)); [lia|]. cbn [andb].
      destruct (Z.ltb_spec (k - 16) 0); [reflexivity | lia].
    + destruct (Z.leb_spec 0 k); [|lia]. cbn [andb].
      destruct (Z.ltb_spec k 0); [lia|]. cbn [negb andb].
      destruct (Z.ltb_spec k 8); destruct (Z.eqb_spec k 8); cbn; try reflexivity; lia.
Qed.

Lemma seqNumDiff_antisymmetric_witness :
  Utils.seqNumDiff 2 10 = 8 /\ Utils.seqNumDiff 10 2 = 8 /\
  Utils.seqNumDiff 10 3 = - Utils.seqNumDiff 3 10.
Proof.
  destruct (seqNumDiff_antisymmetric 2 10) as (_ & _ & H8 & _); [lia | lia |].
  destruct (seqNumDiff_antisymmetric 3 10) as (_ & Hneg & _); [lia | lia |].
  destruct H8 as [H1 H2]; [reflexivity|].
  split; [exact H1|]. split; [exact H2|]. apply Hneg. discriminate.
Defined.

End SeqArithMore.

Section SenderWindow.
Import Constants WindowManager WindowRun WindowInv.

Lemma seqNumDiff_nonneg_inv a b :
  0 <= a < 16 -> 0 <= b < 16 ->
  0 <= Utils.seqNumDiff a b -> Utils.seqNumDiff a b = (a - b) mod 16.
Proof.
  intros Ha Hb. rewrite seqNumDiff_mod by lia.
  pose proof (Z.mod_pos_bound (a - b) 16 ltac:(lia)).
  destruct (Z.gtb_spec ((a - b) mod 16) 8); lia.
Qed.

Lemma mod16_shift (a b k : Z) :
  0 <= a < 16 -> 0 <= b < 16 -> (a - b) mod 16 = k ->
  ((a + 1) mod 16 - b) mod 16 = (k + 1) mod 16 /\
  (a - (b + 1) mod 16) mod 16 = (k - 1) mod 16.
Proof. intros Ha Hb Hk. split; Z.div_mod_to_equations; lia. Qed.

(** [getNextSeqNum] on a well-formed sender. *)
Lemma getNextSeqNum_cases (w : t) :
  wf_sender w ->
  (outstanding w < windowSize w ->
     fst (getNextSeqNum w) = Some (nextSeqNum w) /\
     nextSeqNum (snd (getNextSeqNum w)) = (nextSeqNum w + 1) mod 16 /\
     sendBase (snd (getNextSeqNum w)) = sendBase w /\
     outstanding (snd (getNextSeqNum w)) = outstanding w + 1 /\
     wf_sender (snd (getNextSeqNum w))) /\
  (outstanding w = windowSize w ->
     fst (getNextSeqNum w) = None /\
     nextSeqNum (snd (getNextSeqNum w)) = nextSeqNum w /\
     sendBase (snd (getNextSeqNum w)) = sendBase w /\
     windowFullEvents (stats (snd (getNextSeqNum w)))
       = windowFullEvents (stats w) + 1 /\
     wf_sender (snd (getNextSeqNum w))).
Proof.
  intros (Hb & Hn & Hws & Ho). unfold WINDOW_SIZE in Hws.
  unfold getNextSeqNum, canSend. fold (outstanding w).
  split; intros Hcase.
  - destruct (Z.ltb_spec (outstanding w) (windowSize w)); [|lia]. cbn [negb fst snd].
    cbn [nextSeqNum sendBase windowSize emit set_stats set_nextSeqNum].
    pose proof (nextSeqNum_range (nextSeqNum w) ltac:(lia)) as Hr.
    rewrite nextSeqNum_mod in * by lia.
    assert (Hout : Utils.seqNumDiff ((nextSeqNum w + 1) mod 16) (sendBase w)
                   = outstanding w + 1).
    { unfold outstanding in *.
      pose proof (seqNumDiff_nonneg_inv _ _ Hn Hb ltac:(lia)) as Hk.
      destruct (mod16_shift (nextSeqNum w) (sendBase w) _ Hn Hb eq_refl) as [H1 _].
      rewrite seqNumDiff_mod by lia. rewrite H1, <- Hk.
      rewrite Z.mod_small by lia.
      destruct (Z.gtb_spec (Utils.seqNumDiff (nextSeqNum w) (sendBase w) + 1) 8); lia. }
    unfold wf_sender, outstanding.
    cbn [nextSeqNum sendBase windowSize emit set_stats set_nextSeqNum].
    rewrite Hout. unfold WINDOW_SIZE. repeat split; try lia; reflexivity.
  - destruct (Z.ltb_spec (outstanding w) (windowSize w)); [lia|]. cbn [negb fst snd].
    unfold wf_sender, outstanding in *.
    cbn [nextSeqNum sendBase windowSize emit set_stats stats windowFullEvents].
    unfold WINDOW_SIZE. repeat split; try lia; reflexivity.
Qed.

(** [processAck] for the acknowledgement of an outstanding frame. *)
Lemma processAck_outstanding (w : t) (ack : Z) :
  wf_sender w -> 0 <= ack < 16 ->
  0 <= Utils.seqNumDiff ack (sendBase w) < outstanding w ->
  outstanding (snd (processAck ack w))
    = outstanding w - Utils.seqNumDiff ack (sendBase w) - 1 /\
  wf_sender (snd (processAck ack w)).
Proof.
  intros (Hb & Hn & Hws & Ho) Ha Hd. unfold WINDOW_SIZE in Hws.
  unfold processAck.
  destruct (Z.ltb_spec (Utils.seqNumDiff ack (sendBase w)) 0); [lia|].
  destruct (Z.geb_spec (Utils.seqNumDiff ack (sendBase w)) (windowSize w)); [lia|].
  cbn [snd]. unfold wf_sender, outstanding in *.
  cbn [nextSeqNum sendBase windowSize emit set_stats set_sendBase].
  pose proof (nextSeqNum_range ack ltac:(lia)) as Hr.
  rewrite nextSeqNum_mod in * by lia.
  pose proof (seqNumDiff_nonneg_inv _ _ Hn Hb ltac:(lia)) as Hk.
  pose proof (seqNumDiff_nonneg_inv _ _ Ha Hb ltac:(lia)) as Hkd.
  assert (Hnew : (nextSeqNum w - (ack + 1) mod 16) mod 16
                 = Utils.seqNumDiff (nextSeqNum w) (sendBase w)
                   - Utils.seqNumDiff ack (sendBase w) - 1).
  { rewrite Hk, Hkd in *. Z.div_mod_to_equations. lia. }
  rewrite (seqNumDiff_mod (nextSeqNum w)) by lia. rewrite Hnew.
  destruct (Z.gtb_spec (Utils.seqNumDiff (nextSeqNum w) (sendBase w)
                        - Utils.seqNumDiff ack (sendBase w) - 1) 8);
    unfold WINDOW_SIZE; repeat split; lia.
Qed.

(** X12: the window bound.  On a sender with at most [windowSize <= 8]
    frames outstanding, [getNextSeqNum] hands out [nextSeqNum] and counts
    one more outstanding frame while there is room, and returns [null]
    without touching the counters when the window is full; the ACK of an
    outstanding frame lowers the count by the slide distance.  Both keep the
    count within [0 .. windowSize]. *)
Theorem sender_window_bound (w : t) (ack : Z) :
  wf_sender w ->
  (outstanding w < windowSize w ->
     fst (getNextSeqNum w) = Some (nextSeqNum w) /\
     outstanding (snd (getNextSeqNum w)) = outstanding w + 1 /\
     wf_sender (snd (getNextSeqNum w))) /\
  (outstanding w = windowSize w ->
     fst (getNextSeqNum w) = None /\
     nextSeqNum (snd (getNextSeqNum w)) = nextSeqNum w /\
     sendBase (snd (getNextSeqNum w)) = sendBase w /\
     wf_sender (snd (getNextSeqNum w))) /\
  (0 <= ack < 16 ->
   0 <= Utils.seqNumDiff ack (sendBase w) < outstanding w ->
     outstanding (snd (processAck ack w))
       = outstanding w - Utils.seqNumDiff ack (sendBase w) - 1 /\
     wf_sender (snd (processAck ack w))).
Proof.
  intros Hwf. destruct (getNextSeqNum_cases w Hwf) as [Hroom Hfull].
  split; [|split].
  - intros H. destruct (Hroom H) as (H1 & _ & _ & H4 & H5). auto.
  - intros H. destruct (Hfull H) as (H1 & H2 & H3 & _ & H5). auto.
  - intros Ha Hd. now apply processAck_outstanding.
Qed.

Lemma sender_window_bound_witness :
  wf_sender new /\
  fst (getNextSeqNum new) = Some 0 /\
  outstanding (snd (getNextSeqNum new)) = 1.
Proof.
  assert (Hwf : wf_sender new) by (vm_compute; repeat split; discriminate).
  destruct (sender_window_bound new 0 Hwf) as (Hroom & _ & _).
  destruct Hroom as (H1 & H2 & _); [vm_compute; reflexivity|].
  split; [exact Hwf|]. split; [exact H1 | exact H2].
Defined.

(** X13: [processAck] never compares the acknowledged number with
    [nextSeqNum].  An ACK inside the window for a sequence number that has
    not been sent yet is accepted like any other: [sendBase] moves past
    [nextSeqNum], and the outstanding count becomes negative, or 8 (a window
    that looks full with nothing in flight) when the ACK is seven ahead of
    an empty window. *)
Theorem processAck_accepts_unsent (w : t) (ack : Z) :
  wf_sender w -> 0 <= ack < 16 ->
  outstanding w <= Utils.seqNumDiff ack (sendBase w) < windowSize w ->
  fst (processAck ack w)
    = ack_accepted ack (sendBase w) ((ack + 1) mod 16)
        (Utils.seqNumDiff ack (sendBase w) + 1) /\
  sendBase (snd (processAck ack w)) = (ack + 1) mod 16 /\
  outstanding (snd (processAck ack w))
    = (if Utils.seqNumDiff ack (sendBase w) - outstanding w =? 7 then 8
       else outstanding w - Utils.seqNumDiff ack (sendBase w) - 1) /\
  (~ wf_sender (snd (processAck ack w)) \/
   (canSend (snd (processAck ack w)) = false /\
    outstanding w = 0 /\ outstanding (snd (processAck ack w)) = 8)).
Proof.
  intros Hwf Ha Hd. pose proof Hwf as (Hb & Hn & Hws & Ho).
  pose proof (processAck_cases w ack Ha Hb Hws) as Hc. cbv zeta in Hc.
  destruct Hc as (_ & _ & Hacc & _ & Hrange & Hsize).
  destruct (Hacc ltac:(lia)) as (Hbase & Hr & _ & _).
  unfold WINDOW_SIZE in Hws.
  assert (Hout : outstanding (snd (processAck ack w))
                 = if Utils.seqNumDiff ack (sendBase w) - outstanding w =? 7 then 8
                   else outstanding w - Utils.seqNumDiff ack (sendBase w) - 1).
  { unfold outstanding in *. rewrite Hbase.
    assert (Hnext : nextSeqNum (snd (processAck ack w)) = nextSeqNum w).
    { unfold processAck.
      destruct (_ <? 0); [reflexivity|]. destruct (_ >=? _); reflexivity. }
    rewrite Hnext.
    pose proof (seqNumDiff_nonneg_inv _ _ Hn Hb ltac:(lia)) as Hk.
    pose proof (seqNumDiff_nonneg_inv _ _ Ha Hb ltac:(lia)) as Hkd.
    pose proof (Z.mod_pos_bound (ack + 1) 16 ltac:(lia)) as Hm.
    assert (Hnew : (nextSeqNum w - (ack + 1) mod 16) mod 16
                   = 16 + Utils.seqNumDiff (nextSeqNum w) (sendBase w)
                     - Utils.seqNumDiff ack (sendBase w) - 1).
    { rewrite Hk, Hkd in *. Z.div_mod_to_equations. lia. }
    rewrite (seqNumDiff_mod (nextSeqNum w)) by lia. rewrite Hnew.
    destruct (Z.eqb_spec (Utils.seqNumDiff ack (sendBase w)
                          - Utils.seqNumDiff (nextSeqNum w) (sendBase w)) 7);
      destruct (Z.gtb_spec (16 + Utils.seqNumDiff (nextSeqNum w) (sendBase w)
                            - Utils.seqNumDiff ack (sendBase w) - 1) 8); lia. }
  split; [exact Hr|]. split; [exact Hbase|]. split; [exact Hout|].
  destruct (Z.eqb_spec (Utils.seqNumDiff ack (sendBase w) - outstanding w) 7) as [H7|H7].
  - right. unfold canSend. fold (outstanding (snd (processAck ack w))).
    rewrite Hout, Hsize. split; [apply Z.ltb_ge|]; lia.
  - left. intros (_ & _ & _ & Hbad). rewrite Hout in Hbad. lia.
Qed.

Lemma processAck_accepts_unsent_witness :
  sendBase (snd (processAck 5 new)) = 6 /\
  outstanding (snd (processAck 5 new)) = -6 /\
  canSend (snd (processAck 7 new)) = false.
Proof.
  assert (Hwf : wf_sender new) by (vm_compute; repeat split; discriminate).
  destruct (processAck_accepts_unsent new 5 Hwf) as (_ & H2 & H3 & _);
    [lia | vm_compute; split; [discriminate | reflexivity] |].
  destruct (processAck_accepts_unsent new 7 Hwf) as (_ & _ & _ & [Hbad | (H4 & _)]);
    [lia | vm_compute; split; [discriminate | reflexivity] | |].
  - exfalso. apply Hbad. vm_compute. repeat split; discriminate.
  - split; [exact H2|]. split; [exact H3 | exact H4].
Defined.

End SenderWindow.

Section ReceiverInvariant.
Import Constants WindowManager WindowRun WindowInv.

Lemma filled_set_some buf i fd :
  0 <= i < Z.of_nat (length buf) -> filled (bufferSet buf i (Some fd)) i = true.
Proof. intros Hi. unfold filled. now rewrite bufferAt_set_same. Qed.

Lemma filled_set_none buf i :
  0 <= i < Z.of_nat (length buf) -> filled (bufferSet buf i None) i = false.
Proof. intros Hi. unfold filled. now rewrite bufferAt_set_same. Qed.

Lemma filled_set_other buf i j v :
  i <> j -> filled (bufferSet buf i v) j = filled buf j.
Proof. intros Hij. unfold filled. now rewrite bufferAt_set_other. Qed.

(** One turn of the delivery loop: the expected slot is cleared, the
    expected number advances and the mask moves one bit down. *)
Lemma advance_keeps (w w1 : t) :
  wf_receiver w -> mask_mirrors w -> within_window w ->
  expectedSeqNum w1 = (expectedSeqNum w + 1) mod 16 ->
  receiveBuffer w1 = bufferSet (receiveBuffer w) (expectedSeqNum w) None ->
  receivedMask w1 = Z.shiftr (receivedMask w) 1 ->
  wf_receiver w1 /\ mask_mirrors w1 /\ within_window w1.
Proof.
  intros [Hlen He] Hmask Hwin He1 Hb1 Hm1.
  split; [|split].
  - split; [rewrite Hb1, bufferSet_length; exact Hlen|].
    rewrite He1. apply Z.mod_pos_bound. lia.
  - intros i Hi. rewrite Hm1, Hb1, He1, Z.shiftr_spec by lia.
    rewrite (Hmask (i + 1)) by lia.
    destruct (Z.ltb_spec i 16) as [Hlt|Hge].
    + destruct (Z.eq_dec i 15) as [->|Hne].
      * replace (((expectedSeqNum w + 1) mod 16 + 15) mod 16) with (expectedSeqNum w)
          by (Z.div_mod_to_equations; lia).
        rewrite filled_set_none by lia. reflexivity.
      * destruct (Z.ltb_spec (i + 1) 16); [|lia]. cbn [andb].
        replace (((expectedSeqNum w + 1) mod 16 + i) mod 16)
          with ((expectedSeqNum w + (i + 1)) mod 16)
          by (Z.div_mod_to_equations; lia).
        rewrite filled_set_other; [reflexivity|].
        Z.div_mod_to_equations; lia.
    + destruct (Z.ltb_spec (i + 1) 16); [lia|]. reflexivity.
  - intros j Hj Hf. rewrite Hb1 in Hf. rewrite He1.
    destruct (Z.eq_dec (expectedSeqNum w) j) as [<-|Hne].
    + rewrite filled_set_none in Hf by lia. discriminate.
    + rewrite filled_set_other in Hf by exact Hne.
      pose proof (Hwin j Hj Hf) as Hd.
      Z.div_mod_to_equations; lia.
Qed.

(** Storing a frame less than eight places ahead. *)
Lemma store_keeps (w w1 : t) (seqNum : Z) (fd : FrameData) :
  wf_receiver w -> mask_mirrors w -> within_window w ->
  0 <= seqNum < 16 ->
  (seqNum - expectedSeqNum w) mod 16 < 8 ->
  expectedSeqNum w1 = expectedSeqNum w ->
  receiveBuffer w1 = bufferSet (receiveBuffer w) seqNum (Some fd) ->
  receivedMask w1
    = Z.lor (receivedMask w) (Z.shiftl 1 ((seqNum - expectedSeqNum w) mod 16)) ->
  wf_receiver w1 /\ mask_mirrors w1 /\ within_window w1.
Proof.
  intros [Hlen He] Hmask Hwin Hs Hd He1 Hb1 Hm1.
  pose proof (Z.mod_pos_bound (seqNum - expectedSeqNum w) 16 ltac:(lia)) as Hdr.
  split; [|split].
  - split; [rewrite Hb1, bufferSet_length; exact Hlen | rewrite He1; exact He].
  - intros i Hi. rewrite Hm1, Hb1, He1, Z.lor_spec, Z.shiftl_1_l.
    rewrite Z.pow2_bits_eqb by lia. rewrite (Hmask i Hi).
    destruct (Z.eqb_spec ((seqNum - expectedSeqNum w) mod 16) i) as [Heq|Hne].
    + subst i.
      replace ((expectedSeqNum w + (seqNum - expectedSeqNum w) mod 16) mod 16)
        with seqNum by (Z.div_mod_to_equations; lia).
      rewrite filled_set_some by lia.
      destruct (Z.ltb_spec ((seqNum - expectedSeqNum w) mod 16) 16); [|lia].
      apply orb_true_r.
    + rewrite orb_false_r.
      destruct (Z.ltb_spec i 16) as [Hlt|Hge]; [|reflexivity]. cbn [andb].
      rewrite filled_set_other; [reflexivity|].
      Z.div_mod_to_equations; lia.
  - intros j Hj Hf. rewrite Hb1 in Hf. rewrite He1.
    destruct (Z.eq_dec seqNum j) as [<-|Hne]; [exact Hd|].
    rewrite filled_set_other in Hf by exact Hne. now apply Hwin.
Qed.

Lemma deliverLoop_inv budget :
  forall (w : t) (acc : list DeliveredFrame),
    wf_receiver w -> mask_mirrors w -> within_window w ->
    (countObj (receiveBuffer w) < budget)%nat ->
    exists w' out, deliverLoop budget w acc = Normal (w', out) /\ recv_inv w'.
Proof.
  induction budget as [|budget IH]; intros w acc Hwf Hmask Hwin Hcount; [lia|].
  pose proof Hwf as [Hlen He].
  cbn [deliverLoop].
  destruct (bufferAt_in_range (receiveBuffer w) (expectedSeqNum w) ltac:(lia))
    as (v & Hv & Hcell).
  rewrite Hcell. destruct v as [fd|]; cbn [cellOf].
  - match goal with |- context [deliverLoop budget ?w0 ?a0] =>
      set (w1 := w0); set (acc1 := a0) end.
    destruct (advance_keeps w w1 Hwf Hmask Hwin) as (Hwf1 & Hmask1 & Hwin1);
      [cbn; apply nextSeqNum_mod; lia | reflexivity | reflexivity |].
    assert (Hc1 : S (countObj (receiveBuffer w1)) = countObj (receiveBuffer w)).
    { cbn. eapply countObj_bufferSet_clear. rewrite Hcell. reflexivity. }
    apply IH; [exact Hwf1 | exact Hmask1 | exact Hwin1 | lia].
  - exists w, acc. split; [reflexivity|].
    split; [exact Hwf|]. split; [exact Hcell|]. split; assumption.
Qed.

Lemma deliverFramesInOrder_inv (w : t) :
  wf_receiver w -> mask_mirrors w -> within_window w ->
  exists r w', deliverFramesInOrder w = Normal (r, w') /\ recv_inv w'.
Proof.
  intros Hwf Hmask Hwin. unfold deliverFramesInOrder.
  pose proof (countObj_le_length (receiveBuffer w)) as Hc.
  destruct (deliverLoop_inv (S (length (receiveBuffer w))) w [] Hwf Hmask Hwin ltac:(lia))
    as (w' & out & Hrun & Hinv).
  rewrite Hrun. eexists. eexists. split; [reflexivity|].
  exact Hinv.
Qed.

Lemma recv_inv_new : recv_inv new.
Proof.
  split; [split; [reflexivity | cbn; lia]|].
  split; [reflexivity|]. split.
  - intros i Hi. cbn [receivedMask new expectedSeqNum receiveBuffer].
    rewrite Z.bits_0.
    destruct (Z.ltb_spec i 16) as [Hlt|]; [|reflexivity]. cbn [andb].
    rewrite Z.add_0_l, Z.mod_small by lia.
    assert (Hc : i = 0 \/ i = 1 \/ i = 2 \/ i = 3 \/ i = 4 \/ i = 5 \/ i = 6 \/ i = 7 \/
                 i = 8 \/ i = 9 \/ i = 10 \/ i = 11 \/ i = 12 \/ i = 13 \/ i = 14 \/
                 i = 15) by lia.
    repeat (destruct Hc as [->|Hc]; [reflexivity|]). subst i. reflexivity.
  - intros j Hj Hf. exfalso. cbn [receiveBuffer new] in Hf.
    assert (Hc : j = 0 \/ j = 1 \/ j = 2 \/ j = 3 \/ j = 4 \/ j = 5 \/ j = 6 \/ j = 7 \/
                 j = 8 \/ j = 9 \/ j = 10 \/ j = 11 \/ j = 12 \/ j = 13 \/ j = 14 \/
                 j = 15) by lia.
    repeat (destruct Hc as [->|Hc]; [discriminate Hf|]). subst j. discriminate Hf.
Qed.

Lemma recv_inv_receiver_fields (w w1 : t) :
  expectedSeqNum w1 = expectedSeqNum w ->
  receiveBuffer w1 = receiveBuffer w ->
  receivedMask w1 = receivedMask w ->
  recv_inv w -> recv_inv w1.
Proof.
  intros He Hb Hm ([Hlen Her] & Hnull & Hmask & Hwin).
  unfold recv_inv, wf_receiver, mask_mirrors, within_window.
  rewrite He, Hb, Hm. auto.
Qed.

(** What the invariant says about the mask and the number of waiting frames. *)
Lemma recv_inv_high_bits (w : t) (i : Z) :
  recv_inv w -> 8 <= i -> Z.testbit (receivedMask w) i = false.
Proof.
  intros ([Hlen He] & Hnull & Hmask & Hwin) Hi.
  rewrite Hmask by lia.
  destruct (Z.ltb_spec i 16) as [Hlt|]; [|reflexivity]. cbn [andb].
  apply not_true_is_false. intros Hf.
  pose proof (Z.mod_pos_bound (expectedSeqNum w + i) 16 ltac:(lia)) as Hr.
  pose proof (Hwin _ Hr Hf) as Hd.
  revert Hd. Z.div_mod_to_equations. lia.
Qed.

Lemma recv_inv_mask_range (w : t) :
  recv_inv w -> 0 <= receivedMask w < 256 /\ Z.testbit (receivedMask w) 0 = false.
Proof.
  intros Hinv. pose proof Hinv as ([Hlen He] & Hnull & Hmask & Hwin). split.
  - assert (Hm : receivedMask w = receivedMask w mod 2 ^ 8).
    { apply Z.bits_inj'. intros n Hn.
      destruct (Z_lt_le_dec n 8) as [Hlt|Hge].
      - now rewrite Z.mod_pow2_bits_low.
      - rewrite Z.mod_pow2_bits_high by lia. now apply recv_inv_high_bits. }
    rewrite Hm. change 256 with (2 ^ 8). apply Z.mod_pos_bound. reflexivity.
  - rewrite Hmask by lia. cbn [Z.ltb Z.compare andb].
    rewrite Z.add_0_r, Z.mod_small by lia.
    unfold filled. rewrite Hnull. reflexivity.
Qed.

Lemma recv_inv_buffer_size (w : t) :
  recv_inv w -> 0 <= getBufferSize w <= 7.
Proof.
  intros ([Hlen He] & Hnull & Hmask & Hwin). unfold getBufferSize.
  split; [lia|].
  set (p := fun i : nat => match bufferAt (receiveBuffer w) (Z.of_nat i) with
                           | Null => false | _ => true end).
  set (g := fun i : nat => Z.to_nat ((Z.of_nat i - expectedSeqNum w) mod 16)).
  assert (Hp : forall i, In i (List.filter p (seq 0 16)) ->
                         (i < 16)%nat /\ filled (receiveBuffer w) (Z.of_nat i) = true).
  { intros i Hin. apply filter_In in Hin. destruct Hin as [Hin Hpi].
    apply in_seq in Hin. split; [lia|].
    unfold p in Hpi. unfold filled.
    destruct (bufferAt_in_range (receiveBuffer w) (Z.of_nat i) ltac:(lia))
      as (v & _ & Hcell).
    rewrite Hcell in *. destruct v; [reflexivity | discriminate]. }
  assert (Hnd : List.NoDup (map g (List.filter p (seq 0 16)))).
  { apply NoDup_map_NoDup_ForallPairs.
    - intros x y Hx Hy Hg. apply Hp in Hx, Hy. unfold g in Hg.
      pose proof (Z.mod_pos_bound (Z.of_nat x - expectedSeqNum w) 16 ltac:(lia)).
      pose proof (Z.mod_pos_bound (Z.of_nat y - expectedSeqNum w) 16 ltac:(lia)).
      apply Z2Nat.inj in Hg; try lia.
      apply Nat2Z.inj. Z.div_mod_to_equations. lia.
    - apply List.NoDup_filter, seq_NoDup. }
  assert (Hincl : incl (map g (List.filter p (seq 0 16))) (seq 1 7)).
  { intros k Hk. apply in_map_iff in Hk. destruct Hk as (i & <- & Hin).
    apply Hp in Hin. destruct Hin as [Hi Hf].
    pose proof (Hwin (Z.of_nat i) ltac:(lia) Hf) as Hd.
    apply in_seq. unfold g.
    pose proof (Z.mod_pos_bound (Z.of_nat i - expectedSeqNum w) 16 ltac:(lia)).
    assert (Hnz : (Z.of_nat i - expectedSeqNum w) mod 16 <> 0).
    { intros Hz. assert (Z.of_nat i = expectedSeqNum w)
        by (Z.div_mod_to_equations; lia).
      unfold filled in Hf. rewrite H0, Hnull in Hf. discriminate. }
    lia. }
  pose proof (NoDup_incl_length Hnd Hincl) as Hle.
  rewrite length_map, length_seq in Hle. lia.
Qed.

(** One [receiveFrame] on a receiver that satisfies the invariant. *)
Lemma receiveFrame_recv_inv_step (w : t) (seqNum : Z) (data : list byte) (now : Z) :
  recv_inv w -> windowSize w <= WINDOW_SIZE -> 0 <= seqNum < 16 ->
  exists r w',
    receiveFrame seqNum data now w = Normal (r, w') /\
    recv_inv w' /\
    windowSize w' = windowSize w /\
    (length (deliveredOf r) <= 8)%nat.
Proof.
  intros Hinv Hws Hs. unfold WINDOW_SIZE in Hws.
  pose proof Hinv as (Hwf & Hnull & Hmask & Hwin). pose proof Hwf as [Hlen He].
  destruct (Z_lt_le_dec (Utils.seqNumDiff seqNum (expectedSeqNum w)) 0) as [Hdup|Hnn];
    [|destruct (Z_lt_le_dec (Utils.seqNumDiff seqNum (expectedSeqNum w)) (windowSize w))
        as [Hin|Hout]].
  - destruct (receiveFrame_rejected w seqNum data now (or_introl Hdup))
      as (r & w' & Hrun & Hr & Hexp & Hbuf & Hw).
    exists r, w'. split; [exact Hrun|].
    assert (Hmask' : receivedMask w' = receivedMask w).
    { revert Hrun. unfold receiveFrame. cbn [expectedSeqNum set_stats windowSize].
      destruct (Z.ltb_spec (Utils.seqNumDiff seqNum (expectedSeqNum w)) 0);
        [intros [= <- <-]; reflexivity | lia]. }
    split; [eapply recv_inv_receiver_fields; eauto|]. split; [exact Hw|].
    destruct Hr as [-> | ->]; cbn; lia.
  - pose proof (seqNumDiff_nonneg_inv _ _ Hs He Hnn) as Hk.
    destruct (Z.eq_dec seqNum (expectedSeqNum w)) as [Heq|Hne].
    + (* the expected frame: stored, then the delivery loop runs *)
      subst seqNum.
      destruct (receiveFrame_expected w data now Hwf ltac:(lia))
        as (w' & rest & Hrun & Hwf' & Hexp & Hfr & Hn).
      exists (recv_delivered
                ({| df_seqNum := expectedSeqNum w; df_data := data;
                    df_timestamp := now |} :: rest) (expectedSeqNum w')), w'.
      split; [exact Hrun|].
      revert Hrun. unfold receiveFrame. cbn [expectedSeqNum set_stats windowSize].
      destruct (Z.ltb_spec (Utils.seqNumDiff (expectedSeqNum w) (expectedSeqNum w)) 0);
        [lia|].
      destruct (Z.geb_spec (Utils.seqNumDiff (expectedSeqNum w) (expectedSeqNum w))
                  (windowSize w)); [lia|].
      cbn [expectedSeqNum set_receiver]. rewrite Z.eqb_refl.
      match goal with |- context [deliverFramesInOrder ?w0] => set (w1 := w0) end.
      destruct (store_keeps w w1 (expectedSeqNum w)
                  {| fd_data := data; fd_timestamp := now |} Hwf Hmask Hwin He)
        as (Hwf1 & Hmask1 & Hwin1);
        [lia | reflexivity | reflexivity | cbn; rewrite Hk; reflexivity |].
      destruct (deliverFramesInOrder_inv w1 Hwf1 Hmask1 Hwin1)
        as (r2 & w2 & Hrun2 & Hinv2).
      destruct (deliverFramesInOrder_spec w1 Hwf1)
        as (w3 & frames & Hrun3 & _ & _ & Hfr3 & _ & _ & _ & Hws3).
      intros Hrun. rewrite Hrun in Hrun2, Hrun3.
      injection Hrun2 as <- <-. injection Hrun3 as Hfr_eq _ <-.
      split; [exact Hinv2|]. split; [exact Hws3|].
      (* a ninth frame would have waited eight slots ahead *)
      cbn [deliveredOf]. rewrite length_map.
      destruct (le_lt_dec (length frames) 8) as [Hle|Hgt];
        [rewrite Hfr_eq; exact Hle|exfalso].
      destruct (lookup_lt_is_Some_2 frames 8 Hgt) as (x & Hx).
      destruct (Hfr3 8%nat x Hx) as (Hsx & Hobj & _).
      change (expectedSeqNum w1) with (expectedSeqNum w) in Hsx.
      pose proof (Z.mod_pos_bound (expectedSeqNum w + Z.of_nat 8) 16 ltac:(lia)) as Hr.
      assert (Hf : filled (receiveBuffer w1) (df_seqNum x) = true)
        by (unfold filled; rewrite Hobj; reflexivity).
      rewrite Hsx in Hf. pose proof (Hwin1 _ Hr Hf) as Hd.
      change (expectedSeqNum w1) with (expectedSeqNum w) in Hd.
      revert Hd. change (Z.of_nat 8) with 8. Z.div_mod_to_equations. lia.
    + (* a later frame: stored and left waiting *)
      destruct (receiveFrame_buffered w seqNum data now Hwf Hs Hne ltac:(lia))
        as (w' & Hrun & Hwf' & Hexp & Hw & Hobj & Hother).
      exists (recv_buffered seqNum (expectedSeqNum w)), w'.
      split; [exact Hrun|].
      revert Hrun. unfold receiveFrame. cbn [expectedSeqNum set_stats windowSize].
      destruct (Z.ltb_spec (Utils.seqNumDiff seqNum (expectedSeqNum w)) 0); [lia|].
      destruct (Z.geb_spec (Utils.seqNumDiff seqNum (expectedSeqNum w)) (windowSize w));
        [lia|].
      cbn [expectedSeqNum set_receiver].
      destruct (Z.eqb_spec seqNum (expectedSeqNum w)); [contradiction|].
      intros [= <-].
      match goal with |- recv_inv ?w0 /\ _ => set (w1 := w0) end.
      destruct (store_keeps w w1 seqNum
                  {| fd_data := data; fd_timestamp := now |} Hwf Hmask Hwin Hs)
        as (Hwf1 & Hmask1 & Hwin1);
        [lia | reflexivity | reflexivity | cbn; rewrite Hk; reflexivity |].
      split; [|split; [reflexivity | cbn; lia]].
      split; [exact Hwf1|]. split; [|split; assumption].
      cbn. rewrite bufferAt_set_other by exact Hne. exact Hnull.
  - destruct (receiveFrame_rejected w seqNum data now (or_intror Hout))
      as (r & w' & Hrun & Hr & Hexp & Hbuf & Hw).
    exists r, w'. split; [exact Hrun|].
    assert (Hmask' : receivedMask w' = receivedMask w).
    { revert Hrun. unfold receiveFrame. cbn [expectedSeqNum set_stats windowSize].
      destruct (_ <? 0); [intros [= <- <-]; reflexivity|].
      destruct (Z.geb_spec (Utils.seqNumDiff seqNum (expectedSeqNum w)) (windowSize w));
        [intros [= <- <-]; reflexivity | lia]. }
    split; [eapply recv_inv_receiver_fields; eauto|]. split; [exact Hw|].
    destruct Hr as [-> | ->]; cbn; lia.
Qed.

Lemma recv_inv_reset (w : t) : recv_inv (reset w).
Proof.
  eapply recv_inv_receiver_fields; [| | |exact recv_inv_new]; reflexivity.
Qed.

(** A run of [receiveFrame] calls keeps the invariant. *)
Lemma receiveAll_recv_inv (inputs : list (Z * list byte * Z)) :
  forall w,
    recv_inv w -> windowSize w <= WINDOW_SIZE ->
    Forall (fun i => 0 <= fst (fst i) < 16) inputs ->
    exists rs w',
      receiveAll inputs w = Normal (rs, w') /\
      recv_inv w' /\ windowSize w' = windowSize w /\
      Forall (fun r => (length (deliveredOf r) <= 8)%nat) rs.
Proof.
  induction inputs as [|[[seqNum data] now] inputs IH]; intros w Hinv Hws Hall.
  - exists [], w. cbn. auto.
  - inversion Hall as [|? ? Hs Hrest]; subst. cbn [fst] in Hs.
    destruct (receiveFrame_recv_inv_step w seqNum data now Hinv Hws Hs)
      as (r & w1 & Hrun & Hinv1 & Hws1 & Hn).
    destruct (IH w1 Hinv1 ltac:(lia) Hrest) as (rs & w' & Hruns & Hinv' & Hws' & Hns).
    exists (r :: rs), w'. cbn [receiveAll]. rewrite Hrun, Hruns.
    split; [reflexivity|]. split; [exact Hinv'|]. split; [lia|].
    constructor; assumption.
Qed.

(** X14: the receiver's bookkeeping.  Between calls the expected slot is
    empty, bit [i] of [receivedMask] is set exactly when the slot [i] places
    ahead of [expectedSeqNum] holds a frame, and frames wait only in the
    seven slots after the expected one.  The constructor and [reset]
    establish this and every [receiveFrame] with a sequence number in
    [0..15] keeps it, returning normally with the window size unchanged and
    handing over at most eight frames. *)
Theorem receiveFrame_keeps_recv_inv (w : t) (seqNum : Z) (data : list byte) (now : Z) :
  recv_inv new /\ recv_inv (reset w) /\
  (recv_inv w -> windowSize w <= WINDOW_SIZE -> 0 <= seqNum < 16 ->
   exists r w',
     receiveFrame seqNum data now w = Normal (r, w') /\
     recv_inv w' /\
     windowSize w' = windowSize w /\
     (length (deliveredOf r) <= 8)%nat).
Proof.
  split; [exact recv_inv_new|]. split; [apply recv_inv_reset|].
  apply receiveFrame_recv_inv_step.
Qed.

Lemma receiveFrame_keeps_recv_inv_witness :
  exists r w',
    receiveFrame 2 [] 0 new = Normal (r, w') /\ recv_inv w' /\
    windowSize w' = 8 /\ (length (deliveredOf r) <= 8)%nat.
Proof.
  destruct (receiveFrame_keeps_recv_inv new 2 [] 0) as (Hnew & _ & Hstep).
  apply Hstep; [exact Hnew | vm_compute; discriminate | lia].
Defined.

(** X15: [receivedMask] stays within eight bits.  After any run of
    [receiveFrame] calls with sequence numbers in [0..15], started on a new
    window manager or after [reset], the mask is in [0..255] with bit 0
    clear, bit [i] is set exactly when the slot [i] places ahead of
    [expectedSeqNum] holds a frame, and [getBufferSize] reports at most
    seven waiting frames.  The operands and results of the next
    [receivedMask |= 1 << bitPos] (for every bit position inside the window)
    and of [receivedMask >>= 1] are therefore below 256, far from the 32-bit
    range in which JavaScript evaluates these operators, so they never
    overflow. *)
Theorem receivedMask_within_eight_bits (w0 : t) (inputs : list (Z * list byte * Z)) :
  Forall (fun i => 0 <= fst (fst i) < 16) inputs ->
  forall start, start = new \/ start = reset w0 ->
  exists rs w',
    receiveAll inputs start = Normal (rs, w') /\
    0 <= receivedMask w' < 256 /\
    Z.testbit (receivedMask w') 0 = false /\
    (forall i, 0 <= i < 8 ->
       Z.testbit (receivedMask w') i = true <->
       exists fd, bufferAt (receiveBuffer w') ((expectedSeqNum w' + i) mod 16) = Obj fd) /\
    0 <= getBufferSize w' <= 7 /\
    (forall bitPos, 0 <= bitPos < 8 ->
       0 <= Z.shiftl 1 bitPos < 256 /\
       0 <= Z.lor (receivedMask w') (Z.shiftl 1 bitPos) < 256) /\
    0 <= Z.shiftr (receivedMask w') 1 < 256.
Proof.
  intros Hall start Hstart.
  assert (Hinv0 : recv_inv start /\ windowSize start <= WINDOW_SIZE).
  { destruct Hstart as [-> | ->];
      (split; [apply recv_inv_new || apply recv_inv_reset | cbn; reflexivity]). }
  destruct Hinv0 as [Hinv0 Hws0].
  destruct (receiveAll_recv_inv inputs start Hinv0 Hws0 Hall)
    as (rs & w' & Hrun & Hinv & _ & _).
  exists rs, w'. split; [exact Hrun|].
  destruct (recv_inv_mask_range w' Hinv) as [Hr Hb0].
  pose proof Hinv as ([Hlen He] & Hnull & Hmask & Hwin).
  split; [exact Hr|]. split; [exact Hb0|]. split; [|split; [|split]].
  - intros i Hi. rewrite Hmask by lia.
    destruct (Z.ltb_spec i 16); [|lia]. cbn [andb]. unfold filled.
    destruct (bufferAt (receiveBuffer w') ((expectedSeqNum w' + i) mod 16)) as [| |fd];
      split; try discriminate; try (intros (fd' & Hfd); discriminate); eauto.
  - now apply recv_inv_buffer_size.
  - intros bitPos Hbp. rewrite Z.shiftl_1_l.
    assert (Hp : 0 < 2 ^ bitPos < 256).
    { split; [apply Z.pow_pos_nonneg; lia|].
      change 256 with (2 ^ 8). apply Z.pow_lt_mono_r; lia. }
    split; [lia|].
    assert (Hm : Z.lor (receivedMask w') (2 ^ bitPos)
                 = Z.lor (receivedMask w') (2 ^ bitPos) mod 2 ^ 8).
    { apply Z.bits_inj'. intros n Hn.
      destruct (Z_lt_le_dec n 8) as [Hlt|Hge].
      - now rewrite Z.mod_pow2_bits_low.
      - rewrite Z.mod_pow2_bits_high by lia. rewrite Z.lor_spec.
        rewrite (recv_inv_high_bits w' n Hinv Hge).
        rewrite Z.pow2_bits_eqb by lia.
        destruct (Z.eqb_spec bitPos n); [lia | reflexivity]. }
    rewrite Hm. change 256 with (2 ^ 8). apply Z.mod_pos_bound. reflexivity.
  - rewrite Z.shiftr_div_pow2 by lia. change (2 ^ 1) with 2.
    split; [apply Z.div_pos; lia | apply Z.div_lt_upper_bound; lia].
Qed.

Lemma receivedMask_within_eight_bits_witness :
  exists rs w',
    receiveAll [(2, [x62], 10); (3, [x63], 11); (5, [x65], 12)] new = Normal (rs, w') /\
    0 <= receivedMask w' < 256 /\
    0 <= getBufferSize w' <= 7 /\
    receivedMask w' = 44 /\ getBufferSize w' = 3 /\
    Z.lor (receivedMask w') (Z.shiftl 1 7) = 172.
Proof.
  destruct (receivedMask_within_eight_bits new
              [(2, [x62], 10); (3, [x63], 11); (5, [x65], 12)])
    with (start := new) as (rs & w' & Hrun & Hr & _ & _ & Hsize & _).
  - repeat constructor; cbn; lia.
  - now left.
  - exists rs, w'. split; [exact Hrun|]. split; [exact Hr|]. split; [exact Hsize|].
    vm_compute in Hrun. injection Hrun as _ <-.
    split; [reflexivity|]. split; reflexivity.
Defined.

End ReceiverInvariant.

Section ReceiveClassification.
Import Constants WindowManager WindowRun WindowInv.



End ReceiveClassification.

(** * Further properties of the ACK engine *)

Section AckTimers.
Import Constants AcknowledgmentManager AckInv.

Ltac run_ack :=
  unfold handleReceivedAck, handleReceivedNak, handleAckTimeout, retransmitFrame,
    registerPendingAck, fireTimer, clearPendingAcks, bind, gets, modify, emit, call, ret,
    clearTimeout, setTimeout, set_stats, set_pendingAcks;
  cbn [pendingAcks receivedFrames expectedSeqNum stats timers nextTimer
       frame timestamp retries timeout retransmitCallback app fst snd].

Lemma timers_inv_new : timers_inv new.
Proof.
  split; [|split]; cbn; intros ? ? H; rewrite lookup_empty in H; discriminate.
Qed.

(** An entry leaves the map together with its timer. *)
Lemma timers_inv_drop (a b : t) (seqNum : Z) (p : PendingAck) :
  timers_inv a ->
  pendingAcks a !! seqNum = Some p ->
  pendingAcks b = delete seqNum (pendingAcks a) ->
  timers b = delete (timeout p) (timers a) ->
  nextTimer b = nextTimer a ->
  timers_inv b.
Proof.
  intros (I1 & I2 & I3) Hp HP HT Hn. unfold timers_inv. rewrite HP, HT, Hn.
  split; [|split].
  - intros s q Hq. apply lookup_delete_Some in Hq. destruct Hq as [Hne Hq].
    rewrite lookup_delete_ne; [now apply I1|].
    intros Heq. pose proof (I1 _ _ Hp) as H1. pose proof (I1 _ _ Hq) as H2.
    rewrite Heq in H1. congruence.
  - intros h s Hh. apply lookup_delete_Some in Hh. destruct Hh as [Hne Hh].
    destruct (I2 _ _ Hh) as (q & Hq & Hto). exists q. split; [|exact Hto].
    rewrite lookup_delete_ne; [exact Hq|].
    intros <-. rewrite Hp in Hq. injection Hq as <-. congruence.
  - intros h s Hh. apply lookup_delete_Some in Hh. destruct Hh as [_ Hh].
    eapply I3; eassumption.
Qed.

(** A new entry enters the map with a fresh timer. *)
Lemma timers_inv_arm (a b : t) (seqNum : Z) (p' : PendingAck) :
  timers_inv a ->
  pendingAcks a !! seqNum = None ->
  pendingAcks b = <[seqNum := p']> (pendingAcks a) ->
  timers b = <[nextTimer a := seqNum]> (timers a) ->
  nextTimer b = S (nextTimer a) ->
  timeout p' = nextTimer a ->
  timers_inv b.
Proof.
  intros (I1 & I2 & I3) Hp HP HT Hn Hto. unfold timers_inv. rewrite HP, HT, Hn.
  split; [|split].
  - intros s q Hq. apply lookup_insert_Some in Hq.
    destruct Hq as [[<- <-] | [Hne Hq]].
    + rewrite Hto. apply lookup_insert_eq.
    + pose proof (I1 _ _ Hq) as H1. pose proof (I3 _ _ H1) as H3.
      rewrite lookup_insert_ne by lia. exact H1.
  - intros h s Hh. apply lookup_insert_Some in Hh.
    destruct Hh as [[<- <-] | [Hne Hh]].
    + exists p'. split; [apply lookup_insert_eq | exact Hto].
    + destruct (I2 _ _ Hh) as (q & Hq & Hq'). exists q. split; [|exact Hq'].
      rewrite lookup_insert_ne; [exact Hq|]. intros <-. congruence.
  - intros h s Hh. apply lookup_insert_Some in Hh.
    destruct Hh as [[<- _] | [_ Hh]]; [lia|]. pose proof (I3 _ _ Hh). lia.
Qed.

(** The timer of an entry is replaced by a fresh one. *)
Lemma timers_inv_rearm (a b : t) (seqNum : Z) (p p' : PendingAck) :
  timers_inv a ->
  pendingAcks a !! seqNum = Some p ->
  pendingAcks b = <[seqNum := p']> (pendingAcks a) ->
  timers b = <[nextTimer a := seqNum]> (delete (timeout p) (timers a)) ->
  nextTimer b = S (nextTimer a) ->
  timeout p' = nextTimer a ->
  timers_inv b.
Proof.
  intros Hinv Hp HP HT Hn Hto.
  set (mid := {| pendingAcks := delete seqNum (pendingAcks a);
                 receivedFrames := receivedFrames a;
                 expectedSeqNum := expectedSeqNum a; stats := stats a;
                 timers := delete (timeout p) (timers a);
                 nextTimer := nextTimer a |}).
  assert (Hmid : timers_inv mid)
    by (eapply (timers_inv_drop a mid); eauto).
  eapply (timers_inv_arm mid b seqNum p'); cbn; auto.
  - apply lookup_delete_eq.
  - rewrite HP. symmetry. apply insert_delete_eq.
Qed.

Lemma registerPendingAck_timers_inv (a : t) seqNum fr cb now :
  timers_inv a -> timers_inv (registerPendingAck seqNum fr cb now a).1.2.
Proof.
  intros Hinv. run_ack.
  destruct (pendingAcks a !! seqNum) as [p|] eqn:Hp; cbn.
  - eapply (timers_inv_rearm a _ seqNum p); eauto; reflexivity.
  - eapply (timers_inv_arm a _ seqNum); eauto; reflexivity.
Qed.

Lemma handleReceivedAck_timers_inv (a : t) seqNum now :
  timers_inv a -> timers_inv (handleReceivedAck seqNum now a).1.2.
Proof.
  intros Hinv. run_ack.
  destruct (pendingAcks a !! seqNum) as [p|] eqn:Hp; cbn.
  - eapply (timers_inv_drop a _ seqNum p); eauto; reflexivity.
  - exact Hinv.
Qed.

Lemma retransmitFrame_timers_inv (a : t) seqNum now :
  timers_inv a -> timers_inv (retransmitFrame seqNum now a).1.2.
Proof.
  intros Hinv. destruct (pendingAcks a !! seqNum) as [p|] eqn:Hp.
  - rewrite (retransmitFrame_pending a seqNum now p Hp). cbn [fst snd].
    eapply (timers_inv_rearm a _ seqNum p); eauto; reflexivity.
  - run_ack. rewrite Hp. exact Hinv.
Qed.

Lemma handleReceivedNak_timers_inv (a : t) seqNum now :
  timers_inv a -> timers_inv (handleReceivedNak seqNum now a).1.2.
Proof.
  intros Hinv. destruct (pendingAcks a !! seqNum) as [p|] eqn:Hp.
  - rewrite (handleReceivedNak_pending a seqNum now p Hp). cbn [fst snd].
    eapply (timers_inv_rearm a _ seqNum p); eauto; reflexivity.
  - run_ack. rewrite Hp. exact Hinv.
Qed.

(** A live timer expires: its entry is there, and it is either dropped or
    given a fresh timer. *)
Lemma fireTimer_timers_inv (a : t) (h : nat) (now : Z) :
  timers_inv a ->
  timers_inv (fireTimer h now a).1.2 /\
  forall seqNum, timers a !! h = Some seqNum ->
    exists p rest,
      pendingAcks a !! seqNum = Some p /\ timeout p = h /\
      (fireTimer h now a).2
        = Emit (ack_timeout seqNum (retries p + 1) MAX_RETRIES) :: rest.
Proof.
  intros Hinv. pose proof Hinv as (I1 & I2 & I3).
  destruct (timers a !! h) as [seqNum|] eqn:Hh.
  2:{ split; [|intros ? [=]]. unfold fireTimer, bind, gets, ret. rewrite Hh. exact Hinv. }
  destruct (I2 _ _ Hh) as (p & Hp & Hto).
  rewrite (fireTimer_live a h seqNum now Hh).
  set (a0 := {| pendingAcks := pendingAcks a; receivedFrames := receivedFrames a;
                expectedSeqNum := expectedSeqNum a; stats := stats a;
                timers := delete h (timers a); nextTimer := nextTimer a |}).
  destruct (handleAckTimeout_pending a0 seqNum now p Hp) as (a' & out & Hrun & Hcases).
  rewrite Hrun. cbn [fst snd]. 
  destruct (retries p + 1 >=? MAX_RETRIES).
  - destruct Hcases as (HP & HT & Hn & Hout). split.
    + eapply (timers_inv_drop a a' seqNum p); eauto.
      rewrite HT, Hto. reflexivity.
    + intros s [= <-]. exists p. eexists. split; [exact Hp|]. split; [exact Hto|].
      rewrite Hout. reflexivity.
  - destruct Hcases as (HP & HT & Hn & Hout). split.
    + eapply (timers_inv_rearm a a' seqNum p); eauto.
      rewrite HT. cbn [timers nextTimer a0]. rewrite Hto.
      f_equal. apply delete_delete_eq.
    + intros s [= <-]. exists p. eexists. split; [exact Hp|]. split; [exact Hto|].
      rewrite Hout. reflexivity.
Qed.

Lemma foldr_delete_lookup (l : list (Z * PendingAck)) (T : gmap nat Z) (h : nat) :
  foldr (fun p tm => delete (timeout p.2) tm) T l !! h
  = if bool_decide (h ∈ (fun p => timeout p.2) <$> l) then None else T !! h.
Proof.
  induction l as [|x l IH]; cbn [foldr fmap list_fmap].
  - rewrite bool_decide_eq_false_2; [reflexivity | apply not_elem_of_nil].
  - destruct (decide (h = timeout x.2)) as [->|Hne].
    + rewrite lookup_delete_eq. rewrite bool_decide_eq_true_2; [reflexivity|].
      apply list_elem_of_here.
    + rewrite lookup_delete_ne by congruence. rewrite IH.
      destruct (bool_decide (h ∈ (fun p => timeout p.2) <$> l)) eqn:E.
      * apply bool_decide_eq_true in E.
        rewrite bool_decide_eq_true_2; [reflexivity|]. now apply list_elem_of_further.
      * apply bool_decide_eq_false in E.
        rewrite bool_decide_eq_false_2; [reflexivity|].
        intros Hin. apply elem_of_cons in Hin. destruct Hin; [congruence | contradiction].
Qed.

Lemma clearPendingAcks_timers_inv (a : t) :
  timers_inv a ->
  timers_inv (clearPendingAcks a).1.2 /\
  pendingAcks (clearPendingAcks a).1.2 = ∅ /\
  timers (clearPendingAcks a).1.2 = ∅.
Proof.
  intros (I1 & I2 & I3). run_ack.
  assert (HT : foldr (fun p tm => delete (timeout p.2) tm) (timers a)
                 (map_to_list (pendingAcks a)) = ∅).
  { apply map_eq. intros h. rewrite lookup_empty, foldr_delete_lookup.
    destruct (timers a !! h) as [s|] eqn:Hh; [|now destruct (bool_decide _)].
    destruct (I2 _ _ Hh) as (p & Hp & Hto).
    rewrite bool_decide_eq_true_2; [reflexivity|].
    apply list_elem_of_fmap. exists (s, p). split; [symmetry; exact Hto|].
    now apply elem_of_map_to_list. }
  rewrite HT. split; [|split; reflexivity].
  split; [|split]; cbn; intros ? ? H; rewrite lookup_empty in H; discriminate.
Qed.

Lemma runOp_timers_inv (op : Op) (now : Z) (a : t) :
  timers_inv a -> timers_inv (runOp op now a).1.
Proof.
  intros Hinv. destruct op as [s f cb | s | s | h |]; unfold runOp.
  - pose proof (registerPendingAck_timers_inv a s f cb now Hinv) as H.
    destruct (registerPendingAck s f cb now a) as [[u a'] out]. exact H.
  - pose proof (handleReceivedAck_timers_inv a s now Hinv) as H.
    destruct (handleReceivedAck s now a) as [[u a'] out]. exact H.
  - pose proof (handleReceivedNak_timers_inv a s now Hinv) as H.
    destruct (handleReceivedNak s now a) as [[u a'] out]. exact H.
  - pose proof (proj1 (fireTimer_timers_inv a h now Hinv)) as H.
    destruct (fireTimer h now a) as [[u a'] out]. exact H.
  - pose proof (proj1 (clearPendingAcks_timers_inv a Hinv)) as H.
    destruct (clearPendingAcks a) as [[u a'] out]. exact H.
Qed.

Lemma runOps_timers_inv (ops : list (Op * Z)) :
  forall a, timers_inv a -> timers_inv (runOps ops a).1.
Proof.
  induction ops as [|[op now] ops IH]; intros a Hinv; cbn [runOps]; [exact Hinv|].
  pose proof (runOp_timers_inv op now a Hinv) as H1.
  destruct (runOp op now a) as [a1 out1]. cbn [fst] in H1.
  specialize (IH a1 H1). destruct (runOps ops a1) as [a2 out2]. exact IH.
Qed.

(** X17: pending entries and timers of the ACK engine stay paired.  In the
    initial state and after any sequence of registrations, ACKs, NAKs, timer
    expiries and [clearPendingAcks], every pending entry holds the handle of
    a live timer for its own sequence number and every live timer is the one
    held by the entry of its sequence number.  A timer that fires therefore
    always finds its entry: [handleAckTimeout] starts with the
    ['ack_timeout'] event and never takes its early return. *)
Theorem ack_timers_paired (ops : list (Op * Z)) (a : t) (now : Z) :
  timers_inv new /\
  (timers_inv a ->
   let a' := (runOps ops a).1 in
   timers_inv a' /\
   forall h seqNum, timers a' !! h = Some seqNum ->
     exists p rest,
       pendingAcks a' !! seqNum = Some p /\ timeout p = h /\
       (fireTimer h now a').2
         = Emit (ack_timeout seqNum (retries p + 1) MAX_RETRIES) :: rest).
Proof.
  split; [exact timers_inv_new|]. intros Hinv a'.
  pose proof (runOps_timers_inv ops a Hinv) as Hinv'. fold a' in Hinv'.
  split; [exact Hinv'|]. intros h seqNum Hh.
  now apply (proj2 (fireTimer_timers_inv a' h now Hinv')).
Qed.

Lemma ack_timers_paired_witness :
  timers_inv (runOps [(op_register 0 [x7e] true, 0); (op_register 1 [x7e] true, 1);
                      (op_timer 0%nat, 2000); (op_ack 1, 2001)] new).1.
Proof.
  destruct (ack_timers_paired
              [(op_register 0 [x7e] true, 0); (op_register 1 [x7e] true, 1);
               (op_timer 0%nat, 2000); (op_ack 1, 2001)] new 0) as [Hnew Hrun].
  exact (proj1 (Hrun Hnew)).
Defined.

(** Every entry's retry counter stays below [MAX_RETRIES]. *)
Lemma runOp_retries_bounded (op : Op) (now : Z) (a : t) :
  timers_inv a -> retries_bounded a -> retries_bounded (runOp op now a).1.
Proof.
  intros Hinv Hb. pose proof Hinv as (I1 & I2 & I3).
  destruct op as [s f cb | s | s | h |]; unfold runOp.
  - destruct (registerPendingAck s f cb now a) as [[u a'] out] eqn:E. cbn [fst].
    revert E. run_ack.
    destruct (pendingAcks a !! s) as [p|] eqn:Hp; intros [= <- <-];
      intros s' q Hq; cbn [pendingAcks] in Hq; apply lookup_insert_Some in Hq;
      (destruct Hq as [[<- <-] | [_ Hq]]; [cbn; unfold MAX_RETRIES; lia | eapply Hb; eauto]).
  - destruct (handleReceivedAck_run a s now) as (k & a' & out & Hrun & HP & _).
    rewrite Hrun. cbn [fst]. intros s' q Hq. rewrite HP in Hq.
    apply lookup_delete_Some in Hq. destruct Hq as [_ Hq]. eapply Hb; eauto.
  - destruct (pendingAcks a !! s) as [p|] eqn:Hp.
    + rewrite (handleReceivedNak_pending a s now p Hp). cbn [fst].
      intros s' q Hq. cbn in Hq. apply lookup_insert_Some in Hq.
      destruct Hq as [[<- <-] | [_ Hq]]; [cbn; eapply Hb; eauto | eapply Hb; eauto].
    + destruct (handleReceivedNak_unknown a s now Hp) as (a' & Hrun & HP & _).
      rewrite Hrun. cbn [fst]. intros s' q Hq. rewrite HP in Hq. eapply Hb; eauto.
  - destruct (timers a !! h) as [s|] eqn:Hh.
    2:{ unfold fireTimer, bind, gets, ret. rewrite Hh. exact Hb. }
    destruct (I2 _ _ Hh) as (p & Hp & Hto).
    rewrite (fireTimer_live a h s now Hh).
    match goal with |- context [handleAckTimeout s now ?x] => set (a0 := x) end.
    destruct (handleAckTimeout_pending a0 s now p Hp) as (a' & out & Hrun & Hcases).
    rewrite Hrun. cbn [fst].
    destruct (Z.geb_spec (retries p + 1) MAX_RETRIES) as [Hmax|Hmax].
    + destruct Hcases as (HP & _). intros s' q Hq. rewrite HP in Hq.
      apply lookup_delete_Some in Hq. destruct Hq as [_ Hq]. eapply Hb; eauto.
    + destruct Hcases as (HP & _). intros s' q Hq. rewrite HP in Hq.
      apply lookup_insert_Some in Hq.
      destruct Hq as [[<- <-] | [_ Hq]]; [|eapply Hb; eauto].
      cbn. pose proof (Hb _ _ Hp). lia.
  - run_ack. intros s' q Hq. cbn in Hq. rewrite lookup_empty in Hq. discriminate.
Qed.

(** X18: the retry budget.  From any state in which entries and timers are
    paired and every retry counter is 0, 1 or 2 (the initial state is one),
    any sequence of registrations, ACKs, NAKs, timer expiries and
    [clearPendingAcks] leads to such a state again: an entry whose counter
    reaches [MAX_RETRIES] never stays in the map. *)
Theorem retries_stay_below_max (ops : list (Op * Z)) (a : t) :
  timers_inv a -> retries_bounded a ->
  retries_bounded (runOps ops a).1 /\ timers_inv (runOps ops a).1.
Proof.
  revert a. induction ops as [|[op now] ops IH]; intros a Hinv Hb; cbn [runOps].
  - split; assumption.
  - pose proof (runOp_timers_inv op now a Hinv) as H1.
    pose proof (runOp_retries_bounded op now a Hinv Hb) as H2.
    destruct (runOp op now a) as [a1 out1]. cbn [fst] in H1, H2.
    specialize (IH a1 H1 H2). destruct (runOps ops a1) as [a2 out2]. exact IH.
Qed.

Lemma retries_stay_below_max_witness :
  retries_bounded
    (runOps [(op_register 0 [x7e] true, 0); (op_timer 0%nat, 2000);
             (op_timer 1%nat, 4000); (op_timer 2%nat, 6000)] new).1.
Proof.
  refine (proj1 (retries_stay_below_max _ new timers_inv_new _)).
  intros s p Hp. cbn in Hp. rewrite lookup_empty in Hp. discriminate.
Defined.

End AckTimers.

Section AckRepliesFacts.
Import Constants FrameBuilder AcknowledgmentManager AckReplies.

(** A control frame without payload parses back to its type and number. *)
Lemma control_frame_parses (t s : Z) :
  FrameType.includes t = true -> 0 <= s < 16 ->
  exists fr f,
    buildFrame t s [] = Ok fr /\ parseFrame fr = Ok f /\
    type f = t /\ seqNum f = s /\ data f = [].
Proof.
  intros Ht Hs.
  pose proof (proj1 (includes_iff t) Ht) as Htr.
  eexists. eexists. split.
  - apply buildFrame_valid; [exact Ht | lia | cbn; unfold FieldSize.MAX_DATA; lia].
  - split.
    + apply parseFrame_framed. rewrite get_put by lia. exact Ht.
    + cbn [type seqNum data]. rewrite (land_0f_small s) by lia.
      rewrite !get_put by lia. rewrite (land_0f_small s) by lia. auto.
Qed.

Lemma sendAck_ok (seqNum : Z) (cb : bool) (a : t) :
  0 <= seqNum < 16 ->
  exists fr f a' out,
    sendAck seqNum cb a = Ok (a', out) /\
    createAckFrame seqNum = Ok fr /\
    parseFrame fr = Ok f /\ type f = FrameType.ACK /\ FrameBuilder.seqNum f = seqNum /\
    sentFrames out = (if cb then [fr] else []) /\
    receivedFrames a' = receivedFrames a /\ expectedSeqNum a' = expectedSeqNum a /\
    pendingAcks a' = pendingAcks a /\ timers a' = timers a /\
    acksSent (stats a') = acksSent (stats a) + 1 /\
    naksSent (stats a') = naksSent (stats a).
Proof.
  intros Hs.
  destruct (control_frame_parses FrameType.ACK seqNum eq_refl Hs)
    as (fr & f & Hb & Hp & Ht & Hq & _).
  exists fr, f. unfold sendAck, createAckFrame. rewrite Hb.
  eexists. eexists. split; [reflexivity|].
  split; [reflexivity|]. split; [exact Hp|]. split; [exact Ht|]. split; [exact Hq|].
  split; [destruct cb; reflexivity|]. cbn. auto 10.
Qed.

Lemma sendNak_ok (seqNum : Z) (cb : bool) (reason : NakReason) (a : t) :
  0 <= seqNum < 16 ->
  exists fr f a' out,
    sendNak seqNum cb reason a = Ok (a', out) /\
    createNakFrame seqNum = Ok fr /\
    parseFrame fr = Ok f /\ type f = FrameType.NAK /\ FrameBuilder.seqNum f = seqNum /\
    sentFrames out = (if cb then [fr] else []) /\
    receivedFrames a' = receivedFrames a /\ expectedSeqNum a' = expectedSeqNum a /\
    pendingAcks a' = pendingAcks a /\ timers a' = timers a /\
    naksSent (stats a') = naksSent (stats a) + 1 /\
    acksSent (stats a') = acksSent (stats a).
Proof.
  intros Hs.
  destruct (control_frame_parses FrameType.NAK seqNum eq_refl Hs)
    as (fr & f & Hb & Hp & Ht & Hq & _).
  exists fr, f. unfold sendNak, createNakFrame. rewrite Hb.
  eexists. eexists. split; [reflexivity|].
  split; [reflexivity|]. split; [exact Hp|]. split; [exact Ht|]. split; [exact Hq|].
  split; [destruct cb; reflexivity|]. cbn. auto 10.
Qed.

(** The three branches of [processReceivedDataFrame]. *)
Lemma processReceivedDataFrame_cases (seqNum : Z) (cb : bool) (a : t) :
  wf_replies a ->
  exists r a' out fr f,
    processReceivedDataFrame seqNum cb a = Ok (r, a', out) /\
    wf_replies a' /\
    receivedFrames a ⊆ receivedFrames a' /\
    sentFrames out = (if cb then [fr] else []) /\
    parseFrame fr = Ok f /\
    (seqNum = expectedSeqNum a ->
       r = accept seqNum ((seqNum + 1) mod 16) /\
       expectedSeqNum a' = (seqNum + 1) mod 16 /\
       seqNum ∈ receivedFrames a' /\
       type f = FrameType.ACK /\ FrameBuilder.seqNum f = seqNum) /\
    (seqNum <> expectedSeqNum a -> seqNum ∈ receivedFrames a ->
       r = duplicate seqNum (expectedSeqNum a) /\
       expectedSeqNum a' = expectedSeqNum a /\
       receivedFrames a' = receivedFrames a /\
       duplicatesDetected (stats a') = duplicatesDetected (stats a) + 1 /\
       type f = FrameType.ACK /\ FrameBuilder.seqNum f = seqNum) /\
    (seqNum <> expectedSeqNum a -> seqNum ∉ receivedFrames a ->
       r = out_of_order seqNum (expectedSeqNum a) /\
       expectedSeqNum a' = expectedSeqNum a /\
       receivedFrames a' = receivedFrames a /\
       type f = FrameType.NAK /\ FrameBuilder.seqNum f = expectedSeqNum a).
Proof.
  intros [He Hrec]. unfold processReceivedDataFrame.
  destruct (Z.eqb_spec seqNum (expectedSeqNum a)) as [Heq|Hne].
  - match goal with |- context [sendAck seqNum cb ?x] => set (a1 := x) end.
    destruct (sendAck_ok seqNum cb a1 ltac:(lia))
      as (fr & f & a' & out & Hrun & _ & Hp & Ht & Hq & Hsent & Hr & Hexp & _).
    rewrite Hrun. exists (accept seqNum (expectedSeqNum a')), a', out, fr, f.
    cbn [receivedFrames expectedSeqNum a1] in Hr, Hexp.
    rewrite nextSeqNum_mod in Hexp by lia.
    split; [reflexivity|]. split.
    { split; [rewrite Hexp; apply Z.mod_pos_bound; lia|].
      intros s Hs. rewrite Hr in Hs. apply elem_of_union in Hs.
      destruct Hs as [Hs|Hs]; [apply elem_of_singleton in Hs; lia | now apply Hrec]. }
    split; [rewrite Hr; apply union_subseteq_r|]. split; [exact Hsent|].
    split; [exact Hp|]. split; [|split; intros; contradiction].
    intros _. rewrite Hexp, <- Heq.
    split; [reflexivity|]. split; [reflexivity|].
    split; [rewrite Hr; apply elem_of_union_l, elem_of_singleton; reflexivity | auto].
  - destruct (bool_decide (seqNum ∈ receivedFrames a)) eqn:Hin.
    + apply bool_decide_eq_true in Hin.
      match goal with |- context [sendAck seqNum cb ?x] => set (a1 := x) end.
      destruct (sendAck_ok seqNum cb a1 (Hrec _ Hin))
        as (fr & f & a' & out & Hrun & _ & Hp & Ht & Hq & Hsent & Hr & Hexp & _ & _ & _ & _).
      rewrite Hrun. exists (duplicate seqNum (expectedSeqNum a')), a', out, fr, f.
      cbn [receivedFrames expectedSeqNum a1 set_stats] in Hr, Hexp.
      split; [reflexivity|]. split.
      { split; [rewrite Hexp; exact He | intros s Hs; rewrite Hr in Hs; now apply Hrec]. }
      split; [rewrite Hr; reflexivity|]. split; [exact Hsent|]. split; [exact Hp|].
      split; [intros; contradiction|]. split; [|intros; contradiction].
      intros _ _. rewrite Hexp. split; [reflexivity|]. split; [reflexivity|].
      split; [exact Hr|]. split; [|auto].
      revert Hrun. unfold sendAck. destruct (createAckFrame seqNum); [|discriminate].
      intros [= <- _]. reflexivity.
    + apply bool_decide_eq_false in Hin.
      destruct (sendNak_ok (expectedSeqNum a) cb reason_out_of_order_frame a He)
        as (fr & f & a' & out & Hrun & _ & Hp & Ht & Hq & Hsent & Hr & Hexp & _).
      rewrite Hrun. exists (out_of_order seqNum (expectedSeqNum a')), a', out, fr, f.
      split; [reflexivity|]. split.
      { split; [rewrite Hexp; exact He | intros s Hs; rewrite Hr in Hs; now apply Hrec]. }
      split; [rewrite Hr; reflexivity|]. split; [exact Hsent|]. split; [exact Hp|].
      split; [intros; contradiction|]. split; [intros; contradiction|].
      intros _ _. rewrite Hexp. auto.
Qed.

(** X19: the replies of [processReceivedDataFrame].  With the expected number
    in [0..15] and only such numbers remembered, the method never throws,
    whatever number arrives; it hands exactly one frame to the callback, and
    that frame parses as ACK of the received number when the number is the
    expected one or is remembered, and as NAK of the expected number
    otherwise; the set of remembered numbers never shrinks. *)
Theorem processReceivedDataFrame_replies (seqNum : Z) (a : t) :
  wf_replies a ->
  exists r a' out fr f,
    processReceivedDataFrame seqNum true a = Ok (r, a', out) /\
    wf_replies a' /\
    receivedFrames a ⊆ receivedFrames a' /\
    sentFrames out = [fr] /\
    parseFrame fr = Ok f /\
    (seqNum = expectedSeqNum a \/ seqNum ∈ receivedFrames a ->
       type f = FrameType.ACK /\ FrameBuilder.seqNum f = seqNum) /\
    (seqNum <> expectedSeqNum a -> seqNum ∉ receivedFrames a ->
       r = out_of_order seqNum (expectedSeqNum a) /\
       type f = FrameType.NAK /\ FrameBuilder.seqNum f = expectedSeqNum a) /\
    (seqNum = expectedSeqNum a ->
       r = accept seqNum ((seqNum + 1) mod 16) /\
       expectedSeqNum a' = (seqNum + 1) mod 16).
Proof.
  intros Hwf.
  destruct (processReceivedDataFrame_cases seqNum true a Hwf)
    as (r & a' & out & fr & f & Hrun & Hwf' & Hsub & Hsent & Hp & Hacc & Hdup & Hooo).
  exists r, a', out, fr, f.
  split; [exact Hrun|]. split; [exact Hwf'|]. split; [exact Hsub|].
  split; [exact Hsent|]. split; [exact Hp|]. split; [|split].
  - intros Hcase.
    destruct (Z.eq_dec seqNum (expectedSeqNum a)) as [Heq|Hne].
    + destruct (Hacc Heq) as (_ & _ & _ & Ht & Hq). auto.
    + destruct Hcase as [Heq|Hin]; [contradiction|].
      destruct (Hdup Hne Hin) as (_ & _ & _ & _ & Ht & Hq). auto.
  - intros Hne Hnin. destruct (Hooo Hne Hnin) as (Hr & _ & _ & Ht & Hq). auto.
  - intros Heq. destruct (Hacc Heq) as (Hr & He & _). auto.
Qed.

Lemma processReceivedDataFrame_replies_witness :
  exists r a' out fr f,
    processReceivedDataFrame 3 true new = Ok (r, a', out) /\
    sentFrames out = [fr] /\ parseFrame fr = Ok f /\
    r = out_of_order 3 0 /\ type f = FrameType.NAK /\ FrameBuilder.seqNum f = 0.
Proof.
  assert (Hwf : wf_replies new).
  { split; [cbn; lia|]. intros s Hs. cbn in Hs. apply elem_of_empty in Hs. contradiction. }
  destruct (processReceivedDataFrame_replies 3 new Hwf)
    as (r & a' & out & fr & f & Hrun & _ & _ & Hsent & Hp & _ & Hooo & _).
  exists r, a', out, fr, f.
  destruct Hooo as (Hr & Ht & Hq); [cbn; lia | cbn; apply not_elem_of_empty |].
  auto 10.
Defined.

Lemma acceptInOrder_run (cb : bool) (n : nat) :
  forall a, wf_replies a ->
    exists a',
      acceptInOrder n cb a = Ok a' /\ wf_replies a' /\
      expectedSeqNum a' = (expectedSeqNum a + Z.of_nat n) mod 16 /\
      receivedFrames a ⊆ receivedFrames a' /\
      forall i, (i < n)%nat ->
        (expectedSeqNum a + Z.of_nat i) mod 16 ∈ receivedFrames a'.
Proof.
  induction n as [|n IH]; intros a Hwf; cbn [acceptInOrder].
  - exists a. pose proof Hwf as [He _]. split; [reflexivity|]. split; [exact Hwf|].
    split; [rewrite Z.add_0_r, Z.mod_small by lia; reflexivity|].
    split; [reflexivity | intros; lia].
  - pose proof Hwf as [He _].
    destruct (processReceivedDataFrame_cases (expectedSeqNum a) cb a Hwf)
      as (r & a1 & out & fr & f & Hrun & Hwf1 & Hsub & _ & _ & Hacc & _).
    destruct (Hacc eq_refl) as (_ & He1 & Hin1 & _).
    rewrite Hrun.
    destruct (IH a1 Hwf1) as (a' & Hrun' & Hwf' & He' & Hsub' & Hall).
    exists a'. split; [exact Hrun'|]. split; [exact Hwf'|]. split.
    { rewrite He', He1, Z.add_mod_idemp_l by lia. f_equal. lia. }
    split; [etransitivity; eassumption|].
    intros [|i] Hi.
    + rewrite Z.add_0_r, Z.mod_small by lia. apply Hsub', Hin1.
    + specialize (Hall i ltac:(lia)). rewrite He1 in Hall.
      rewrite Z.add_mod_idemp_l in Hall by lia.
      replace (expectedSeqNum a + Z.of_nat (S i))
        with (expectedSeqNum a + 1 + Z.of_nat i) by lia.
      exact Hall.
Qed.

(** X20: [receivedFrames] is never pruned.  After sixteen DATA frames in
    order the expected number is back where it was and all sixteen sequence
    numbers are remembered; from then on every frame with a number in
    [0..15] other than the expected one is answered as a duplicate with an
    ACK of its own number, also a frame of the new cycle that has not been
    accepted, and no NAK is sent for it. *)
Theorem receivedFrames_never_pruned (a : t) (seqNum : Z) :
  wf_replies a -> 0 <= seqNum < 16 ->
  exists a16,
    acceptInOrder 16 true a = Ok a16 /\
    expectedSeqNum a16 = expectedSeqNum a /\
    (seqNum <> expectedSeqNum a16 ->
     exists a' out fr f,
       processReceivedDataFrame seqNum true a16
         = Ok (duplicate seqNum (expectedSeqNum a16), a', out) /\
       sentFrames out = [fr] /\ parseFrame fr = Ok f /\
       type f = FrameType.ACK /\ FrameBuilder.seqNum f = seqNum /\
       expectedSeqNum a' = expectedSeqNum a16).
Proof.
  intros Hwf Hs. pose proof Hwf as [He _].
  destruct (acceptInOrder_run true 16 a Hwf) as (a16 & Hrun & Hwf16 & He16 & _ & Hall).
  assert (Hexp : expectedSeqNum a16 = expectedSeqNum a).
  { rewrite He16. change (Z.of_nat 16) with 16. Z.div_mod_to_equations. lia. }
  exists a16. split; [exact Hrun|]. split; [exact Hexp|].
  intros Hne.
  assert (Hin : seqNum ∈ receivedFrames a16).
  { specialize (Hall (Z.to_nat ((seqNum - expectedSeqNum a) mod 16))).
    pose proof (Z.mod_pos_bound (seqNum - expectedSeqNum a) 16 ltac:(lia)) as Hk.
    rewrite Z2Nat.id in Hall by lia.
    replace ((expectedSeqNum a + (seqNum - expectedSeqNum a) mod 16) mod 16)
      with seqNum in Hall by (Z.div_mod_to_equations; lia).
    apply Hall. lia. }
  destruct (processReceivedDataFrame_cases seqNum true a16 Hwf16)
    as (r & a' & out & fr & f & Hrun' & _ & _ & Hsent & Hp & _ & Hdup & _).
  destruct (Hdup Hne Hin) as (Hr & He' & _ & _ & Ht & Hq).
  exists a', out, fr, f. rewrite Hrun', Hr. auto 10.
Qed.

Lemma receivedFrames_never_pruned_witness :
  exists a16 a' out,
    acceptInOrder 16 true new = Ok a16 /\
    processReceivedDataFrame 5 true a16 = Ok (duplicate 5 0, a', out).
Proof.
  assert (Hwf : wf_replies new).
  { split; [cbn; lia|]. intros s Hs. cbn in Hs. apply elem_of_empty in Hs. contradiction. }
  destruct (receivedFrames_never_pruned new 5 Hwf ltac:(lia))
    as (a16 & Hrun & Hexp & Hdup).
  destruct Hdup as (a' & out & fr & f & Hrun' & _); [rewrite Hexp; cbn; lia|].
  exists a16, a', out. rewrite Hexp in Hrun'. split; [exact Hrun | exact Hrun'].
Defined.

End AckRepliesFacts.

(** * The coordinator's receive path *)

Section ReceivePathFacts.
Import Constants WindowManager WindowRun.

Lemma deliverLoop_emitted budget :
  forall (w w' : t) acc out,
    deliverLoop budget w acc = Normal (w', out) -> emitted w' = emitted w.
Proof.
  induction budget as [|budget IH]; intros w w' acc out; cbn [deliverLoop];
    [discriminate|].
  destruct (bufferAt (receiveBuffer w) (expectedSeqNum w)); [discriminate| |].
  - intros [= <- _]. reflexivity.
  - intros H. apply IH in H. exact H.
Qed.

(** What [receiveFrame] emits, by result. *)
Lemma receiveFrame_events (w w' : t) (seqNum : Z) (data : list byte) (now : Z)
    (r : ReceiveResult) :
  receiveFrame seqNum data now w = Normal (r, w') ->
  match r with
  | recv_delivered _ _ =>
      exists c f l e, emitted w' = emitted w ++ [frames_delivered c f l e]
  | recv_buffered _ _ =>
      exists e n, emitted w' = emitted w ++ [frame_buffered seqNum e n]
  | _ => emitted w' = emitted w
  end.
Proof.
  unfold receiveFrame. cbn [expectedSeqNum set_stats windowSize].
  destruct (_ <? 0); [intros [= <- <-]; reflexivity|].
  destruct (_ >=? _); [intros [= <- <-]; reflexivity|].
  cbn [expectedSeqNum set_receiver].
  destruct (seqNum =? expectedSeqNum w).
  - unfold deliverFramesInOrder.
    destruct (deliverLoop _ _ _) as [[w1 out]| |] eqn:E; try discriminate.
    apply deliverLoop_emitted in E. cbn [emitted] in E.
    intros [= <- <-]. do 4 eexists. cbn [emitted emit]. rewrite E. reflexivity.
  - intros [= <- <-]. do 2 eexists. reflexivity.
Qed.

End ReceivePathFacts.

Section ReceivePathTheorems.
Import Constants.

(** A DATA frame with the expected number on a connected coordinator. *)
Lemma receiveFromPhysical_expected_data
    (d : ReceivePath.t) (raw : list byte) (frame : FrameBuilder.Frame) (now : Z) :
  ReceivePath.connected d ->
  WindowRun.wf_receiver (ReceivePath.windowManager d) ->
  0 < WindowManager.windowSize (ReceivePath.windowManager d) ->
  FrameBuilder.parseFrame raw = Ok frame ->
  FrameBuilder.type frame = FrameType.DATA ->
  FrameBuilder.seqNum frame = WindowManager.expectedSeqNum (ReceivePath.windowManager d) ->
  exists d' n,
    ReceivePath.receiveFromPhysical raw now d = Some d' /\
    ReceivePath.emitted d'
      = ReceivePath.emitted d
        ++ [ReceivePath.frame_received FrameType.DATA (FrameBuilder.seqNum frame)
              (Z.of_nat (FrameBuilder.payloadLength frame));
            ReceivePath.receive_error TypeError (Z.of_nat (length raw))] /\
    ReceivePath.transmitted d' = ReceivePath.transmitted d /\
    DataLinkLayer.ackManager (ReceivePath.node d')
      = DataLinkLayer.ackManager (ReceivePath.node d) /\
    DataLinkLayer.totalErrors (ReceivePath.node d')
      = DataLinkLayer.totalErrors (ReceivePath.node d) + 1 /\
    ReceivePath.totalFramesReceived d' = ReceivePath.totalFramesReceived d + 1 /\
    ReceivePath.totalDataBytesReceived d' = ReceivePath.totalDataBytesReceived d /\
    (1 <= n <= 16)%nat /\
    WindowManager.expectedSeqNum (ReceivePath.windowManager d')
      = (FrameBuilder.seqNum frame + Z.of_nat n) mod 16 /\
    WindowManager.bufferAt
      (WindowManager.receiveBuffer (ReceivePath.windowManager d'))
      (FrameBuilder.seqNum frame) = WindowManager.Null.
Proof.
  intros [Hconn Hphys] Hwf Hws Hparse Htype Hseq.
  unfold ReceivePath.windowManager in *.
  destruct (receiveFrame_expected _ (FrameBuilder.data frame) now Hwf Hws)
    as (w' & rest & Hrun & Hwf' & Hexp & Hfr & Hn).
  pose proof (receiveFrame_events _ _ _ _ _ _ Hrun) as Hev. cbv beta iota in Hev.
  destruct Hev as (c & f & l & e & Hev).
  unfold ReceivePath.receiveFromPhysical. rewrite Hparse.
  unfold ReceivePath.processReceivedFrame. rewrite Htype, Z.eqb_refl.
  unfold ReceivePath.processDataFrame, ReceivePath.isConnected.
  cbn [ReceivePath.connectionState ReceivePath.emit ReceivePath.node].
  rewrite Hconn. cbn [negb]. rewrite Hseq, Hrun, Hev, drop_app_length.
  cbn [ReceivePath.windowListeners ReceivePath.windowListener].
  eexists. exists (S (length rest)). split; [reflexivity|].
  cbn. rewrite <- app_assoc. cbn [app].
  split; [reflexivity|]. split; [reflexivity|]. split; [reflexivity|].
  split; [reflexivity|]. split; [reflexivity|]. split; [reflexivity|].
  split; [lia|]. split; [exact Hexp|].
  destruct (Hfr 0%nat _ eq_refl) as (_ & Hnull). exact Hnull.
Qed.

(** X21: inside the coordinator a DATA frame carrying the expected sequence
    number is consumed but neither delivered nor acknowledged.  The window
    manager takes the frame out of its buffer and advances, then emits
    ['frames_delivered']; the coordinator's listener for that event iterates
    a field the event does not have and throws, so [receiveFromPhysical]
    ends in its [catch]: it counts an error and emits ['receive_error'], no
    ['data_received'] is emitted, no ACK is built or transmitted and the
    payload bytes are not counted. *)
Theorem in_order_data_frame_not_acknowledged
    (d : ReceivePath.t) (raw : list byte) (frame : FrameBuilder.Frame) (now : Z) :
  ReceivePath.connected d ->
  WindowRun.wf_receiver (ReceivePath.windowManager d) ->
  0 < WindowManager.windowSize (ReceivePath.windowManager d) ->
  FrameBuilder.parseFrame raw = Ok frame ->
  FrameBuilder.type frame = FrameType.DATA ->
  FrameBuilder.seqNum frame = WindowManager.expectedSeqNum (ReceivePath.windowManager d) ->
  exists d' n,
    ReceivePath.receiveFromPhysical raw now d = Some d' /\
    ReceivePath.emitted d'
      = ReceivePath.emitted d
        ++ [ReceivePath.frame_received FrameType.DATA (FrameBuilder.seqNum frame)
              (Z.of_nat (FrameBuilder.payloadLength frame));
            ReceivePath.receive_error TypeError (Z.of_nat (length raw))] /\
    ReceivePath.transmitted d' = ReceivePath.transmitted d /\
    DataLinkLayer.ackManager (ReceivePath.node d')
      = DataLinkLayer.ackManager (ReceivePath.node d) /\
    DataLinkLayer.totalErrors (ReceivePath.node d')
      = DataLinkLayer.totalErrors (ReceivePath.node d) + 1 /\
    ReceivePath.totalFramesReceived d' = ReceivePath.totalFramesReceived d + 1 /\
    ReceivePath.totalDataBytesReceived d' = ReceivePath.totalDataBytesReceived d /\
    (1 <= n <= 16)%nat /\
    WindowManager.expectedSeqNum (ReceivePath.windowManager d')
      = (FrameBuilder.seqNum frame + Z.of_nat n) mod 16 /\
    WindowManager.bufferAt
      (WindowManager.receiveBuffer (ReceivePath.windowManager d'))
      (FrameBuilder.seqNum frame) = WindowManager.Null.
Proof.
  apply receiveFromPhysical_expected_data.
Qed.

Lemma in_order_data_frame_not_acknowledged_witness :
  exists d' n,
    ReceivePath.receiveFromPhysical [x7e; x01; x00; x48; x6f; x14; xa7; x7e] 5
      {| ReceivePath.node := DataLinkLayer.setPhysicalLayer DataLinkLayer.new;
         ReceivePath.connectionState := CONNECTED;
         ReceivePath.totalFramesReceived := 0;
         ReceivePath.totalDataBytesReceived := 0;
         ReceivePath.emitted := [] |} = Some d' /\
    ReceivePath.emitted d'
      = [ReceivePath.frame_received 1 0 2; ReceivePath.receive_error TypeError 8] /\
    ReceivePath.transmitted d' = [] /\
    WindowManager.expectedSeqNum (ReceivePath.windowManager d') = Z.of_nat n mod 16.
Proof.
  destruct (in_order_data_frame_not_acknowledged
              {| ReceivePath.node := DataLinkLayer.setPhysicalLayer DataLinkLayer.new;
                 ReceivePath.connectionState := CONNECTED;
                 ReceivePath.totalFramesReceived := 0;
                 ReceivePath.totalDataBytesReceived := 0;
                 ReceivePath.emitted := [] |}
              [x7e; x01; x00; x48; x6f; x14; xa7; x7e]
              {| FrameBuilder.type := 1; FrameBuilder.seqNum := 0;
                 FrameBuilder.data := [x48; x6f]; FrameBuilder.rawLength := 8;
                 FrameBuilder.payloadLength := 2; FrameBuilder.crc := 5287 |} 5)
    as (d' & n & Hrun & Hev & Htx & _ & _ & _ & _ & _ & Hexp & _).
  - split; reflexivity.
  - split; [reflexivity | cbn; lia].
  - reflexivity.
  - vm_compute. reflexivity.
  - reflexivity.
  - reflexivity.
  - exists d', n. split; [exact Hrun|]. split; [exact Hev|]. split; [exact Htx | exact Hexp].
Defined.

Lemma parseFrame_seqNum_range (raw : list byte) (frame : FrameBuilder.Frame) :
  FrameBuilder.parseFrame raw = Ok frame -> 0 <= FrameBuilder.seqNum frame < 16.
Proof.
  unfold FrameBuilder.parseFrame.
  destruct (_ <? 4)%nat; [discriminate|].
  destruct (_ || _); [discriminate|].
  destruct (BitStuffing.bitUnstuff _); [|discriminate].
  destruct (_ <? 4)%nat; [discriminate|].
  destruct (negb _); [discriminate|].
  destruct (CRC.data _) as [|c [|q rest]]; try discriminate.
  destruct (negb _); [discriminate|].
  intros [= <-]. cbn [FrameBuilder.seqNum].
  change 15 with (Z.ones 4). rewrite Z.land_ones by lia.
  apply Z.mod_pos_bound. reflexivity.
Qed.

(** The first steps of [receiveFromPhysical] on a DATA frame of a connected
    coordinator, up to the window manager's verdict. *)
Lemma receiveFromPhysical_data
    (d : ReceivePath.t) (raw : list byte) (frame : FrameBuilder.Frame) (now : Z) :
  ReceivePath.connected d ->
  FrameBuilder.parseFrame raw = Ok frame ->
  FrameBuilder.type frame = FrameType.DATA ->
  ReceivePath.receiveFromPhysical raw now d =
  match ReceivePath.processDataFrame frame now
          (ReceivePath.emit
             (ReceivePath.frame_received FrameType.DATA (FrameBuilder.seqNum frame)
                (Z.of_nat (FrameBuilder.payloadLength frame)))
             {| ReceivePath.node := ReceivePath.node d;
                ReceivePath.connectionState := ReceivePath.connectionState d;
                ReceivePath.totalFramesReceived := ReceivePath.totalFramesReceived d + 1;
                ReceivePath.totalDataBytesReceived := ReceivePath.totalDataBytesReceived d;
                ReceivePath.emitted := ReceivePath.emitted d |}) with
  | ReceivePath.Done d' => Some d'
  | ReceivePath.Thrown error d' =>
      Some (ReceivePath.emit (ReceivePath.receive_error error (Z.of_nat (length raw)))
              (ReceivePath.add_totalErrors d'))
  | ReceivePath.NotCovered => None
  end.
Proof.
  intros _ Hparse Htype.
  unfold ReceivePath.receiveFromPhysical. rewrite Hparse.
  unfold ReceivePath.processReceivedFrame. rewrite Htype, Z.eqb_refl. reflexivity.
Qed.

(** X22: the coordinator's answer to a DATA frame that is not the expected
    one, by its distance [k] ahead of the expected number.  A frame inside
    the window is stored and announced with ['frame_buffered'], a frame at
    distance [windowSize .. 8] is announced with ['frame_out_of_window'];
    in both cases nothing is transmitted.  A frame one to seven behind is
    answered with one transmitted frame that parses as ACK of the frame's
    own number.  In all three cases the payload length is added to
    [totalDataBytesReceived], also for the frame that was dropped. *)
Theorem data_frame_replies
    (d : ReceivePath.t) (raw : list byte) (frame : FrameBuilder.Frame) (now : Z) :
  ReceivePath.connected d ->
  WindowRun.wf_receiver (ReceivePath.windowManager d) ->
  0 < WindowManager.windowSize (ReceivePath.windowManager d) <= WINDOW_SIZE ->
  FrameBuilder.parseFrame raw = Ok frame ->
  FrameBuilder.type frame = FrameType.DATA ->
  FrameBuilder.seqNum frame
    <> WindowManager.expectedSeqNum (ReceivePath.windowManager d) ->
  let e := WindowManager.expectedSeqNum (ReceivePath.windowManager d) in
  let k := (FrameBuilder.seqNum frame - e) mod 16 in
  let received :=
    ReceivePath.frame_received FrameType.DATA (FrameBuilder.seqNum frame)
      (Z.of_nat (FrameBuilder.payloadLength frame)) in
  exists d',
    ReceivePath.receiveFromPhysical raw now d = Some d' /\
    ReceivePath.totalDataBytesReceived d'
      = ReceivePath.totalDataBytesReceived d
        + Z.of_nat (length (FrameBuilder.data frame)) /\
    DataLinkLayer.totalErrors (ReceivePath.node d')
      = DataLinkLayer.totalErrors (ReceivePath.node d) /\
    WindowManager.expectedSeqNum (ReceivePath.windowManager d') = e /\
    (k < WindowManager.windowSize (ReceivePath.windowManager d) ->
       ReceivePath.transmitted d' = ReceivePath.transmitted d /\
       ReceivePath.emitted d'
         = ReceivePath.emitted d
           ++ [received; ReceivePath.frame_buffered (FrameBuilder.seqNum frame) e]) /\
    (WindowManager.windowSize (ReceivePath.windowManager d) <= k <= 8 ->
       ReceivePath.transmitted d' = ReceivePath.transmitted d /\
       ReceivePath.emitted d'
         = ReceivePath.emitted d
           ++ [received; ReceivePath.frame_out_of_window (FrameBuilder.seqNum frame) e]) /\
    (8 < k ->
       exists fr f,
         ReceivePath.transmitted d' = ReceivePath.transmitted d ++ [fr] /\
         FrameBuilder.parseFrame fr = Ok f /\
         FrameBuilder.type f = FrameType.ACK /\
         FrameBuilder.seqNum f = FrameBuilder.seqNum frame /\
         ReceivePath.emitted d'
           = ReceivePath.emitted d
             ++ [received;
                 ReceivePath.ack_sent (FrameBuilder.seqNum frame)
                   (Z.of_nat (length fr))]).
Proof.
  intros Hc Hwf Hws Hparse Htype Hne e k received.
  pose proof Hc as [Hconn Hphys].
  pose proof (parseFrame_seqNum_range raw frame Hparse) as Hs.
  unfold WINDOW_SIZE in Hws. subst e k.
  unfold ReceivePath.windowManager in *. pose proof Hwf as [Hlen He].
  set (w0 := DataLinkLayer.windowManager (ReceivePath.node d)) in *.
  pose proof (seqNumDiff_mod (FrameBuilder.seqNum frame)
                (WindowManager.expectedSeqNum w0) Hs He) as Hd.
  pose proof (Z.mod_pos_bound (FrameBuilder.seqNum frame
                               - WindowManager.expectedSeqNum w0) 16 ltac:(lia)) as Hk.
  assert (Hnz : (FrameBuilder.seqNum frame - WindowManager.expectedSeqNum w0) mod 16 <> 0)
    by (revert Hne; clear -Hs He; intros Hne; Z.div_mod_to_equations; lia).
  rewrite (receiveFromPhysical_data d raw frame now Hc Hparse Htype).
  unfold ReceivePath.processDataFrame, ReceivePath.isConnected.
  cbn [ReceivePath.connectionState ReceivePath.emit ReceivePath.node].
  rewrite Hconn. cbn [negb]. fold w0.
  destruct (Z.gtb_spec ((FrameBuilder.seqNum frame - WindowManager.expectedSeqNum w0)
                        mod 16) 8) as [Hbehind|Hahead].
  - (* one to seven behind: a duplicate, acknowledged again *)
    assert (Hneg : Utils.seqNumDiff (FrameBuilder.seqNum frame)
                     (WindowManager.expectedSeqNum w0) < 0) by lia.
    destruct (receiveFrame_rejected w0 (FrameBuilder.seqNum frame)
                (FrameBuilder.data frame) now (or_introl Hneg))
      as (r & w' & Hrun & Hr & Hexp & Hbuf & Hw).
    assert (Hdup : r = WindowManager.recv_duplicate (FrameBuilder.seqNum frame)
                         (WindowManager.expectedSeqNum w0)).
    { revert Hrun. unfold WindowManager.receiveFrame.
      cbn [WindowManager.expectedSeqNum WindowManager.set_stats WindowManager.windowSize].
      fold w0.
      destruct (Z.ltb_spec (Utils.seqNumDiff (FrameBuilder.seqNum frame)
                              (WindowManager.expectedSeqNum w0)) 0); [|lia].
      intros [= <- _]. reflexivity. }
    subst r. pose proof (receiveFrame_events _ _ _ _ _ _ Hrun) as Hev.
    cbv beta iota in Hev. rewrite Hrun, Hev, drop_all.
    cbn [ReceivePath.windowListeners].
    unfold ReceivePath.sendAck.
    cbn [ReceivePath.node ReceivePath.set_node DataLinkLayer.set_managers
         DataLinkLayer.ackManager DataLinkLayer.windowManager].
    destruct (sendAck_ok (FrameBuilder.seqNum frame) true
                (DataLinkLayer.ackManager (ReceivePath.node d)) Hs)
      as (fr & f & a' & out & Hsend & Hfr & Hp & Ht & Hq & _).
    rewrite Hsend.
    assert (Hout : out = [AckReplies.Emit (AckReplies.ack_sending (FrameBuilder.seqNum frame));
                          AckReplies.send fr;
                          AckReplies.Emit (AckReplies.ack_sent (FrameBuilder.seqNum frame)
                                             (Z.of_nat (length fr)))]).
    { revert Hsend. unfold AckReplies.sendAck. rewrite Hfr. intros [= _ <-]. reflexivity. }
    subst out.
    cbn [ReceivePath.reactAll ReceivePath.react].
    unfold DataLinkLayer.sendFrameToPhysical.
    cbn [ReceivePath.node ReceivePath.set_node ReceivePath.emit
         DataLinkLayer.set_managers DataLinkLayer.physicalLayerCallback
         DataLinkLayer.windowManager DataLinkLayer.ackManager DataLinkLayer.transmitted
         DataLinkLayer.totalFramesSent DataLinkLayer.totalDataBytesSent
         DataLinkLayer.totalErrors DataLinkLayer.emitted].
    rewrite Hphys. cbn [negb].
    eexists. split; [reflexivity|].
    cbn. rewrite <- !app_assoc. cbn [app].
    split; [reflexivity|]. split; [reflexivity|]. split; [exact Hexp|].
    split; [intros; lia|]. split; [intros; lia|].
    intros _. exists fr, f. auto 10.
  - destruct (Z_lt_le_dec ((FrameBuilder.seqNum frame - WindowManager.expectedSeqNum w0)
                           mod 16) (WindowManager.windowSize w0)) as [Hin|Hout].
    + (* inside the window: stored *)
      destruct (receiveFrame_buffered w0 (FrameBuilder.seqNum frame)
                  (FrameBuilder.data frame) now Hwf Hs Hne ltac:(lia))
        as (w' & Hrun & _ & Hexp & _).
      pose proof (receiveFrame_events _ _ _ _ _ _ Hrun) as Hev.
      cbv beta iota in Hev. destruct Hev as (e' & n & Hev).
      rewrite Hrun, Hev, drop_app_length.
      cbn [ReceivePath.windowListeners ReceivePath.windowListener].
      eexists. split; [reflexivity|].
      cbn. rewrite <- !app_assoc. cbn [app].
      split; [reflexivity|]. split; [reflexivity|]. split; [exact Hexp|].
      split; [intros _; auto|]. split; intros; lia.
    + (* beyond the window *)
      assert (Hfar : WindowManager.windowSize w0
                     <= Utils.seqNumDiff (FrameBuilder.seqNum frame)
                          (WindowManager.expectedSeqNum w0)) by lia.
      destruct (receiveFrame_rejected w0 (FrameBuilder.seqNum frame)
                  (FrameBuilder.data frame) now (or_intror Hfar))
        as (r & w' & Hrun & Hr & Hexp & Hbuf & Hw).
      assert (Hoow : r = WindowManager.recv_out_of_window (FrameBuilder.seqNum frame)
                           (WindowManager.expectedSeqNum w0)).
      { revert Hrun. unfold WindowManager.receiveFrame.
        cbn [WindowManager.expectedSeqNum WindowManager.set_stats WindowManager.windowSize].
        fold w0.
        destruct (Z.ltb_spec (Utils.seqNumDiff (FrameBuilder.seqNum frame)
                                (WindowManager.expectedSeqNum w0)) 0); [lia|].
        destruct (Z.geb_spec (Utils.seqNumDiff (FrameBuilder.seqNum frame)
                                (WindowManager.expectedSeqNum w0))
                    (WindowManager.windowSize w0)); [|lia].
        intros [= <- _]. reflexivity. }
      subst r. pose proof (receiveFrame_events _ _ _ _ _ _ Hrun) as Hev.
      cbv beta iota in Hev. rewrite Hrun, Hev, drop_all.
      cbn [ReceivePath.windowListeners].
      eexists. split; [reflexivity|].
      cbn. rewrite <- !app_assoc. cbn [app].
      split; [reflexivity|]. split; [reflexivity|]. split; [exact Hexp|].
      split; [intros; lia|]. split; [intros _; auto | intros; lia].
Qed.

Lemma data_frame_replies_witness :
  exists d' fr,
    ReceivePath.receiveFromPhysical [x7e; x01; x0c; x48; x6f; x61; xc6; x7e] 5
      {| ReceivePath.node := DataLinkLayer.setPhysicalLayer DataLinkLayer.new;
         ReceivePath.connectionState := CONNECTED;
         ReceivePath.totalFramesReceived := 0;
         ReceivePath.totalDataBytesReceived := 0;
         ReceivePath.emitted := [] |} = Some d' /\
    ReceivePath.totalDataBytesReceived d' = 2 /\
    ReceivePath.transmitted d' = [fr] /\
    ReceivePath.emitted d'
      = [ReceivePath.frame_received 1 12 2;
         ReceivePath.ack_sent 12 (Z.of_nat (length fr))].
Proof.
  destruct (data_frame_replies
              {| ReceivePath.node := DataLinkLayer.setPhysicalLayer DataLinkLayer.new;
                 ReceivePath.connectionState := CONNECTED;
                 ReceivePath.totalFramesReceived := 0;
                 ReceivePath.totalDataBytesReceived := 0;
                 ReceivePath.emitted := [] |}
              [x7e; x01; x0c; x48; x6f; x61; xc6; x7e]
              {| FrameBuilder.type := 1; FrameBuilder.seqNum := 12;
                 FrameBuilder.data := [x48; x6f]; FrameBuilder.rawLength := 8;
                 FrameBuilder.payloadLength := 2; FrameBuilder.crc := 25030 |} 5)
    as (d' & Hrun & Hbytes & _ & _ & _ & _ & Hdup).
  - split; reflexivity.
  - split; [reflexivity | cbn; lia].
  - vm_compute. split; [reflexivity | discriminate].
  - vm_compute. reflexivity.
  - reflexivity.
  - cbn. lia.
  - destruct Hdup as (fr & f & Htx & _ & _ & _ & Hev); [vm_compute; reflexivity|].
    exists d', fr. split; [exact Hrun|]. split; [exact Hbytes|].
    split; [exact Htx | exact Hev].
Defined.

End ReceivePathTheorems.

(** * Further properties of the connection manager *)

Section DisconnectionFacts.
Import Constants ConnectionManager.

Lemma handleDisconnectionRequest_connected (c : t) (remote : Z) :
  state c = CONNECTED -> 0 <= localSeqNum c <= 15 ->
  exists raw,
    FrameBuilder.createDataFrame (localSeqNum c) str_DISC_ACK = Ok raw /\
    handleDisconnectionRequest remote c =
      Normal (true,
              {| state := state c;
                 localSeqNum := localSeqNum c; remoteSeqNum := remoteSeqNum c;
                 sendCallback := sendCallback c;
                 connectionTimeout := connectionTimeout c;
                 heartbeatTimer := heartbeatTimer c;
                 stats := stats c;
                 timers := <[nextTimer c := task_handleDisconnection 100]> (timers c);
                 nextTimer := S (nextTimer c) |},
              (if sendCallback c then [send raw] else [])
              ++ [Emit (disconnection_request remote)]).
Proof.
  intros Hst Hseq. unfold handleDisconnectionRequest.
  rewrite Hst. unfold FrameBuilder.createDataFrame.
  assert (Hlen : Z.of_nat (length str_DISC_ACK) <= FieldSize.MAX_DATA)
    by (vm_compute; discriminate).
  rewrite (buildFrame_valid FrameType.DATA (localSeqNum c) str_DISC_ACK eq_refl Hseq Hlen).
  eexists. split; reflexivity.
Qed.

(** The expiry of a live disconnection timer whose handle is none of the
    two handles [handleDisconnection] cancels. *)
Lemma fireTimer_disconnects (c : t) (h : nat) (now delay : Z) :
  timers c !! h = Some (task_handleDisconnection delay) ->
  exists c',
    fireTimer h now c
      = (c', [Emit (disconnected
                      (match connectionStartTime (stats c) with
                       | Some start => connectionUptime (stats c) + (now - start)
                       | None => connectionUptime (stats c)
                       end))]) /\
    state c' = DISCONNECTED /\
    disconnections (stats c') = disconnections (stats c) + 1 /\
    connectionStartTime (stats c') = None /\
    connectionUptime (stats c')
      = match connectionStartTime (stats c) with
        | Some start => connectionUptime (stats c) + (now - start)
        | None => connectionUptime (stats c)
        end /\
    heartbeatTimer c' = None /\ connectionTimeout c' = None /\
    nextTimer c' = nextTimer c /\
    forall k, k <> h -> heartbeatTimer c <> Some k -> connectionTimeout c <> Some k ->
              timers c' !! k = timers c !! k.
Proof.
  intros Hh. unfold fireTimer. rewrite Hh. unfold handleDisconnection.
  cbn [state localSeqNum remoteSeqNum sendCallback connectionTimeout heartbeatTimer
       stats timers nextTimer].
  destruct (connectionStartTime (stats c)) as [start|] eqn:E;
    (eexists; split; [reflexivity|];
     cbn [state stats heartbeatTimer connectionTimeout nextTimer timers
          disconnections connectionStartTime connectionUptime];
     rewrite ?E;
     repeat (split; [reflexivity|]);
     intros k Hk Hhb Hct;
     destruct (connectionTimeout c) as [ct|]; destruct (heartbeatTimer c) as [hb|];
     repeat (rewrite lookup_delete_ne by congruence); reflexivity).
Qed.

(** X23: a disconnection is not guarded by the state.  A CONNECTED peer
    stays CONNECTED for the 100 ms after a DISC frame, so a second DISC frame
    in that time arms a second timer; when both expire
    [handleDisconnection] runs twice: ['disconnected'] is emitted twice with
    the same uptime and the [disconnections] statistic grows by two for one
    connection. *)
Theorem repeated_disc_request_disconnects_twice (c : t) (r1 r2 t1 t2 : Z) :
  state c = CONNECTED -> 0 <= localSeqNum c <= 15 ->
  (forall h, heartbeatTimer c = Some h -> (h < nextTimer c)%nat) ->
  (forall h, connectionTimeout c = Some h -> (h < nextTimer c)%nat) ->
  exists c1 o1 c2 o2 c3 c4 uptime,
    handleDisconnectionRequest r1 c = Normal (true, c1, o1) /\
    state c1 = CONNECTED /\
    handleDisconnectionRequest r2 c1 = Normal (true, c2, o2) /\
    fireTimer (nextTimer c) t1 c2 = (c3, [Emit (disconnected uptime)]) /\
    fireTimer (S (nextTimer c)) t2 c3 = (c4, [Emit (disconnected uptime)]) /\
    state c3 = DISCONNECTED /\ state c4 = DISCONNECTED /\
    disconnections (stats c4) = disconnections (stats c) + 2.
Proof.
  intros Hst Hseq Hhb Hct.
  destruct (handleDisconnectionRequest_connected c r1 Hst Hseq) as (raw1 & _ & Hrun1).
  match type of Hrun1 with _ = Normal (_, ?x, ?o) => set (c1 := x) in *; set (o1 := o) in * end.
  assert (Hst1 : state c1 = CONNECTED) by exact Hst.
  destruct (handleDisconnectionRequest_connected c1 r2 Hst1 Hseq) as (raw2 & _ & Hrun2).
  match type of Hrun2 with _ = Normal (_, ?x, ?o) => set (c2 := x) in *; set (o2 := o) in * end.
  assert (Hl1 : timers c2 !! nextTimer c = Some (task_handleDisconnection 100)).
  { cbn. rewrite lookup_insert_ne by lia. apply lookup_insert_eq. }
  destruct (fireTimer_disconnects c2 (nextTimer c) t1 100 Hl1)
    as (c3 & Hf1 & Hs3 & Hd3 & Hstart3 & Hup3 & Hhb3 & Hct3 & Hn3 & Hkeep).
  assert (Hl2 : timers c3 !! S (nextTimer c) = Some (task_handleDisconnection 100)).
  { rewrite Hkeep.
    - cbn. apply lookup_insert_eq.
    - lia.
    - cbn. intros H. apply Hhb in H. lia.
    - cbn. intros H. apply Hct in H. lia. }
  destruct (fireTimer_disconnects c3 (S (nextTimer c)) t2 100 Hl2)
    as (c4 & Hf2 & Hs4 & Hd4 & _ & _).
  rewrite Hstart3, Hup3 in Hf2.
  exists c1, o1, c2, o2, c3, c4. eexists.
  split; [exact Hrun1|]. split; [exact Hst1|]. split; [exact Hrun2|].
  split; [exact Hf1|]. split; [exact Hf2|]. split; [exact Hs3|]. split; [exact Hs4|].
  rewrite Hd4, Hd3. cbn. lia.
Qed.

Lemma repeated_disc_request_disconnects_twice_witness :
  exists c1 o1 c2 o2 c3 c4 uptime,
    handleDisconnectionRequest 0
      {| state := CONNECTED; localSeqNum := 0; remoteSeqNum := 0;
         sendCallback := true; connectionTimeout := None;
         heartbeatTimer := Some 0%nat;
         stats := {| connectionsEstablished := 1; connectionsFailed := 0;
                     disconnections := 0; heartbeatsSent := 0;
                     heartbeatsReceived := 0; connectionUptime := 0;
                     connectionStartTime := Some 1000 |};
         timers := ∅; nextTimer := 1 |} = Normal (true, c1, o1) /\
    handleDisconnectionRequest 0 c1 = Normal (true, c2, o2) /\
    fireTimer 1 1100 c2 = (c3, [Emit (disconnected uptime)]) /\
    fireTimer 2 1150 c3 = (c4, [Emit (disconnected uptime)]) /\
    disconnections (stats c4) = 2.
Proof.
  destruct (repeated_disc_request_disconnects_twice
              {| state := CONNECTED; localSeqNum := 0; remoteSeqNum := 0;
                 sendCallback := true; connectionTimeout := None;
                 heartbeatTimer := Some 0%nat;
                 stats := {| connectionsEstablished := 1; connectionsFailed := 0;
                             disconnections := 0; heartbeatsSent := 0;
                             heartbeatsReceived := 0; connectionUptime := 0;
                             connectionStartTime := Some 1000 |};
                 timers := ∅; nextTimer := 1 |} 0 0 1100 1150)
    as (c1 & o1 & c2 & o2 & c3 & c4 & u & H1 & _ & H2 & H3 & H4 & _ & _ & H5).
  - reflexivity.
  - cbn. lia.
  - cbn. intros h [= <-]. lia.
  - cbn. intros h [=].
  - exists c1, o1, c2, o2, c3, c4, u. auto 10.
Defined.

End DisconnectionFacts.

(** * Acknowledgement round trips *)

Section AckRoundTrip.
Import Constants AcknowledgmentManager AckInv.


(** X25: registration followed by its acknowledgement.  In a state where
    entries and timers are paired and [seqNum] is not pending, registering a
    frame and then receiving its ACK leaves the pending map and the set of
    live timers exactly as they were; the ACK is reported with the time
    between the two calls as round-trip time and with no retry. *)
Theorem register_then_ack_restores (a : t) (seqNum : Z) (fr : list byte) (cb : bool)
    (now now' : Z) :
  timers_inv a -> pendingAcks a !! seqNum = None ->
  let a1 := (registerPendingAck seqNum fr cb now a).1.2 in
  let '(known, a2, out) := handleReceivedAck seqNum now' a1 in
  known = true /\
  out = [Emit (ack_received seqNum (now' - now) 0)] /\
  pendingAcks a2 = pendingAcks a /\ timers a2 = timers a /\
  nextTimer a2 = S (nextTimer a) /\
  timers_inv a2.
Proof.
  intros Hinv Hnone. pose proof Hinv as (I1 & I2 & I3).
  assert (Hfresh : timers a !! nextTimer a = None).
  { destruct (timers a !! nextTimer a) as [s|] eqn:E; [|reflexivity].
    apply I3 in E. lia. }
  pose proof (registerPendingAck_timers_inv a seqNum fr cb now Hinv) as Hinv1.
  revert Hinv1.
  unfold registerPendingAck, bind, gets, modify, emit, ret, clearTimeout, setTimeout,
    set_stats, set_pendingAcks.
  cbn [pendingAcks receivedFrames expectedSeqNum stats timers nextTimer fst snd].
  rewrite Hnone.
  cbn [pendingAcks receivedFrames expectedSeqNum stats timers nextTimer fst snd].
  match goal with |- timers_inv ?x -> _ => set (a1 := x) end. intros Hinv1.
  pose proof (handleReceivedAck_timers_inv a1 seqNum now' Hinv1) as Hinv2.
  revert Hinv2.
  unfold handleReceivedAck, bind, gets, modify, emit, ret, clearTimeout,
    set_stats, set_pendingAcks.
  cbn [pendingAcks receivedFrames expectedSeqNum stats timers nextTimer fst snd a1].
  rewrite lookup_insert_eq.
  cbn [pendingAcks receivedFrames expectedSeqNum stats timers nextTimer fst snd
       timestamp retries timeout app].
  intros Hinv2. cbn.
  split; [reflexivity|]. split; [reflexivity|].
  split; [rewrite delete_insert_eq; now apply delete_id|].
  split; [rewrite delete_insert_eq; now apply delete_id|].
  split; [reflexivity | exact Hinv2].
Qed.

Lemma register_then_ack_restores_witness :
  let '(known, a2, out) :=
    handleReceivedAck 4 130 (registerPendingAck 4 [x7e] true 100 new).1.2 in
  known = true /\ out = [Emit (ack_received 4 30 0)] /\ pendingAcks a2 = ∅.
Proof.
  pose proof (register_then_ack_restores new 4 [x7e] true 100 130
                timers_inv_new (lookup_empty 4)) as H.
  cbv zeta in H.
  destruct (handleReceivedAck 4 130 (registerPendingAck 4 [x7e] true 100 new).1.2)
    as [[known a2] out].
  destruct H as (H1 & H2 & H3 & _). auto.
Defined.

End AckRoundTrip.

(** * Sender and receiver together *)

Section EndToEnd.
Import Constants.

Lemma buildFrame_parses (t s : Z) (d : list byte) :
  FrameType.includes t = true -> 0 <= s <= 15 -> (length d <= 1024)%nat ->
  exists fr f,
    FrameBuilder.buildFrame t s d = Ok fr /\ FrameBuilder.parseFrame fr = Ok f /\
    FrameBuilder.type f = t /\ FrameBuilder.seqNum f = s /\ FrameBuilder.data f = d /\
    FrameBuilder.payloadLength f = length d.
Proof.
  intros Ht Hs Hd.
  pose proof (proj1 (includes_iff t) Ht) as Htr.
  eexists. eexists. split.
  - apply buildFrame_valid; [exact Ht | exact Hs | unfold FieldSize.MAX_DATA; lia].
  - split.
    + apply parseFrame_framed. rewrite get_put by lia. exact Ht.
    + cbn [FrameBuilder.type FrameBuilder.seqNum FrameBuilder.data
           FrameBuilder.payloadLength].
      rewrite (land_0f_small s Hs).
      rewrite !get_put by lia. rewrite (land_0f_small s Hs). auto.
Qed.

(** X26: a cumulative ACK empties the window.  On a sender with frames
    outstanding, the ACK of the frame sent last slides [sendBase] up to
    [nextSeqNum] in one step: nothing is outstanding afterwards and the
    reported slide distance is the number of frames that were outstanding. *)
Theorem cumulative_ack_empties_window (w : WindowManager.t) :
  WindowInv.wf_sender w -> 0 < WindowInv.outstanding w ->
  let ack := (WindowManager.nextSeqNum w - 1) mod 16 in
  fst (WindowManager.processAck ack w)
    = WindowManager.ack_accepted ack (WindowManager.sendBase w)
        (WindowManager.nextSeqNum w) (WindowInv.outstanding w) /\
  WindowManager.sendBase (snd (WindowManager.processAck ack w))
    = WindowManager.nextSeqNum w /\
  WindowInv.outstanding (snd (WindowManager.processAck ack w)) = 0 /\
  WindowManager.canSend (snd (WindowManager.processAck ack w)) = true /\
  WindowInv.wf_sender (snd (WindowManager.processAck ack w)).
Proof.
  intros Hwf Hpos ack. pose proof Hwf as (Hb & Hn & Hws & Ho).
  unfold WINDOW_SIZE in Hws.
  pose proof (Z.mod_pos_bound (WindowManager.nextSeqNum w - 1) 16 ltac:(lia)) as Hack.
  fold ack in Hack.
  assert (Hk : WindowInv.outstanding w
               = (WindowManager.nextSeqNum w - WindowManager.sendBase w) mod 16).
  { apply seqNumDiff_nonneg_inv; [exact Hn | exact Hb | apply Ho]. }
  assert (Hd : Utils.seqNumDiff ack (WindowManager.sendBase w)
               = WindowInv.outstanding w - 1).
  { rewrite seqNumDiff_mod by lia.
    assert (Hm : (ack - WindowManager.sendBase w) mod 16 = WindowInv.outstanding w - 1).
    { subst ack. rewrite Hk in *. Z.div_mod_to_equations. lia. }
    rewrite Hm. destruct (Z.gtb_spec (WindowInv.outstanding w - 1) 8); lia. }
  assert (Hnext : (ack + 1) mod 16 = WindowManager.nextSeqNum w).
  { subst ack. Z.div_mod_to_equations. lia. }
  pose proof (processAck_cases w ack Hack Hb ltac:(unfold WINDOW_SIZE; lia)) as Hc.
  cbv zeta in Hc. destruct Hc as (_ & _ & Hacc & _ & _ & Hsize).
  destruct (Hacc ltac:(lia)) as (Hbase & Hr & _ & _).
  destruct (processAck_outstanding w ack Hwf Hack ltac:(lia)) as (Hout & Hwf').
  rewrite Hnext in Hbase, Hr. rewrite Hd in Hr, Hout.
  replace (WindowInv.outstanding w - 1 + 1) with (WindowInv.outstanding w) in Hr by lia.
  split; [exact Hr|]. split; [exact Hbase|]. split; [lia|]. split; [|exact Hwf'].
  unfold WindowManager.canSend.
  fold (WindowInv.outstanding (snd (WindowManager.processAck ack w))).
  rewrite Hsize. apply Z.ltb_lt. lia.
Qed.

Lemma cumulative_ack_empties_window_witness :
  let w := snd (WindowManager.getNextSeqNum
                  (snd (WindowManager.getNextSeqNum
                          (snd (WindowManager.getNextSeqNum WindowManager.new))))) in
  fst (WindowManager.processAck 2 w) = WindowManager.ack_accepted 2 0 3 3 /\
  WindowInv.outstanding (snd (WindowManager.processAck 2 w)) = 0.
Proof.
  intros w.
  destruct (cumulative_ack_empties_window w) as (H1 & _ & H3 & _).
  - vm_compute. repeat split; discriminate.
  - vm_compute. reflexivity.
  - split; [exact H1 | exact H3].
Defined.

(** X27: one DATA frame from sender to receiver.  A coordinator with room in
    its window sends a payload; its peer is connected and expects exactly
    that sequence number.  The frame on the wire parses at the peer as the
    DATA frame that was sent, and the peer then ends in ['receive_error']:
    it transmits nothing back, so the sender's pending entry and its timer
    stay in place until the timeout path takes over. *)
Theorem sent_frame_gets_no_ack
    (a : DataLinkLayer.t) (b : ReceivePath.t) (data : list byte) (now now' : Z) :
  DataLinkLayer.physicalLayerCallback a = true ->
  WindowManager.canSend (DataLinkLayer.windowManager a) = true ->
  0 <= WindowManager.nextSeqNum (DataLinkLayer.windowManager a) <= 15 ->
  (length data <= 1024)%nat ->
  ReceivePath.connected b ->
  WindowRun.wf_receiver (ReceivePath.windowManager b) ->
  0 < WindowManager.windowSize (ReceivePath.windowManager b) ->
  WindowManager.expectedSeqNum (ReceivePath.windowManager b)
    = WindowManager.nextSeqNum (DataLinkLayer.windowManager a) ->
  let s := WindowManager.nextSeqNum (DataLinkLayer.windowManager a) in
  exists fr a' b' p,
    DataLinkLayer.sendDataFrame data now a = Normal (DataLinkLayer.sent s, a') /\
    DataLinkLayer.transmitted a' = DataLinkLayer.transmitted a ++ [fr] /\
    ReceivePath.receiveFromPhysical fr now' b = Some b' /\
    ReceivePath.transmitted b' = ReceivePath.transmitted b /\
    ReceivePath.emitted b'
      = ReceivePath.emitted b
        ++ [ReceivePath.frame_received FrameType.DATA s (Z.of_nat (length data));
            ReceivePath.receive_error TypeError (Z.of_nat (length fr))] /\
    AcknowledgmentManager.pendingAcks (DataLinkLayer.ackManager a') !! s = Some p /\
    AcknowledgmentManager.frame p = fr /\
    AcknowledgmentManager.timers (DataLinkLayer.ackManager a')
      !! AcknowledgmentManager.timeout p = Some s.
Proof.
  intros Hphys Hcan Hseq Hlen Hconn Hwf Hws Hexp s.
  destruct (sendDataFrame_sends a data now Hphys Hcan Hseq Hlen)
    as (fr & a' & Hfr & Hsend & _ & Htx & Hpend & Htm & _).
  destruct (buildFrame_parses FrameType.DATA s data eq_refl Hseq Hlen)
    as (fr' & f & Hb & Hp & Ht & Hq & Hdata & Hpl).
  unfold FrameBuilder.createDataFrame in Hfr. fold s in Hfr.
  rewrite Hb in Hfr. injection Hfr as ->.
  destruct (receiveFromPhysical_expected_data b fr f now' Hconn Hwf Hws Hp Ht)
    as (b' & n & Hrun & Hev & Htxb & _); [rewrite Hq; symmetry; exact Hexp|].
  rewrite Hq, Hpl in Hev.
  eexists fr, a', b', _.
  split; [exact Hsend|]. split; [exact Htx|]. split; [exact Hrun|].
  split; [exact Htxb|]. split; [exact Hev|].
  split; [exact Hpend|]. split; [reflexivity | exact Htm].
Qed.

Lemma sent_frame_gets_no_ack_witness :
  exists fr a' b',
    DataLinkLayer.sendDataFrame [x48; x6f] 0
      (DataLinkLayer.setPhysicalLayer DataLinkLayer.new)
      = Normal (DataLinkLayer.sent 0, a') /\
    DataLinkLayer.transmitted a' = [fr] /\
    ReceivePath.receiveFromPhysical fr 3
      {| ReceivePath.node := DataLinkLayer.setPhysicalLayer DataLinkLayer.new;
         ReceivePath.connectionState := CONNECTED;
         ReceivePath.totalFramesReceived := 0;
         ReceivePath.totalDataBytesReceived := 0;
         ReceivePath.emitted := [] |} = Some b' /\
    ReceivePath.transmitted b' = [].
Proof.
  destruct (sent_frame_gets_no_ack
              (DataLinkLayer.setPhysicalLayer DataLinkLayer.new)
              {| ReceivePath.node := DataLinkLayer.setPhysicalLayer DataLinkLayer.new;
                 ReceivePath.connectionState := CONNECTED;
                 ReceivePath.totalFramesReceived := 0;
                 ReceivePath.totalDataBytesReceived := 0;
                 ReceivePath.emitted := [] |}
              [x48; x6f] 0 3)
    as (fr & a' & b' & p & H1 & H2 & H3 & H4 & _).
  - reflexivity.
  - reflexivity.
  - cbn. lia.
  - cbn. lia.
  - split; reflexivity.
  - split; [reflexivity | cbn; lia].
  - reflexivity.
  - reflexivity.
  - exists fr, a', b'. auto.
Defined.

End EndToEnd.
